(** * Blockstack client actions: a shallow embedding of [blockstack_client/actions.py]

    The command functions ([cli_*]) of the client and the helpers they
    share are translated to Rocq functions.  Python dictionaries are finite
    maps from strings to Python values, a [raise] is an explicit [Raise]
    outcome, and every collaborator that lives outside [actions.py] (the
    blockchain proxy, the wallet, the storage drivers, the local RPC
    daemon, the zone file library) is a field of an environment record, so
    that every statement below holds for all behaviours of those
    collaborators.  Logging and [analytics_event] have no part in what a
    command returns and are left out. *)

From Stdlib Require Import PrimFloat SpecFloat FloatOps.
From stdpp Require Import gmap strings list pretty sorting.
From Stdlib Require Import ZArith Ascii String.

#[local] Set Warnings "-register-all".
#[local] Open Scope string_scope.
#[local] Open Scope Z_scope.

(** ** Python values, exceptions and outcomes *)

Module Py.

Inductive pyval : Type :=
| PNone
| PBool (b : bool)
| PInt (z : Z)
| PFloat (f : float)
| PStr (s : string)
| PList (l : list pyval)
| PDict (d : gmap string pyval).

Abbreviation dict := (gmap string pyval).

(** The exceptions the modelled code raises or catches.  [EnvironmentError]
    stands for [IOError]/[OSError] with its [errno]; [SocketError] is
    [socket.error], a subclass of [IOError] that [except socket_error]
    tells apart. *)
Inductive exn : Type :=
| KeyError (k : string)
| TypeError
| ValueError
| AssertionError
| AttributeError
| NameError (v : string)
| UnboundLocalError (v : string)
| OverflowError
| SocketError (errno : Z)
| EnvironmentError (errno : Z)
| UTXOException
| KeyboardInterrupt
| SystemExit (code : Z)
| Exception (msg : string).

Inductive outcome (A : Type) : Type :=
| Ret (a : A)
| Raise (e : exn).
Arguments Ret {A} a.
Arguments Raise {A} e.

Definition bind {A B} (c : outcome A) (k : A -> outcome B) : outcome B :=
  match c with
  | Ret a => k a
  | Raise e => Raise e
  end.

Notation "'do' x <- c ; k" := (bind c (fun x => k))
  (at level 10, x name, c at level 100, k at level 200).

(** [except Exception] catches everything but [KeyboardInterrupt] and
    [SystemExit]; a bare [except:] catches all of them. *)
Definition is_Exception (e : exn) : bool :=
  match e with
  | KeyboardInterrupt | SystemExit _ => false
  | _ => true
  end.

(** [k in d] *)
Definition has_key (k : string) (d : dict) : bool :=
  match d !! k with Some _ => true | None => false end.

(** [d[k]] *)
Definition getitem (d : dict) (k : string) : outcome pyval :=
  match d !! k with
  | Some v => Ret v
  | None => Raise (KeyError k)
  end.

(** [d.get(k, default)] *)
Definition get (d : dict) (k : string) (default : pyval) : pyval :=
  match d !! k with Some v => v | None => default end.

(** Truth value of an object in a condition. *)
Definition truthy (v : pyval) : bool :=
  match v with
  | PNone => false
  | PBool b => b
  | PInt z => negb (z =? 0)
  | PFloat f => negb (PrimFloat.eqb f 0%float)
  | PStr s => negb (String.eqb s EmptyString)
  | PList l => match l with [] => false | _ => true end
  | PDict d => match map_to_list d with [] => false | _ => true end
  end.

(** [v == s] for a string [s]. *)
Definition eq_str (v : pyval) (s : string) : bool :=
  match v with
  | PStr s' => String.eqb s' s
  | _ => false
  end.

Definition is_none (v : pyval) : bool :=
  match v with PNone => true | _ => false end.

(** [{'error': msg}] *)
Definition error_dict (msg : string) : dict := {[ "error" := PStr msg ]}.

(** [{'status': True}] *)
Definition status_true : dict := {[ "status" := PBool true ]}.

(** *** Control flow inside a function body: go on, [return] a dict, or
    raise *)

Inductive flow (A : Type) : Type :=
| Go (a : A)
| Return (d : dict)
| Throw (x : exn).
Arguments Go {A} a.
Arguments Return {A} d.
Arguments Throw {A} x.

Definition then_ {A B} (c : flow A) (k : A -> flow B) : flow B :=
  match c with
  | Go a => k a
  | Return d => Return d
  | Throw x => Throw x
  end.

Notation "'run' x <- c ; k" := (then_ c (fun x => k))
  (at level 10, x name, c at level 100, k at level 200).

Definition lift {A} (o : outcome A) : flow A :=
  match o with
  | Ret a => Go a
  | Raise x => Throw x
  end.

(** [if 'error' in res: return res] *)
Definition return_if_error (res : dict) : flow unit :=
  if has_key "error" res then Return res else Go tt.

(** *** Strings *)

Definition nl : string := String (ascii_of_nat 10) EmptyString.
Definition dquote : string := String (ascii_of_nat 34) EmptyString.

(** [s.split(sep)] for a one-character separator. *)
Fixpoint split (sep : ascii) (s : string) : list string :=
  match s with
  | EmptyString => [EmptyString]
  | String c s' =>
      if Ascii.eqb c sep then EmptyString :: split sep s'
      else match split sep s' with
           | [] => [String c EmptyString]
           | x :: xs => String c x :: xs
           end
  end.

(** [sep in s] *)
Fixpoint contains_char (sep : ascii) (s : string) : bool :=
  match s with
  | EmptyString => false
  | String c s' => Ascii.eqb c sep || contains_char sep s'
  end.

Definition lower_char (c : ascii) : ascii :=
  let n := nat_of_ascii c in
  if (65 <=? n)%nat && (n <=? 90)%nat then ascii_of_nat (n + 32) else c.

(** [s.lower()] *)
Fixpoint lower (s : string) : string :=
  match s with
  | EmptyString => EmptyString
  | String c s' => String (lower_char c) (lower s')
  end.

(** [str.strip()] without an argument removes the whitespace of
    [string.whitespace] from both ends. *)
Definition is_space (c : ascii) : bool :=
  let n := nat_of_ascii c in
  ((9 <=? n) && (n <=? 13) || (n =? 32))%nat.

Fixpoint lstrip (s : string) : string :=
  match s with
  | EmptyString => EmptyString
  | String c s' => if is_space c then lstrip s' else s
  end.

Fixpoint rstrip (s : string) : string :=
  match s with
  | EmptyString => EmptyString
  | String c s' =>
      match rstrip s' with
      | EmptyString => if is_space c then EmptyString else String c EmptyString
      | rest => String c rest
      end
  end.

Definition strip (s : string) : string := rstrip (lstrip s).

(** [s * n] *)
Fixpoint repeat_str (s : string) (n : nat) : string :=
  match n with
  | O => EmptyString
  | S n' => s ++ repeat_str s n'
  end.

(** [sorted(l)] for the order [leb]. *)
Fixpoint insert_by {A} (leb : A -> A -> bool) (x : A) (l : list A) : list A :=
  match l with
  | [] => [x]
  | y :: l' => if leb x y then x :: l else y :: insert_by leb x l'
  end.

Definition sort_by {A} (leb : A -> A -> bool) (l : list A) : list A :=
  foldr (insert_by leb) [] l.

(** The order a comparison decides. *)
Definition order_of {A} (leb : A -> A -> bool) (x y : A) : Prop := leb x y = true.

(** [s in l] for a list of strings. *)
Definition str_in (s : string) (l : list string) : bool :=
  existsb (String.eqb s) l.

(** *** The [int] builtin

    [int] applied to a [str] is the interpreter's own parser; it is a
    parameter ([None] stands for [ValueError], the only exception it raises
    on a [str]).  On the other values [int] is the identity on integers,
    0/1 on booleans, truncation toward zero on floats and a [TypeError] on
    [None], lists and dicts. *)
Record Builtins : Type := {
  int_of_str : string -> option Z;
  (** [repr] of a list or a dict, [str] of a float *)
  repr_of : pyval -> string;
}.

(** [int(f)] for a float: the integer part; [ValueError] on a NaN and
    [OverflowError] on an infinity. *)
Definition int_of_float (f : float) : outcome Z :=
  match Prim2SF f with
  | S754_zero _ => Ret 0
  | S754_infinity _ => Raise OverflowError
  | S754_nan => Raise ValueError
  | S754_finite sign m e =>
      let magnitude :=
        if 0 <=? e then Z.shiftl (Zpos m) e else Z.shiftr (Zpos m) (- e) in
      Ret (if sign then - magnitude else magnitude)
  end.

(** [str(v)], which is also what [format] puts in place of [{}]. *)
Definition str (bi : Builtins) (v : pyval) : string :=
  match v with
  | PStr s => s
  | PNone => "None"
  | PBool true => "True"
  | PBool false => "False"
  | PInt z => pretty z
  | PFloat _ | PList _ | PDict _ => repr_of bi v
  end.

Definition int (bi : Builtins) (v : pyval) : outcome Z :=
  match v with
  | PInt z => Ret z
  | PBool b => Ret (if b then 1 else 0)
  | PFloat f => int_of_float f
  | PStr s => match int_of_str bi s with
              | Some z => Ret z
              | None => Raise ValueError
              end
  | PNone | PList _ | PDict _ => Raise TypeError
  end.

(** A reading of plain decimal literals (whitespace around it, an
    optional sign, digits), used as the instance of [int_of_str] in the
    examples. *)
Definition digit_of (c : ascii) : option Z :=
  let n := nat_of_ascii c in
  if (48 <=? n)%nat && (n <=? 57)%nat then Some (Z.of_nat (n - 48)) else None.

Fixpoint digits_value (acc : Z) (s : string) : option Z :=
  match s with
  | EmptyString => Some acc
  | String c s' =>
      match digit_of c with
      | Some d => digits_value (10 * acc + d) s'
      | None => None
      end
  end.

Definition decimal_int (s : string) : option Z :=
  match strip s with
  | EmptyString => None
  | String c s' =>
      if Ascii.eqb c "-" then
        match s' with
        | EmptyString => None
        | _ => option_map Z.opp (digits_value 0 s')
        end
      else if Ascii.eqb c "+" then
        match s' with
        | EmptyString => None
        | _ => digits_value 0 s'
        end
      else digits_value 0 (String c s')
  end.

Definition decimal_builtins : Builtins :=
  {| int_of_str := decimal_int; repr_of := fun _ => "<object>" |}.

End Py.
Import Py.

(** ** Constants of [config.py] *)

Module Config.

Definition NAME_UPDATE : string := "+".
Definition MAXIMUM_NAMES_PER_ADDRESS : Z := 25.

End Config.

(** ** [cli_namespace_reveal] *)

Module Namespace.

(** The parsed command line of [namespace_reveal]. *)
Record Args : Type := {
  namespace_id : string;
  addr : string;
  lifetime : pyval;
  coeff : pyval;
  base : pyval;
  bucket_exponents : string;
  nonalpha_discount : pyval;
  no_vowel_discount : pyval;
  privatekey : string;
}.

(** The positional arguments handed to the proxy's [namespace_reveal]. *)
Record RevealCall : Type := {
  rc_namespace_id : string;
  rc_addr : string;
  rc_lifetime : Z;
  rc_coeff : Z;
  rc_base : Z;
  rc_bucket_exponents : list Z;
  rc_nonalpha_discount : Z;
  rc_no_vowel_discount : Z;
  rc_privatekey : string;
}.

Record Env : Type := {
  builtins : Builtins;
  (** the proxy call that builds and sends the reveal transaction *)
  namespace_reveal : RevealCall -> outcome dict;
}.

Definition msg_not_16 : string :=
  "`bucket_exponents` must be a 16-value CSV of integers".
Definition msg_not_in_range : string :=
  "`bucket_exponents` must contain integers between 0 and 15, inclusively.".

(** The loop over the fields: each one is converted in place with [int]
    and asserted to lie in [0, 16); the first [ValueError] or
    [AssertionError] leaves the loop ([None]). *)
Fixpoint convert_exponents (bi : Builtins) (fields : list string) : option (list Z) :=
  match fields with
  | [] => Some []
  | s :: rest =>
      match int_of_str bi s with
      | None => None
      | Some v =>
          if (0 <=? v) && (v <? 16) then
            match convert_exponents bi rest with
            | Some vs => Some (v :: vs)
            | None => None
            end
          else None
      end
  end.

(** The result, and the reveal calls made on the way. *)
Definition cli_namespace_reveal (e : Env) (args : Args)
  : outcome dict * list RevealCall :=
  let fields := split "," (bucket_exponents args) in
  if negb (List.length fields =? 16)%nat then (Ret (error_dict msg_not_16), [])
  else
    match convert_exponents (builtins e) fields with
    | None => (Ret (error_dict msg_not_in_range), [])
    | Some exps =>
        let conv :=
          do lt <- int (builtins e) (lifetime args);
          let lt := if lt <? 0 then 4294967295 else lt in
          do c <- int (builtins e) (coeff args);
          do b <- int (builtins e) (base args);
          do na <- int (builtins e) (nonalpha_discount args);
          do nv <- int (builtins e) (no_vowel_discount args);
          Ret {| rc_namespace_id := namespace_id args;
                 rc_addr := addr args;
                 rc_lifetime := lt;
                 rc_coeff := c;
                 rc_base := b;
                 rc_bucket_exponents := exps;
                 rc_nonalpha_discount := na;
                 rc_no_vowel_discount := nv;
                 rc_privatekey := privatekey args |} in
        match conv with
        | Raise x => (Raise x, [])
        | Ret call => (namespace_reveal e call, [call])
        end
    end.

End Namespace.

(** ** Wallet access: [wallet_ensure_exists], [get_wallet_with_backoff],
    [get_wallet_keys] *)

Module Wallet.

(** [errno.ECONNREFUSED] (Linux). *)
Definition ECONNREFUSED : Z := 111.

Record Env : Type := {
  (** [wallet_exists(config_dir)] *)
  wallet_exists : bool;
  (** [initialize_wallet(wallet_path, password)] *)
  initialize_wallet : option string -> dict;
  (** [os.path.exists(wallet_path)] *)
  wallet_path_exists : bool;
  is_wallet_unlocked : bool;
  (** [unlock_wallet(config_dir, password)] *)
  unlock_wallet : option string -> dict;
  (** [get_wallet(config_path)]: what the [n]-th call of one retry loop
      does (the daemon may still be starting up during the first ones). *)
  get_wallet : nat -> outcome dict;
}.

Definition wallet_ensure_exists (e : Env) (password : option string) : dict :=
  if negb (wallet_exists e) then
    let res := initialize_wallet e password in
    if has_key "error" res then res else status_true
  else status_true.

(** How the [for i in range(3)] loop is left. *)
Inductive loop_exit : Type :=
| Returned (wallet_keys : dict)
| Reraised (x : exn)
| Exhausted (i : nat).

(** What the loop did besides: the arguments of [time.sleep], in order,
    and the number of calls of [get_wallet]. *)
Record effects : Type := {
  sleeps : list Z;
  calls : nat;
}.

Definition no_effects : effects := {| sleeps := []; calls := 0 |}.
Definition one_call : effects := {| sleeps := []; calls := 1 |}.
Definition after_sleep (secs : Z) (fx : effects) : effects :=
  {| sleeps := secs :: sleeps fx; calls := S (calls fx) |}.

(** The loop over the remaining values of [range(3)]; [i] is the value
    the loop variable holds when the range is used up. *)
Fixpoint backoff_loop (e : Env) (range : list nat) (i : nat) : loop_exit * effects :=
  match range with
  | [] => (Exhausted i, no_effects)
  | j :: rest =>
      match get_wallet e j with
      | Ret wallet_keys => (Returned wallet_keys, one_call)
      | Raise (EnvironmentError errno as se) | Raise (SocketError errno as se) =>
          if errno =? ECONNREFUSED then
            let '(x, fx) := backoff_loop e rest j in
            (x, after_sleep (Z.of_nat j + 1) fx)
          else (Reraised se, one_call)
      | Raise x => (Reraised x, one_call)
      end
  end.

(** The value is [None] ([Ret None]), a dict, or an exception. *)
Definition get_wallet_with_backoff (e : Env) : outcome (option dict) * effects :=
  match backoff_loop e (seq 0 3) 0%nat with
  | (Returned wallet_keys, fx) => (Ret (Some wallet_keys), fx)
  | (Reraised x, fx) => (Raise x, fx)
  | (Exhausted i, fx) =>
      if (i =? 3)%nat
      then (Ret (Some (error_dict "Failed to connect to API daemon")), fx)
      else (Ret None, fx)
  end.

Definition get_wallet_keys (e : Env) (password : option string) : outcome (option dict) :=
  let init :=
    if negb (wallet_path_exists e) then
      let res := initialize_wallet e None in
      if has_key "error" res then Some res else None
    else None in
  match init with
  | Some res => Ret (Some res)
  | None =>
      let unlock :=
        if negb (is_wallet_unlocked e) then
          let res := unlock_wallet e password in
          if has_key "error" res then Some res else None
        else None in
      match unlock with
      | Some res => Ret (Some res)
      | None => fst (get_wallet_with_backoff e)
      end
  end.

(** ['error' in wallet_keys]: a [TypeError] when [wallet_keys] is [None]. *)
Definition error_in (wallet_keys : option dict) : outcome bool :=
  match wallet_keys with
  | Some d => Ret (has_key "error" d)
  | None => Raise TypeError
  end.

(** [wallet_keys[k]] *)
Definition key_of (wallet_keys : option dict) (k : string) : outcome pyval :=
  match wallet_keys with
  | Some d => getitem d k
  | None => Raise TypeError
  end.

End Wallet.

(** ** Preconditions and fees: [check_valid_name],
    [operation_sanity_check], [get_total_registration_fees] *)

Module Sanity.

Record Env : Type := {
  builtins : Builtins;
  (** [scripts.is_name_valid], [b40.is_b40] *)
  is_name_valid : string -> bool;
  is_b40 : string -> bool;
  (** proxy queries *)
  is_name_registered : string -> bool;
  is_name_owner : string -> string -> bool;
  get_names_owned_by_address : string -> list string;
  get_name_cost : string -> outcome dict;
  (** [get_addresses_from_file(wallet_path)]: payment, owner, data *)
  get_addresses_from_file : string * string * string;
  get_privkey_info_params : pyval -> pyval;
  get_privkey_info_address : pyval -> string;
  (** live estimators of [backend/nameops.py]; [Ret None] is a failed
      estimate.  Arguments: name, (price,) key info or address, owner
      address, owner key parameters. *)
  estimate_preorder_tx_fee : string -> pyval -> option string -> pyval -> outcome (option Z);
  estimate_register_tx_fee : string -> option string -> pyval -> outcome (option Z);
  estimate_update_tx_fee : string -> pyval -> option string -> pyval -> outcome (option Z);
  estimate_transfer_tx_fee : string -> pyval -> option string -> pyval -> outcome (option Z);
  (** [get_tx_fee(tx_hex)] of [backend/blockchain.py] *)
  get_tx_fee : string -> option Z;
  get_balance : string -> option Z;
  is_address_usable : string -> bool;
  (** [pybitcoin.is_b58check_address] *)
  is_b58check_address : string -> outcome bool;
  (** byte lengths of [constants.py] *)
  APPROX_PREORDER_TX_LEN : nat;
  APPROX_REGISTER_TX_LEN : nat;
  APPROX_UPDATE_TX_LEN : nat;
  APPROX_TRANSFER_TX_LEN : nat;
}.

(** Modelled from the spec: [can_receive_name] of [backend/blockchain.py]
    is not among the sources.  The spec (4.1) has it that "the destination
    address must not already own more than the configured per-address name
    cap (default 25)"; the cap is [MAXIMUM_NAMES_PER_ADDRESS] of
    [config.py]. *)
Definition can_receive_name (e : Env) (address : string) : bool :=
  Z.of_nat (List.length (get_names_owned_by_address e address))
    <=? Config.MAXIMUM_NAMES_PER_ADDRESS.

Definition msg_no_tld : string :=
  "The name specified is invalid. Names must end with a period followed by a valid TLD.".
Definition msg_empty_name : string :=
  "The name specified is invalid. Names must be at least one character long, not including the TLD.".
Definition msg_not_b40 : string :=
  "The name specified is invalid. Names may only contain alphanumeric characters, dashes, and underscores.".

(** [None] when the name is valid, else the reason. *)
Definition check_valid_name (e : Env) (fqu : string) : option string :=
  if is_name_valid e fqu then None
  else if negb (contains_char "." fqu) then Some msg_no_tld
  else
    let name := hd EmptyString (split "." fqu) in
    if String.eqb name EmptyString then Some msg_empty_name
    else if negb (is_b40 e name) then Some msg_not_b40
    else Some "The name is invalid".

Definition msg_not_registered (fqu : string) : string :=
  fqu ++ " is not registered yet.".
Definition msg_not_owner (fqu : string) : string :=
  fqu ++ " is not in your possession.".
Definition msg_balance (payment_address : string) (balance : Z) : string :=
  "Address " ++ payment_address ++ " does not have a sufficient balance (need "
    ++ pretty balance ++ ").".
Definition msg_unusable (payment_address : string) : string :=
  "Address " ++ payment_address
    ++ " has insufficiently confirmed transactions. Wait and try later.".
Definition msg_bad_address (transfer_address : string) : string :=
  "Address " ++ transfer_address ++ " is not a valid Bitcoin address.".
Definition msg_too_many_names (transfer_address : string) : string :=
  "Address " ++ transfer_address ++ " owns too many names already.".

Definition operation_sanity_check (e : Env) (fqu : string)
    (payment_privkey_info owner_privkey_info : pyval)
    (transfer_address : option string) : outcome dict :=
  if negb (is_name_registered e fqu) then Ret (error_dict (msg_not_registered fqu))
  else
    let '(payment_address, owner_address, _) := get_addresses_from_file e in
    if negb (is_name_owner e fqu owner_address) then Ret (error_dict (msg_not_owner fqu))
    else
      let owner_privkey_params := get_privkey_info_params e owner_privkey_info in
      let '(estimate_func, approx_tx_fee) :=
        match transfer_address with
        | Some _ => (estimate_transfer_tx_fee e, repeat_str "00" (APPROX_TRANSFER_TX_LEN e))
        | None => (estimate_update_tx_fee e, repeat_str "00" (APPROX_UPDATE_TX_LEN e))
        end in
      do tx_fee <- estimate_func fqu payment_privkey_info (Some owner_address)
                     owner_privkey_params;
      let tx_fee :=
        match tx_fee with
        | None => get_tx_fee e approx_tx_fee
        | Some _ => tx_fee
        end in
      match tx_fee with
      | None => Ret (error_dict "Failed to get fee estimate")
      | Some tx_fee =>
          match get_balance e payment_address with
          | None => Ret (error_dict "Failed to get balance")
          | Some balance =>
              if balance <? tx_fee then Ret (error_dict (msg_balance payment_address balance))
              else if negb (is_address_usable e payment_address)
              then Ret (error_dict (msg_unusable payment_address))
              else
                match transfer_address with
                | None => Ret status_true
                | Some transfer_address =>
                    match is_b58check_address e transfer_address with
                    | Raise _ => Ret (error_dict (msg_bad_address transfer_address))
                    | Ret _ =>
                        if negb (can_receive_name e transfer_address)
                        then Ret (error_dict (msg_too_many_names transfer_address))
                        else Ret status_true
                    end
                end
          end
      end.

(** [int(fee)] on a fee that may be [None]. *)
Definition int_of_fee (fee : option Z) : outcome Z :=
  match fee with
  | Some z => Ret z
  | None => Raise TypeError
  end.

(** One step of the [try] block of [get_total_registration_fees]: keep a
    live estimate, else "do our best" with [get_tx_fee] on a transaction of
    the approximate length and remember that a fallback was used. *)
Definition or_fallback (e : Env) (live : option Z) (approx_len : nat)
    (insufficient_funds : bool) : option Z * bool :=
  match live with
  | Some fee => (Some fee, insufficient_funds)
  | None => (get_tx_fee e (repeat_str "00" approx_len), true)
  end.

Definition warn_insufficient : string := "Insufficient funds; fees are rough estimates.".
Definition warn_no_wallet : string := "Wallet not accessed; fees are rough estimates.".

Definition get_total_registration_fees (e : Env) (name : string)
    (payment_privkey_info owner_privkey_info : pyval) : outcome dict :=
  match get_name_cost e name with
  | Raise x =>
      if is_Exception x then Ret (error_dict "Could not connect to server") else Raise x
  | Ret data =>
      if has_key "error" data then
        Ret (error_dict ("Could not determine price of name: "
                           ++ str (builtins e) (get data "error" PNone)))
      else
        let payment_address :=
          if is_none payment_privkey_info then None
          else Some (get_privkey_info_address e payment_privkey_info) in
        let owner_address :=
          if is_none owner_privkey_info then None
          else Some (get_privkey_info_address e owner_privkey_info) in
        do satoshis <- getitem data "satoshis";
        let estimates :=
          let owner_privkey_params := get_privkey_info_params e owner_privkey_info in
          do live <- estimate_preorder_tx_fee e name satoshis payment_address
                       owner_privkey_params;
          let '(preorder_tx_fee, insufficient_funds) :=
            or_fallback e live (APPROX_PREORDER_TX_LEN e) false in
          do live <- estimate_register_tx_fee e name payment_address owner_privkey_params;
          let '(register_tx_fee, insufficient_funds) :=
            or_fallback e live (APPROX_REGISTER_TX_LEN e) insufficient_funds in
          do live <- estimate_update_tx_fee e name payment_privkey_info owner_address
                       owner_privkey_params;
          let '(update_tx_fee, insufficient_funds) :=
            or_fallback e live (APPROX_UPDATE_TX_LEN e) insufficient_funds in
          Ret (preorder_tx_fee, register_tx_fee, update_tx_fee, insufficient_funds) in
        match estimates with
        | Raise UTXOException =>
            Ret (error_dict "Failed to query UTXO provider.  Please try again.")
        | Raise x => Raise x
        | Ret (preorder_tx_fee, register_tx_fee, update_tx_fee, insufficient_funds) =>
            do preorder_tx_fee <- int_of_fee preorder_tx_fee;
            do register_tx_fee <- int_of_fee register_tx_fee;
            do update_tx_fee <- int_of_fee update_tx_fee;
            do name_price <- int (builtins e) satoshis;
            let reply : dict :=
              <["total_estimated_cost" :=
                  PInt (name_price + preorder_tx_fee + register_tx_fee + update_tx_fee)]>
              (<["update_tx_fee" := PInt update_tx_fee]>
              (<["register_tx_fee" := PInt register_tx_fee]>
              (<["preorder_tx_fee" := PInt preorder_tx_fee]>
              (<["name_price" := satoshis]> ∅)))) in
            let reply : dict :=
              if insufficient_funds && negb (is_none payment_privkey_info)
              then <["warnings" := PList [PStr warn_insufficient]]> reply
              else reply in
            let reply : dict :=
              if is_none payment_privkey_info then
                match get reply "warnings" (PList []) with
                | PList ws => <["warnings" := PList (ws ++ [PStr warn_no_wallet])]> reply
                | _ => reply
                end
              else reply in
            Ret reply
        end
  end.

End Sanity.

(** ** [load_zonefile] *)

Module Zonefile.

Record Env : Type := {
  builtins : Builtins;
  (** [json.loads]; [None] when it raises *)
  json_loads : string -> option pyval;
  (** [blockstack_zones.parse_zone_file] *)
  parse_zone_file : string -> outcome dict;
  (** [blockstack_zones.make_zone_file] *)
  make_zone_file : pyval -> outcome string;
  (** [traceback.format_exc()] while handling the exception *)
  format_exc : exn -> string;
  (** [user.is_user_zonefile]: the URI/TXT record shape of a standard
      user zonefile *)
  is_user_zonefile : dict -> bool;
  (** [storage.hash_zonefile] and the [value_hash] of the name's current
      blockchain record, if any *)
  hash_zonefile : dict -> string;
  current_value_hash : string -> option string;
}.

(** Modelled from the spec: [is_zonefile_current] is not among the
    sources.  The spec (4.2) has a zonefile identical when "its hash equals
    the name's current on-chain [value_hash]". *)
Definition is_zonefile_current (e : Env) (fqu : string) (user_data : dict) : bool :=
  match current_value_hash e fqu with
  | Some value_hash => String.eqb (hash_zonefile e user_data) value_hash
  | None => false
  end.

Definition msg_invalid_data : string := "Zonefile data is invalid.".
Definition msg_invalid_zonefile (traceback : string) : string :=
  "Invalid zonefile" ++ nl ++ traceback.
Definition msg_invalid_origin : string := "Invalid $origin; must use your name".
Definition msg_missing_ttl : string := "Missing $ttl; please supply a positive integer".
Definition msg_nonstandard : string :=
  "Zonefile is missing or has invalid URI and/or TXT records".
Definition msg_invalid_ttl : string := "Invalid $ttl; must be a positive integer".
Definition msg_identical : string :=
  "Zonefile data is same as current zonefile; update not needed.".

(** The first [try]: JSON first, then zone file text. *)
Definition parse (e : Env) (user_data : string) : outcome (option pyval) :=
  match json_loads e user_data with
  | Some v => Ret (Some v)
  | None =>
      match parse_zone_file e user_data with
      | Ret d => Ret (Some (PDict d))
      | Raise x => if is_Exception x then Ret None else Raise x
      end
  end.

(** [int(user_data['$ttl'])] followed by [assert ttl >= 0]; any
    [Exception] is caught by the caller. *)
Definition ttl_ok (e : Env) (user_data : dict) : bool :=
  match getitem user_data "$ttl" with
  | Ret v =>
      match int (builtins e) v with
      | Ret ttl => 0 <=? ttl
      | Raise _ => false
      end
  | Raise _ => false
  end.

Definition load_zonefile (e : Env) (fqu : string) (zonefile_data : pyval)
    (check_current : bool) : outcome dict :=
  let user_data := str (builtins e) zonefile_data in
  match parse e user_data with
  | Raise x => Raise x
  | Ret None => Ret (error_dict msg_invalid_data)
  | Ret (Some user_data) =>
      match make_zone_file e user_data with
      | Raise x =>
          if is_Exception x then Ret (error_dict (msg_invalid_zonefile (format_exc e x)))
          else Raise x
      | Ret user_zonefile =>
          match user_data with
          | PDict user_data =>
              if negb (eq_str (get user_data "$origin" (PStr EmptyString)) fqu)
              then Ret (error_dict msg_invalid_origin)
              else if negb (has_key "$ttl" user_data)
              then Ret (error_dict msg_missing_ttl)
              else if negb (is_user_zonefile e user_data)
              then Ret (error_dict msg_nonstandard)
              else if negb (ttl_ok e user_data)
              then Ret (error_dict msg_invalid_ttl)
              else if check_current && is_zonefile_current e fqu user_data
              then Ret (<["zonefile" := PStr user_zonefile]>
                        (<["identical" := PBool true]> (error_dict msg_identical)))
              else Ret (<["zonefile" := PStr user_zonefile]> status_true)
          | _ => Raise AttributeError
          end
      end
  end.

End Zonefile.

(** ** The terminal: [prompt_invalid_zonefile] *)

Module Console.

Record Env : Type := {
  (** [raw_input(prompt)] *)
  raw_input : string -> outcome string;
}.

Definition invalid_zonefile_prompt : string :=
  nl ++ "WARNING!  This zone file data does not look like a zone file." ++ nl
  ++ "If you proceed to use this data, no one will be able to look" ++ nl
  ++ "up your profile." ++ nl ++ nl ++ "Proceed? (Y/n): ".

Definition prompt_invalid_zonefile (e : Env) : outcome bool :=
  do proceed <- raw_input e invalid_zonefile_prompt;
  Ret (str_in (lower proceed) ["y"]).

End Console.

(** ** The name operations that go through [operation_sanity_check]:
    [cli_update], [cli_transfer], [cli_revoke], [cli_migrate],
    [cli_set_zonefile_hash] *)

Module Ops.

(** The calls on the local RPC daemon that queue and broadcast a name
    operation. *)
Inductive RpcCall : Type :=
| backend_update (fqu : string) (data_b64 : pyval) (profile : pyval) (zonefile_hash : pyval)
| backend_transfer (fqu : string) (transfer_address : string)
| backend_revoke (fqu : string)
| backend_migrate (fqu : string).

(** The state a command can change: the operation queue, the transactions
    broadcast so far, and the log of the RPC calls attempted.  Only the
    daemon behind [rpc.backend_*] writes the first two; every other
    collaborator is a query whose answer is fixed for the duration of one
    command. *)
Record World : Type := {
  queue : list dict;
  broadcasts : list string;
  rpc_log : list RpcCall;
}.

Record Env : Type := {
  wallet : Wallet.Env;
  chain : Sanity.Env;
  zone : Zonefile.Env;
  (** [start_rpc_endpoint(config_dir, password)] *)
  start_rpc_endpoint : option string -> dict;
  (** [os.path.exists], and [open(path).read()] ([None] when it raises) *)
  path_exists : string -> bool;
  read_file : string -> option string;
  (** [get_name_zonefile(fqu, raw_zonefile=True)], without and with
      [include_name_record=True] *)
  get_name_zonefile : string -> option dict;
  get_name_zonefile_and_record : string -> option dict;
  (** [storage.get_zonefile_data_hash], [base64.b64encode] *)
  get_zonefile_data_hash : pyval -> outcome string;
  b64encode : pyval -> outcome string;
  (** the global [allow_invalid_zonefile], which [actions.py] reads but
      never defines: its value if a star import provides one, else a
      [NameError] *)
  allow_invalid_zonefile : outcome pyval;
  console : Console.Env;
  (** [blockstack_profiles.is_profile_in_legacy_format] *)
  is_profile_in_legacy_format : dict -> outcome bool;
  (** the daemon: the reply of a call, the queue after it and the
      transactions it broadcast *)
  backend : RpcCall -> list dict -> outcome dict * list dict * list string;
}.

Definition rpc_call (e : Env) (c : RpcCall) (w : World) : outcome dict * World :=
  let '(r, q, txs) := backend e c (queue w) in
  (r, {| queue := q; broadcasts := broadcasts w ++ txs; rpc_log := rpc_log w ++ [c] |}).

(** [wallet_keys = get_wallet_keys(...)] followed by
    [if 'error' in wallet_keys: return wallet_keys] *)
Definition load_wallet_keys (e : Env) (password : option string) : flow (option dict) :=
  run wallet_keys <- lift (Wallet.get_wallet_keys (wallet e) password);
  run is_error <- lift (Wallet.error_in wallet_keys);
  if is_error then
    match wallet_keys with
    | Some d => Return d
    | None => Throw TypeError
    end
  else Go wallet_keys.

(** [error = check_valid_name(fqu)] followed by
    [if error: return {'error': error}] *)
Definition return_if_invalid (e : Env) (fqu : string) : flow unit :=
  match Sanity.check_valid_name (chain e) fqu with
  | Some error => if truthy (PStr error) then Return (error_dict error) else Go tt
  | None => Go tt
  end.

(** The block that ends each of the five commands: how the daemon's
    reply becomes the command's result.  [result] is what the final
    [return result] yields. *)
Definition reply_result (resp : dict) (result : outcome dict) : outcome dict :=
  if has_key "success" resp && truthy (get resp "success" PNone) then Ret resp
  else if has_key "error" resp then Ret resp
  else if has_key "message" resp then Ret {[ "error" := get resp "message" PNone ]}
  else result.

Definition msg_rpc_failed : string := "Error talking to server, try again.".

(** A command is its checks, then the [try: resp = rpc.backend_...]
    block, then [reply_result].  [bare_except] tells a bare [except:] from
    [except Exception]. *)
Definition perform (e : Env) (checks : flow RpcCall) (bare_except : bool)
    (result : outcome dict) (w : World) : outcome dict * World :=
  match checks with
  | Return d => (Ret d, w)
  | Throw x => (Raise x, w)
  | Go call =>
      let '(r, w') := rpc_call e call w in
      match r with
      | Raise x =>
          if bare_except || is_Exception x then (Ret (error_dict msg_rpc_failed), w')
          else (Raise x, w')
      | Ret resp => (reply_result resp result, w')
      end
  end.


(** *** The call of [operation_sanity_check] inside a command *)

Record SanityCall : Type := {
  sc_fqu : string;
  sc_payment_privkey_info : pyval;
  sc_owner_privkey_info : pyval;
  sc_transfer_address : option string;
}.

Definition sanity_check (e : Env) (c : SanityCall) : outcome dict :=
  Sanity.operation_sanity_check (chain e) (sc_fqu c)
    (sc_payment_privkey_info c) (sc_owner_privkey_info c) (sc_transfer_address c).

(** [res = operation_sanity_check(...)] followed by
    [if 'error' in res: return res] *)
Definition pass_sanity_check (e : Env) (c : SanityCall) : flow unit :=
  run res <- lift (sanity_check e c);
  return_if_error res.

(** *** [cli_update] *)

Record UpdateArgs : Type := {
  u_name : string;
  u_data : option string;
}.

(** [is_valid_path(path)] *)
Definition is_valid_path (path : pyval) : bool :=
  match path with
  | PStr s => negb (contains_char zero s)
  | _ => false
  end.

Definition msg_data_required : string := "Zone file data required in non-interactive mode".
Definition msg_read_failed (path : string) : string :=
  "Failed to read " ++ dquote ++ path ++ dquote.
Definition msg_matches_current : string :=
  "Zonefile matches the current name hash; not updating.".
Definition msg_not_updated_invalid : string := "Zone file not updated (invalid)".
Definition msg_not_updated_reason (reason : string) : string :=
  "Zone file not updated (reason: " ++ reason ++ ")".

(** From the top of [cli_update] to the call of [load_zonefile]: the
    wallet keys and the zonefile data to load. *)
Definition update_before_load (e : Env) (args : UpdateArgs) (password : option string)
    (interactive : bool) : flow (option dict * pyval) :=
  if negb interactive && match u_data args with None => true | Some _ => false end
  then Return (error_dict msg_data_required)
  else
  run _ <- return_if_error (Wallet.wallet_ensure_exists (wallet e) None);
  run _ <- return_if_error (start_rpc_endpoint e password);
  let fqu := u_name args in
  let zonefile_data := match u_data args with Some s => PStr s | None => PNone end in
  run _ <- return_if_invalid e fqu;
  (* is this a path? *)
  run zonefile_data <-
    match zonefile_data with
    | PStr path =>
        if is_valid_path zonefile_data && path_exists e path then
          match read_file e path with
          | Some content => Go (PStr content)
          | None => Return (error_dict (msg_read_failed path))
          end
        else Go zonefile_data
    | _ => Go zonefile_data
    end;
  (* load wallet *)
  run wallet_keys <- load_wallet_keys e password;
  (* fetch remotely? *)
  run zonefile_data <-
    (if is_none zonefile_data then
       let zonefile_data_res :=
         match get_name_zonefile e fqu with
         | Some res => res
         | None => error_dict "No zonefile"
         end in
       if negb (has_key "error" zonefile_data_res)
       then lift (getitem zonefile_data_res "zonefile")
       else Go zonefile_data
     else Go zonefile_data);
  Go (wallet_keys, zonefile_data).

(** "load zonefile, if given": what becomes of the result of
    [load_zonefile]; the text and the hash to send. *)
Definition update_use_zonefile (e : Env) (interactive : bool) (zonefile_data : pyval)
    (user_data_res : dict) : flow (pyval * pyval) :=
  if negb (has_key "error" user_data_res) then
    run zf <- lift (getitem user_data_res "zonefile");
    run user_data_hash <- lift (get_zonefile_data_hash e zf);
    run _ <- lift (Zonefile.parse_zone_file (zone e) (str (Zonefile.builtins (zone e)) zf));
    Go (zf, PStr user_data_hash)
  else if has_key "identical" user_data_res
  then Return (error_dict msg_matches_current)
  else if negb interactive then
    run _ <- (if is_none zonefile_data then Go PNone
              else lift (allow_invalid_zonefile e));
    Return (error_dict msg_not_updated_invalid)
  else
    (* not a well-formed zonefile (but maybe that's okay! ask the user) *)
    run _ <-
      (if negb (is_none zonefile_data) then
         run proceed <- lift (Console.prompt_invalid_zonefile (console e));
         if negb proceed then
           Return (error_dict (msg_not_updated_reason
                     (str (Zonefile.builtins (zone e)) (get user_data_res "error" PNone))))
         else Go tt
       else Go tt);
    if negb (is_none zonefile_data) then
      run user_data_hash <- lift (get_zonefile_data_hash e zonefile_data);
      Go (zonefile_data, PStr user_data_hash)
    else Go (zonefile_data, PNone).

(** From the top of [cli_update] to the call of
    [operation_sanity_check]. *)
Definition update_before_sanity (e : Env) (args : UpdateArgs) (password : option string)
    (interactive : bool) : flow (SanityCall * (pyval * pyval)) :=
  run before <- update_before_load e args password interactive;
  let '(wallet_keys, zonefile_data) := before in
  let fqu := u_name args in
  run user_data_res <- lift (Zonefile.load_zonefile (zone e) fqu zonefile_data true);
  run loaded <- update_use_zonefile e interactive zonefile_data user_data_res;
  run _ <- lift (Wallet.key_of wallet_keys "data_pubkey");
  run payment_privkey_info <- lift (Wallet.key_of wallet_keys "payment_privkey");
  run owner_privkey_info <- lift (Wallet.key_of wallet_keys "owner_privkey");
  Go ({| sc_fqu := fqu;
         sc_payment_privkey_info := payment_privkey_info;
         sc_owner_privkey_info := owner_privkey_info;
         sc_transfer_address := None |}, loaded).

(** The arguments of [rpc.backend_update]; [base64.b64encode] is inside
    the [try]. *)
Definition update_after_sanity (e : Env) (fqu : string) (loaded : pyval * pyval)
    : flow RpcCall :=
  let '(user_data_txt, user_data_hash) := loaded in
  match b64encode e user_data_txt with
  | Ret data_b64 => Go (backend_update fqu (PStr data_b64) PNone user_data_hash)
  | Raise x => if is_Exception x then Return (error_dict msg_rpc_failed) else Throw x
  end.

Definition update_checks (e : Env) (args : UpdateArgs) (password : option string)
    (interactive : bool) : flow RpcCall :=
  run before <- update_before_sanity e args password interactive;
  let '(call, loaded) := before in
  run _ <- pass_sanity_check e call;
  update_after_sanity e (sc_fqu call) loaded.

Definition cli_update (e : Env) (args : UpdateArgs) (password : option string)
    (interactive : bool) (w : World) : outcome dict * World :=
  perform e (update_checks e args password interactive) false
    (Raise (UnboundLocalError "result")) w.

(** *** [cli_transfer] *)

Record TransferArgs : Type := {
  t_name : string;
  t_address : string;
}.

Definition transfer_before_sanity (e : Env) (args : TransferArgs)
    (password : option string) : flow SanityCall :=
  run _ <- return_if_error (Wallet.wallet_ensure_exists (wallet e) None);
  run _ <- return_if_error (start_rpc_endpoint e password);
  run _ <- load_wallet_keys e password;
  let fqu := t_name args in
  run _ <- return_if_invalid e fqu;
  (* load wallet *)
  run wallet_keys <- load_wallet_keys e password;
  run payment_privkey_info <- lift (Wallet.key_of wallet_keys "payment_privkey");
  run owner_privkey_info <- lift (Wallet.key_of wallet_keys "owner_privkey");
  let transfer_address := t_address args in
  Go {| sc_fqu := fqu;
        sc_payment_privkey_info := payment_privkey_info;
        sc_owner_privkey_info := owner_privkey_info;
        sc_transfer_address := Some transfer_address |}.

Definition transfer_checks (e : Env) (args : TransferArgs) (password : option string)
    : flow RpcCall :=
  run call <- transfer_before_sanity e args password;
  run _ <- pass_sanity_check e call;
  Go (backend_transfer (sc_fqu call) (t_address args)).

Definition cli_transfer (e : Env) (args : TransferArgs) (password : option string)
    (w : World) : outcome dict * World :=
  perform e (transfer_checks e args password) true
    (Raise (UnboundLocalError "result")) w.

(** *** [cli_revoke] *)

Definition msg_does_not_exist (fqu : string) : string := fqu ++ " does not exist.".

Definition revoke_prompt : string :=
  "==============================" ++ nl
  ++ "WARNING: THIS CANNOT BE UNDONE" ++ nl
  ++ "==============================" ++ nl
  ++ " Are you sure? (y/n): ".

(** The confirmation dialogue: anything but [y] leaves the program with
    [exit(0)], and so does a [KeyboardInterrupt]. *)
Definition confirm_revoke (e : Env) : flow unit :=
  match Console.raw_input (console e) revoke_prompt with
  | Ret user_input =>
      if negb (String.eqb (lower user_input) "y") then Throw (SystemExit 0) else Go tt
  | Raise KeyboardInterrupt => Throw (SystemExit 0)
  | Raise x => Throw x
  end.

Definition revoke_before_sanity (e : Env) (name : string) (password : option string)
    : flow SanityCall :=
  run _ <- return_if_error (Wallet.wallet_ensure_exists (wallet e) None);
  run _ <- return_if_error (start_rpc_endpoint e password);
  let fqu := name in
  run _ <- return_if_invalid e fqu;
  if negb (Sanity.is_name_registered (chain e) fqu)
  then Return (error_dict (msg_does_not_exist fqu))
  else
  run wallet_keys <- load_wallet_keys e password;
  run owner_privkey_info <- lift (Wallet.key_of wallet_keys "owner_privkey");
  run payment_privkey_info <- lift (Wallet.key_of wallet_keys "payment_privkey");
  Go {| sc_fqu := fqu;
        sc_payment_privkey_info := payment_privkey_info;
        sc_owner_privkey_info := owner_privkey_info;
        sc_transfer_address := None |}.

Definition revoke_checks (e : Env) (name : string) (password : option string)
    (interactive : bool) : flow RpcCall :=
  run call <- revoke_before_sanity e name password;
  run _ <- pass_sanity_check e call;
  run _ <- (if interactive then confirm_revoke e else Go tt);
  Go (backend_revoke (sc_fqu call)).

Definition cli_revoke (e : Env) (name : string) (password : option string)
    (interactive : bool) (w : World) : outcome dict * World :=
  perform e (revoke_checks e name password interactive) true (Ret ∅) w.

(** *** [cli_set_zonefile_hash] *)

Definition is_hex_char (c : ascii) : bool :=
  let n := nat_of_ascii c in
  ((48 <=? n) && (n <=? 57) || (97 <=? n) && (n <=? 102) || (65 <=? n) && (n <=? 70))%nat.

(** [re.match(r'^[a-fA-F0-9]+$', s) is not None]: hexadecimal digits, at
    least one, and possibly one final newline (which [$] lets through). *)
Fixpoint hex_then_end (s : string) : bool :=
  match s with
  | EmptyString => true
  | String c s' =>
      if is_hex_char c then hex_then_end s'
      else Ascii.eqb c (ascii_of_nat 10) && String.eqb s' EmptyString
  end.

Definition matches_hex (s : string) : bool :=
  match s with
  | EmptyString => false
  | String c _ => is_hex_char c && hex_then_end s
  end.

Definition set_zonefile_hash_before_sanity (e : Env) (name zonefile_hash : string)
    (password : option string) : flow SanityCall :=
  run _ <- return_if_error (Wallet.wallet_ensure_exists (wallet e) password);
  run _ <- return_if_error (start_rpc_endpoint e password);
  let fqu := name in
  run _ <- return_if_invalid e fqu;
  if negb (matches_hex zonefile_hash) || negb (String.length zonefile_hash =? 40)%nat
  then Return (error_dict "Not a valid zonefile hash")
  else
  run wallet_keys <- load_wallet_keys e password;
  run owner_privkey_info <- lift (Wallet.key_of wallet_keys "owner_privkey");
  run payment_privkey_info <- lift (Wallet.key_of wallet_keys "payment_privkey");
  Go {| sc_fqu := fqu;
        sc_payment_privkey_info := payment_privkey_info;
        sc_owner_privkey_info := owner_privkey_info;
        sc_transfer_address := None |}.

Definition set_zonefile_hash_checks (e : Env) (name zonefile_hash : string)
    (password : option string) : flow RpcCall :=
  run call <- set_zonefile_hash_before_sanity e name zonefile_hash password;
  run _ <- pass_sanity_check e call;
  Go (backend_update (sc_fqu call) PNone PNone (PStr zonefile_hash)).

Definition cli_set_zonefile_hash (e : Env) (name zonefile_hash : string)
    (password : option string) (w : World) : outcome dict * World :=
  perform e (set_zonefile_hash_checks e name zonefile_hash password) false
    (Raise (UnboundLocalError "result")) w.


(** *** [cli_migrate] *)

Definition nonstandard_prompt : string :=
  "WARNING!  Non-standard zonefile detected."
  ++ "If you proceed, your zonefile will be reset"
  ++ "and you will have to re-build your profile."
  ++ "Proceed? (Y/n): ".

(** The [try] around parsing the zonefile text and testing it for the
    legacy format; the bare [except:] sets [nonstandard].  The result is
    [(legacy, nonstandard)]. *)
Definition classify_zonefile (e : Env) (user_zonefile_txt : pyval) : bool * bool :=
  match Zonefile.parse_zone_file (zone e)
          (str (Zonefile.builtins (zone e)) user_zonefile_txt) with
  | Ret user_zonefile =>
      match is_profile_in_legacy_format e user_zonefile with
      | Ret legacy => (legacy, false)
      | Raise _ => (false, true)
      end
  | Raise _ => (false, true)
  end.

Definition migrate_before_sanity (e : Env) (name : string) (password : option string)
    : flow SanityCall :=
  run _ <- return_if_error (Wallet.wallet_ensure_exists (wallet e) None);
  let fqu := name in
  run _ <- return_if_invalid e fqu;
  run _ <- return_if_error (start_rpc_endpoint e password);
  run wallet_keys <- load_wallet_keys e password;
  run owner_privkey_info <- lift (Wallet.key_of wallet_keys "owner_privkey");
  run payment_privkey_info <- lift (Wallet.key_of wallet_keys "payment_privkey");
  Go {| sc_fqu := fqu;
        sc_payment_privkey_info := payment_privkey_info;
        sc_owner_privkey_info := owner_privkey_info;
        sc_transfer_address := None |}.

(** Between the sanity check and the RPC: is the stored zonefile one
    that can be migrated? *)
Definition migrate_after_sanity (e : Env) (fqu : string) (interactive force : bool)
    : flow RpcCall :=
  run _ <-
    match get_name_zonefile_and_record e fqu with
    | None => Go tt
    | Some user_zonefile =>
        if has_key "error" user_zonefile then Go tt
        else
          run name_rec <- lift (getitem user_zonefile "name_record");
          run user_zonefile_txt <- lift (getitem user_zonefile "zonefile");
          run user_zonefile_hash <- lift (get_zonefile_data_hash e user_zonefile_txt);
          let '(legacy, nonstandard) := classify_zonefile e user_zonefile_txt in
          run current <-
            match name_rec with
            | PDict name_rec =>
                Go (eq_str (get name_rec "value_hash" (PStr EmptyString)) user_zonefile_hash)
            | _ => Throw AttributeError
            end;
          if nonstandard && negb legacy then
            (* maybe we're trying to reset the profile? *)
            if interactive && negb force then
              run proceed_str <- lift (Console.raw_input (console e) nonstandard_prompt);
              if negb (str_in (lower proceed_str) ["y"])
              then Return (error_dict "Non-standard zonefile")
              else Go tt
            else if negb force then Return (error_dict "Non-standard zonefile")
            else Go tt
          else if negb legacy && negb force then
            if current then Return (error_dict Zonefile.msg_identical)
            else Return (error_dict "Not a legacy profile; cannot migrate.")
          else Go tt
    end;
  Go (backend_migrate fqu).

Definition migrate_checks (e : Env) (name : string) (password : option string)
    (interactive force : bool) : flow RpcCall :=
  run call <- migrate_before_sanity e name password;
  run _ <- pass_sanity_check e call;
  migrate_after_sanity e (sc_fqu call) interactive force.

Definition cli_migrate (e : Env) (name : string) (password : option string)
    (interactive force : bool) (w : World) : outcome dict * World :=
  perform e (migrate_checks e name password interactive force) false
    (Raise (UnboundLocalError "result")) w.

(** *** The five commands as one family *)

Inductive Operation : Type :=
| Update (args : UpdateArgs) (interactive : bool)
| Transfer (args : TransferArgs)
| Revoke (name : string) (interactive : bool)
| Migrate (name : string) (interactive force : bool)
| SetZonefileHash (name zonefile_hash : string).

Definition run_operation (e : Env) (op : Operation) (password : option string)
    (w : World) : outcome dict * World :=
  match op with
  | Update args interactive => cli_update e args password interactive w
  | Transfer args => cli_transfer e args password w
  | Revoke name interactive => cli_revoke e name password interactive w
  | Migrate name interactive force => cli_migrate e name password interactive force w
  | SetZonefileHash name zonefile_hash => cli_set_zonefile_hash e name zonefile_hash password w
  end.

(** The call of [operation_sanity_check] a command makes, when it gets
    that far. *)
Definition before_sanity (e : Env) (op : Operation) (password : option string)
    : flow SanityCall :=
  match op with
  | Update args interactive =>
      run before <- update_before_sanity e args password interactive;
      Go (fst before)
  | Transfer args => transfer_before_sanity e args password
  | Revoke name _ => revoke_before_sanity e name password
  | Migrate name _ _ => migrate_before_sanity e name password
  | SetZonefileHash name zonefile_hash =>
      set_zonefile_hash_before_sanity e name zonefile_hash password
  end.

End Ops.

(** ** Server information: [get_server_info], [cli_ping], [cli_info],
    [cli_consensus] *)

Module Info.

Record Env : Type := {
  builtins : Builtins;
  (** [config.VERSION] and the client configuration *)
  VERSION : string;
  conf : dict;
  (** the proxy's [getinfo()] and [get_consensus_at(height)] *)
  getinfo : dict;
  get_consensus_at : Z -> pyval;
  (** the rest of [get_server_info] after [if not get_local_info], which
      adds the display of the pending queue to the result *)
  add_pending_queue : dict -> outcome dict;
}.

(** [a or b], with [b] evaluated only when [a] is false. *)
Definition or_else (a : pyval) (b : outcome pyval) : outcome pyval :=
  if truthy a then Ret a else b.

(** [d.get(k)] *)
Definition get_or_none (d : dict) (k : string) : pyval := get d k PNone.

Definition raise_if_none (v : pyval) (msg : string) : outcome unit :=
  if is_none v then Raise (Exception msg) else Ret tt.

Definition get_server_info (e : Env) (get_local_info : bool) : outcome dict :=
  let resp := getinfo e in
  do advanced_mode <- getitem (conf e) "advanced_mode";
  let result : dict :=
    <["advanced_mode" := advanced_mode]> (<["cli_version" := PStr (VERSION e)]> ∅) in
  if has_key "error" resp then
    Ret (<["server_error" := get resp "error" PNone]>
         (<["server_alive" := PBool false]> result))
  else
    let result := <["server_alive" := PBool true]> result in
    do server_host <-
      or_else (get_or_none resp "server_host") (Ret (get_or_none (conf e) "server"));
    let result := <["server_host" := server_host]> result in
    do server_port <-
      or_else (get_or_none resp "server_port")
        (do port <- int (builtins e) (get_or_none (conf e) "port"); Ret (PInt port));
    let result := <["server_port" := server_port]> result in
    do server_version <-
      or_else (get_or_none resp "server_version")
        (or_else (get_or_none resp "blockstack_version")
           (Ret (get_or_none resp "blockstore_version")));
    let result := <["server_version" := server_version]> result in
    do _ <- raise_if_none server_version "Missing server version";
    do last_block_processed <-
      or_else (get_or_none resp "last_block_processed")
        (or_else (get_or_none resp "last_block") (Ret (get_or_none resp "blocks")));
    let result := <["last_block_processed" := last_block_processed]> result in
    do _ <- raise_if_none last_block_processed "Missing height of block last processed";
    do last_block_seen <-
      or_else (get_or_none resp "last_block_seen")
        (or_else (get_or_none resp "blockchain_blocks")
           (Ret (get_or_none resp "bitcoind_blocks")));
    let result := <["last_block_seen" := last_block_seen]> result in
    do _ <- raise_if_none last_block_seen "Missing height of last block seen";
    match resp !! "consensus" with
    | None => Raise (Exception "Missing consensus hash")
    | Some consensus =>
        let result := <["consensus_hash" := consensus]> result in
        if negb get_local_info then Ret result else add_pending_queue e result
    end.

Definition cli_info (e : Env) : outcome dict := get_server_info e true.

Definition cli_ping (e : Env) : outcome dict := get_server_info e false.

(** [args.block_height] is [None] or the height given. *)
Definition cli_consensus (e : Env) (block_height : pyval) : outcome dict :=
  if is_none block_height then
    (* by default get last indexed block *)
    let resp := getinfo e in
    if has_key "error" resp then Ret resp
    else if has_key "last_block_processed" resp && has_key "consensus_hash" resp then
      do consensus <- getitem resp "consensns_hash";
      do height <- getitem resp "last_block_processed";
      Ret (<["block_height" := height]> {[ "consensus" := consensus ]})
    else Ret (error_dict "Server is indexing.  Try again shortly.")
  else
    do height <- int (builtins e) block_height;
    let resp := get_consensus_at e height in
    Ret (<["block_height" := block_height]> {[ "consensus" := resp ]}).

End Info.

(** ** Name queries: [cli_lookup], [cli_whois] *)

Module Lookup.

Record Env : Type := {
  chain : Sanity.Env;
  (** the proxy's [get_name_blockchain_record(fqu)] *)
  get_name_blockchain_record : string -> outcome dict;
  (** [get_name_profile(name, name_record=..., include_raw_zonefile=True,
      use_legacy=True)]: the profile and the zonefile *)
  get_name_profile : string -> dict -> outcome (pyval * pyval);
  format_exc : exn -> string;
}.

Definition msg_revoked : string :=
  "Name is revoked. Use get_name_blockchain_record for details.".
Definition msg_no_profile (fqu : string) : string := fqu ++ " has no profile".
Definition msg_lookup_failed (traceback : string) : string :=
  "Failed to look up name" ++ nl ++ traceback.

(** [v[k]] on any value: only a dict can be indexed by a string. *)
Definition subscript (v : pyval) (k : string) : outcome pyval :=
  match v with
  | PDict d => getitem d k
  | _ => Raise TypeError
  end.

Definition cli_lookup (e : Env) (name : string) : outcome dict :=
  let fqu := name in
  match Sanity.check_valid_name (chain e) fqu with
  | Some error => Ret (error_dict error)
  | None =>
      match get_name_blockchain_record e fqu with
      | Raise (SocketError _) => Ret (error_dict "Error connecting to server.")
      | Raise x => Raise x
      | Ret blockchain_record =>
          if has_key "error" blockchain_record then Ret blockchain_record
          else if negb (has_key "value_hash" blockchain_record)
          then Ret (error_dict (msg_no_profile fqu))
          else if truthy (get blockchain_record "revoked" (PBool false))
          then Ret (error_dict msg_revoked)
          else
            let body : outcome dict :=
              do res <- get_name_profile e name blockchain_record;
              let '(user_profile, user_zonefile) := res in
              let is_error :=
                match user_zonefile with
                | PDict d => has_key "error" d
                | _ => false
                end in
              match user_zonefile, is_error with
              | PDict d, true => Ret d
              | _, _ =>
                  do raw_zonefile <- subscript user_zonefile "raw_zonefile";
                  Ret (<["zonefile" := raw_zonefile]> {[ "profile" := user_profile ]})
              end in
            match body with
            | Ret d => Ret d
            | Raise x =>
                if is_Exception x then Ret (error_dict (msg_lookup_failed (format_exc e x)))
                else Raise x
            end
      end
  end.

(** [int(_) for _ in history]: [None] at the first key that is no
    integer ([ValueError]). *)
Fixpoint ints_of_keys (bi : Builtins) (keys : list string) : option (list Z) :=
  match keys with
  | [] => Some []
  | k :: rest =>
      match int_of_str bi k with
      | None => None
      | Some z =>
          match ints_of_keys bi rest with
          | Some zs => Some (z :: zs)
          | None => None
          end
      end
  end.

Definition value_hash_is_empty (value_hash : pyval) : bool :=
  is_none value_hash || eq_str value_hash "null" || eq_str value_hash EmptyString.

Definition cli_whois (e : Env) (name : string) : outcome dict :=
  let fqu := name in
  match Sanity.check_valid_name (chain e) fqu with
  | Some error => Ret (error_dict error)
  | None =>
      match get_name_blockchain_record e fqu with
      | Raise (SocketError _) => Raise (SystemExit 0)
      | Raise x => Raise x
      | Ret record =>
          if has_key "error" record then Ret record
          else if truthy (get record "revoked" (PBool false))
          then Ret (error_dict msg_revoked)
          else
            let update_heights :=
              match get record "history" (PDict ∅) with
              | PDict history =>
                  option_map (sort_by Z.leb)
                    (ints_of_keys (Sanity.builtins (chain e)) (map fst (map_to_list history)))
              | _ => None
              end in
            match update_heights with
            | None => Ret (error_dict "Invalid record data returned")
            | Some update_heights =>
                do preorder_block_number <- getitem record "preorder_block_number";
                do last_renewed <- getitem record "last_renewed";
                do txid <- getitem record "txid";
                do address <- getitem record "address";
                do sender <- getitem record "sender";
                let result : dict :=
                  <["owner_script" := sender]>
                  (<["owner_address" := address]>
                  (<["last_transaction_id" := txid]>
                  (<["block_renewed_at" := last_renewed]>
                  (<["block_preordered_at" := preorder_block_number]> ∅)))) in
                let value_hash := get record "value_hash" PNone in
                let result : dict :=
                  if value_hash_is_empty value_hash
                  then <["has_zonefile" := PBool false]> result
                  else <["zonefile_hash" := value_hash]>
                       (<["has_zonefile" := PBool true]> result) in
                let result : dict :=
                  match last update_heights with
                  | Some h => <["last_transaction_height" := PInt h]> result
                  | None => result
                  end in
                let expire_block := get record "expired_block" PNone in
                let result : dict :=
                  if negb (is_none expire_block)
                  then <["expire_block" := expire_block]> result
                  else result in
                Ret result
            end
      end
  end.

End Lookup.

(** ** [cli_sync_zonefile] *)

Module Sync.

Record Args : Type := {
  name : string;
  (** [args.txid] when the attribute exists, else [None] *)
  txid : pyval;
  (** [getattr(args, 'zonefile', None)] *)
  zonefile : pyval;
  (** [getattr(args, 'nonstandard', None)] *)
  nonstandard : option string;
}.

(** One call of [zonefile_data_replicate(name, user_data, txid, ...)]. *)
Record Replication : Type := {
  r_name : string;
  r_user_data : pyval;
  r_txid : pyval;
}.

Record Env : Type := {
  zone : Zonefile.Env;
  console : Console.Env;
  conf : dict;
  (** [queuedb_find(kind, name, path=queue_path)] and [extract_entry] of
      [backend/queue.py] *)
  queuedb_find : string -> string -> list dict;
  queue_extract_entry : dict -> dict;
  (** [get_name_zonefile(name, raw_zonefile=True)] *)
  get_name_zonefile : string -> option dict;
  get_zonefile_data_hash : pyval -> outcome string;
  get_name_blockchain_record : string -> outcome dict;
  zonefile_data_replicate : Replication -> dict;
}.

(** The loop over the queued updates: the zonefile and the [tx_hash] of
    the first entry that carries a zonefile. *)
Fixpoint first_queued (e : Env) (queued_data : list dict) : option (pyval * pyval) :=
  match queued_data with
  | [] => None
  | queued_zfdata :: rest =>
      let update_data := queue_extract_entry e queued_zfdata in
      let zfdata := get update_data "zonefile" PNone in
      if is_none zfdata then first_queued e rest
      else Some (zfdata, get queued_zfdata "tx_hash" PNone)
  end.

(** Does a history item record an update to [zonefile_hash]?  The four
    [continue] tests of the loop body. *)
Definition item_matches (item : dict) (zonefile_hash : string) : bool :=
  let op := get item "op" PNone in
  let value_hash := get item "value_hash" PNone in
  negb (is_none op) && eq_str op Config.NAME_UPDATE
  && negb (is_none value_hash) && eq_str value_hash zonefile_hash.

(** The loop over [reversed(sorted(name_history))]; [txid] stays [None]
    when no item matches. *)
Fixpoint history_walk (name_history : dict) (keys : list string)
    (zonefile_hash : string) : outcome pyval :=
  match keys with
  | [] => Ret PNone
  | history_key :: rest =>
      do name_history_item <- getitem name_history history_key;
      match name_history_item with
      | PDict item =>
          if item_matches item zonefile_hash then Ret (get item "txid" PNone)
          else history_walk name_history rest zonefile_hash
      | _ => Raise AttributeError
      end
  end.

Definition history_keys (name_history : dict) : list string :=
  rev (sort_by String.leb (map fst (map_to_list name_history))).

(** "find the tx hash that corresponds to this zonefile" *)
Definition txid_of_record (name_rec : dict) (zonefile_hash : string) : outcome pyval :=
  do op <- getitem name_rec "op";
  if eq_str op Config.NAME_UPDATE then
    do value_hash <- getitem name_rec "value_hash";
    if eq_str value_hash zonefile_hash then getitem name_rec "txid" else Ret PNone
  else
    do name_history <- getitem name_rec "history";
    match name_history with
    | PDict name_history =>
        history_walk name_history (history_keys name_history) zonefile_hash
    | _ => Raise TypeError
    end.

Definition msg_not_replicating : string := "Not replicating invalid zone file".
Definition msg_no_name_record : string := "Failed to get name record to look up tx hash.".
Definition msg_no_txid : string := "Unable to lookup txid that wrote zonefile".


(** "zonefile given": the data to replicate when [args.zonefile] is
    there ([None] when it is not). *)
Definition load_given_zonefile (e : Env) (args : Args) (interactive nonstandard : bool)
    : flow pyval :=
  if negb (is_none (zonefile args)) then
    let user_data := zonefile args in
    run loaded <-
      match Zonefile.load_zonefile (zone e) (name args) user_data true with
      | Ret user_data_res =>
          if has_key "error" user_data_res && negb (has_key "identical" user_data_res)
          then Go (false, user_data)
          else
            match user_data_res !! "zonefile" with
            | Some zf => Go (true, zf)
            | None => Go (false, user_data)
            end
      | Raise x => if is_Exception x then Go (false, user_data) else Throw x
      end;
    let '(valid, user_data) := loaded in
    (* if it's not a valid zonefile, ask if the user wants to sync *)
    if negb valid && interactive then
      run proceed <- lift (Console.prompt_invalid_zonefile (console e));
      if negb proceed then Return (error_dict msg_not_replicating) else Go user_data
    else if negb valid && negb nonstandard
    then Return (error_dict msg_not_replicating)
    else Go user_data
  else Go PNone.

(** The block under [if txid is None or user_data is None]: the data,
    the txid and the zonefile hash to go on with. *)
Definition find_txid (e : Env) (name : string) (txid user_data : pyval)
    : flow (pyval * pyval * pyval) :=
  (* load zonefile and txid from queue? *)
  let '(user_data, txid) :=
    match first_queued e (queuedb_find e "update" name) with
    | Some found => found
    | None => (user_data, txid)
    end in
  run user_data <-
    (if is_none user_data then
       (* not in queue.  Maybe it's available from one of the storage drivers? *)
       let res :=
         match get_name_zonefile e name with
         | Some res => res
         | None => error_dict "No data loaded"
         end in
       if has_key "error" res then Return res else lift (getitem res "zonefile")
     else Go user_data);
  (* have user data *)
  run zonefile_hash <- lift (get_zonefile_data_hash e user_data);
  run txid <-
    (if is_none txid then
       (* not in queue.  Fetch from blockstack server *)
       run name_rec <- lift (get_name_blockchain_record e name);
       if has_key "error" name_rec then Return (error_dict msg_no_name_record)
       else lift (txid_of_record name_rec zonefile_hash)
     else Go txid);
  if is_none txid then Return (error_dict msg_no_txid)
  else Go (user_data, txid, PStr zonefile_hash).

Definition cli_sync_zonefile (e : Env) (args : Args) (interactive nonstandard : bool)
    : outcome dict * list Replication :=
  let body : flow (pyval * pyval * pyval) :=
    run _ <- (if has_key "server" (conf e) && has_key "port" (conf e)
                 && has_key "queue_path" (conf e)
              then Go tt else Throw AssertionError);
    let txid := txid args in
    let nonstandard :=
      match Sync.nonstandard args with
      | Some s =>
          if negb nonstandard && truthy (PStr s)
          then str_in (lower s) ["yes"; "1"; "true"]
          else nonstandard
      | None => nonstandard
      end in
    run user_data <- load_given_zonefile e args interactive nonstandard;
    if is_none txid || is_none user_data then find_txid e (name args) txid user_data
    else Go (user_data, txid, PNone) in
  match body with
  | Return d => (Ret d, [])
  | Throw x => (Raise x, [])
  | Go (user_data, txid, zonefile_hash) =>
      (* can proceed to replicate *)
      let call := {| r_name := name args; r_user_data := user_data; r_txid := txid |} in
      let res := zonefile_data_replicate e call in
      (Ret (if has_key "error" res then res
            else <["value_hash" := zonefile_hash]> status_true), [call])
  end.

End Sync.

(** ** The configuration file: [find_missing], [parse_servers],
    [get_config] of [config.py] *)

Module Settings.

Definition DEFAULT_BLOCKSTACKD_PORT : string := "6264".
Definition DEFAULT_BLOCKSTACKD_SERVER : string := "server.blockstack.org".
Definition DEFAULT_DHT_MIRROR : string := "mirror.blockstack.org".
Definition DEFAULT_DHT_PORT : string := "6266".
Definition DEFAULT_API_PORT : Z := 6270.
Definition BLOCKSTACK_DEFAULT_STORAGE_DRIVERS : string := "disk,dht".
Definition DEFAULT_BLOCKCHAINS : list string := ["bitcoin"; "ethereum"].
Definition DEFAULT_POLL_INTERVAL : Z := 600.

(** [find_missing(conf)]: the loop appends, in this order, the keys that
    are not in [conf.keys()]. *)
Definition find_missing (conf : dict) : list string :=
  List.filter (fun k => negb (has_key k conf))
    ["server"; "port"; "metadata"; "storage_drivers"].

(** The loop of [parse_servers] over [server_list]; the unpacking
    [server_host, server_port = server.split(":")] raises [ValueError]
    unless there are exactly two parts, and so does [int] on a port that
    is no integer. *)
Fixpoint parse_server_list (bi : Builtins) (server_list : list string)
    : outcome (list (string * Z)) :=
  match server_list with
  | [] => Ret []
  | server :: rest =>
      let server := strip server in
      if (String.length server =? 0)%nat then parse_server_list bi rest
      else
        match split ":" server with
        | [server_host; server_port] =>
            match int_of_str bi server_port with
            | Some server_port =>
                do parsed_servers <- parse_server_list bi rest;
                Ret ((server_host, server_port) :: parsed_servers)
            | None => Raise ValueError
            end
        | _ => Raise ValueError
        end
  end.

Definition parse_servers (bi : Builtins) (servers : string) : outcome (list (string * Z)) :=
  parse_server_list bi (split "," servers).


(** *** [get_config] *)

Definition upper_char (c : ascii) : ascii :=
  let n := nat_of_ascii c in
  if ((97 <=? n) && (n <=? 122))%nat then ascii_of_nat (n - 32) else c.

Fixpoint upper (s : string) : string :=
  match s with
  | EmptyString => EmptyString
  | String c s' => String (upper_char c) (upper s')
  end.

Record Env : Type := {
  builtins : Builtins;
  (** constants of [config.py] that depend on the home directory *)
  CONFIG_DIR : string;
  BLOCKSTACK_METADATA_DIR : string;
  SPV_HEADERS_PATH : string;
  DEFAULT_QUEUE_PATH : string;
  (** [os.path.exists], [os.path.isdir], [os.path.dirname]; [os.makedirs]
      ([false] when it raises) *)
  path_exists : string -> bool;
  isdir : string -> bool;
  dirname : string -> string;
  makedirs : string -> bool;
  (** [make_default_config()] *)
  make_default_config : bool;
  (** [parser.read(path)], and the parser after it: is there a
      [blockstack-client] section, has it the option, and what
      [parser.get] makes of the option *)
  parser_read : string -> outcome unit;
  has_section : bool;
  has_option : string -> bool;
  get_option : string -> outcome string;
  (** [virtualchain.get_blockchain_config(blockchain_name, path)] *)
  get_blockchain_config : string -> string -> outcome dict;
}.

(** The defaults [get_config] starts from. *)
Definition defaults (e : Env) : dict :=
  <["rpc_detach" := PBool true]>
  (<["extra_servers" := PStr EmptyString]>
  (<["poll_interval" := PStr (pretty DEFAULT_POLL_INTERVAL)]>
  (<["queue_path" := PStr (DEFAULT_QUEUE_PATH e)]>
  (<["api_endpoint_port" := PInt DEFAULT_API_PORT]>
  (<["dht_mirror_port" := PStr DEFAULT_DHT_PORT]>
  (<["dht_mirror" := PStr DEFAULT_DHT_MIRROR]>
  (<["advanced_mode" := PBool false]>
  (<["blockchain_headers" := PStr (SPV_HEADERS_PATH e)]>
  (<["metadata" := PStr (BLOCKSTACK_METADATA_DIR e)]>
  (<["storage_drivers" := PStr BLOCKSTACK_DEFAULT_STORAGE_DRIVERS]>
  (<["port" := PStr DEFAULT_BLOCKSTACKD_PORT]>
  (<["server" := PStr DEFAULT_BLOCKSTACKD_SERVER]> ∅)))))))))))).

(** [if parser.has_option(s, k): config[k] = f(parser.get(s, k))] *)
Definition set_option (e : Env) (k : string) (f : string -> outcome pyval) (config : dict)
    : outcome dict :=
  if has_option e k then
    do v <- get_option e k;
    do v <- f v;
    Ret (<[k := v]> config)
  else Ret config.

Definition as_str (v : string) : outcome pyval := Ret (PStr v).

Definition as_int (e : Env) (v : string) : outcome pyval :=
  match int_of_str (builtins e) v with
  | Some z => Ret (PInt z)
  | None => Raise ValueError
  end.

(** A parsed server is a pair [(host, port)]; it is written as a
    two-element list here. *)
Definition as_servers (e : Env) (v : string) : outcome pyval :=
  do servers <- parse_servers (builtins e) v;
  Ret (PList (map (fun server => PList [PStr (fst server); PInt (snd server)]) servers)).

(** The block under [if parser.has_section("blockstack-client")]. *)
Definition read_client_section (e : Env) (config : dict) : outcome dict :=
  do config <- set_option e "server" as_str config;
  (* a port that is no integer is reported and the default is kept *)
  let config :=
    if has_option e "port" then
      match bind (get_option e "port") (as_int e) with
      | Ret port => <["port" := port]> config
      | Raise _ => config
      end
    else config in
  do config <- set_option e "storage_drivers" as_str config;
  do config <- set_option e "metadata" as_str config;
  do config <- set_option e "blockchain_headers" as_str config;
  do config <- set_option e "advanced_mode"
                 (fun v => Ret (PBool (str_in (upper v) ["TRUE"; "1"; "ON"]))) config;
  do config <- set_option e "dht_mirror" as_str config;
  do config <- set_option e "dht_mirror_port" as_str config;
  do config <- set_option e "api_endpoint_port" (as_int e) config;
  do config <- set_option e "rpc_token" as_str config;
  do config <- set_option e "queue_path" as_str config;
  do config <- set_option e "poll_interval" (as_int e) config;
  do config <- set_option e "extra_servers" (as_servers e) config;
  set_option e "rpc_detach"
    (fun v => Ret (PBool (str_in (lower v) ["true"; "on"; "1"]))) config.

(** [for blockchain_name in DEFAULT_BLOCKCHAINS: config.update(...)] *)
Fixpoint import_blockchains (e : Env) (path : string) (names : list string) (config : dict)
    : outcome dict :=
  match names with
  | [] => Ret config
  | blockchain_name :: rest =>
      do blockchain_config <- get_blockchain_config e blockchain_name path;
      import_blockchains e path rest (blockchain_config ∪ config)
  end.

(** [Ret None] is [return None]. *)
Definition get_config (e : Env) (path : string) : outcome (option dict) :=
  if negb (path_exists e path) && negb (make_default_config e) then Ret None
  else
    match parser_read e path with
    | Raise x => if is_Exception x then Ret None else Raise x
    | Ret _ =>
        do config <- (if has_section e then read_client_section e (defaults e)
                      else Ret (defaults e));
        (* import blockchain-specific options, if there are any *)
        do config <- import_blockchains e path DEFAULT_BLOCKCHAINS config;
        do metadata <- getitem config "metadata";
        match metadata with
        | PStr metadata =>
            if negb (isdir e metadata)
               && negb (String.prefix (CONFIG_DIR e) metadata && makedirs e metadata)
            then Ret None
            else
              (* pass along the config path and dir *)
              Ret (Some (<["dir" := PStr (dirname e path)]> (<["path" := PStr path]> config)))
        | _ => Raise TypeError
        end
    end.

End Settings.

(** * Concrete inputs

    Environments and arguments on which the commands are run in the
    examples further down. *)

Module Samples.

Definition reveal_env : Namespace.Env :=
  {| Namespace.builtins := decimal_builtins;
     Namespace.namespace_reveal := fun _ => Ret status_true |}.

Definition reveal_args (bucket_exponents : string) : Namespace.Args :=
  {| Namespace.namespace_id := "id";
     Namespace.addr := "1RevealAddr";
     Namespace.lifetime := PInt 52595;
     Namespace.coeff := PInt 250;
     Namespace.base := PInt 4;
     Namespace.bucket_exponents := bucket_exponents;
     Namespace.nonalpha_discount := PInt 10;
     Namespace.no_vowel_discount := PInt 10;
     Namespace.privatekey := "5Kprivate" |}.

Definition sixteen_exponents : string := "6,5,4,3,2,1,0,0,0,0,0,0,0,0,0,0".
Definition three_exponents : string := "6,5,4".
Definition exponent_out_of_range : string := "6,5,4,3,2,1,0,0,0,0,0,0,0,0,0,16".

(** A daemon that never comes up: every [get_wallet] is refused. *)
Definition refusing_wallet : Wallet.Env :=
  {| Wallet.wallet_exists := true;
     Wallet.initialize_wallet := fun _ => status_true;
     Wallet.wallet_path_exists := true;
     Wallet.is_wallet_unlocked := true;
     Wallet.unlock_wallet := fun _ => status_true;
     Wallet.get_wallet := fun _ => Raise (EnvironmentError Wallet.ECONNREFUSED) |}.


(** A server that has indexed block 455000. *)
Definition indexed_reply : dict :=
  {[ "last_block_processed" := PInt 455000;
     "consensus_hash" := PStr "4b1d4a7c0d2c8a4e7d3c3b1f5e6a7b8c" ]}.

Definition info_env (reply : dict) : Info.Env :=
  {| Info.builtins := decimal_builtins;
     Info.VERSION := "0.14.0";
     Info.conf := {[ "advanced_mode" := PBool false;
                     "server" := PStr "server.blockstack.org";
                     "port" := PStr "6264" ]};
     Info.getinfo := reply;
     Info.get_consensus_at := fun _ => PStr "4b1d4a7c0d2c8a4e7d3c3b1f5e6a7b8c";
     Info.add_pending_queue := fun result => Ret result |}.


(** The blockchain as the preconditions see it: [alice.id] is registered
    and owned by the wallet's owner address; [1FullAddr] owns 26 names and
    every other address none.  [live_fee] is what the live estimators
    answer, [fallback_fee] what [get_tx_fee] answers. *)
Definition chain_env (live_fee fallback_fee : option Z) : Sanity.Env :=
  {| Sanity.builtins := decimal_builtins;
     Sanity.is_name_valid := fun fqu => String.eqb fqu "alice.id" || String.eqb fqu "bob.id";
     Sanity.is_b40 := fun _ => true;
     Sanity.is_name_registered := fun fqu => String.eqb fqu "alice.id";
     Sanity.is_name_owner := fun fqu addr =>
       String.eqb fqu "alice.id" && String.eqb addr "1OwnerAddr";
     Sanity.get_names_owned_by_address := fun addr =>
       if String.eqb addr "1FullAddr" then replicate 26 "name.id" else [];
     Sanity.get_name_cost := fun _ => Ret {[ "satoshis" := PInt 160000 ]};
     Sanity.get_addresses_from_file := ("1PaymentAddr", "1OwnerAddr", "1DataAddr");
     Sanity.get_privkey_info_params := fun _ => PList [PInt 1; PInt 1];
     Sanity.get_privkey_info_address := fun _ => "1PaymentAddr";
     Sanity.estimate_preorder_tx_fee := fun _ _ _ _ => Ret live_fee;
     Sanity.estimate_register_tx_fee := fun _ _ _ => Ret live_fee;
     Sanity.estimate_update_tx_fee := fun _ _ _ _ => Ret live_fee;
     Sanity.estimate_transfer_tx_fee := fun _ _ _ _ => Ret live_fee;
     Sanity.get_tx_fee := fun _ => fallback_fee;
     Sanity.get_balance := fun _ => Some 1000000;
     Sanity.is_address_usable := fun _ => true;
     Sanity.is_b58check_address := fun _ => Ret true;
     Sanity.APPROX_PREORDER_TX_LEN := 620;
     Sanity.APPROX_REGISTER_TX_LEN := 620;
     Sanity.APPROX_UPDATE_TX_LEN := 1240;
     Sanity.APPROX_TRANSFER_TX_LEN := 1240 |}.

(** A server that answers every name with [record]. *)
Definition lookup_env (record : dict) : Lookup.Env :=
  {| Lookup.chain := chain_env (Some 5000) (Some 6000);
     Lookup.get_name_blockchain_record := fun _ => Ret record;
     Lookup.get_name_profile := fun _ _ =>
       Ret (PDict {[ "name" := PStr "Alice" ]},
            PDict {[ "raw_zonefile" := PStr "$ORIGIN alice.id" ]});
     Lookup.format_exc := fun _ => "Traceback (most recent call last)" |}.

Definition revoked_record : dict :=
  {[ "revoked" := PBool true;
     "value_hash" := PNone;
     "address" := PStr "1OwnerAddr" ]}.

(** A record of a revoked name that carries no [value_hash] key. *)
Definition revoked_record_without_hash : dict :=
  {[ "revoked" := PBool true; "address" := PStr "1OwnerAddr" ]}.


(** Zone files.  The text of alice's zone file, what it parses to, and
    variants of it. *)
Definition alice_zonefile_txt : string :=
  "$ORIGIN alice.id $TTL 3600 _http._tcp URI 10 1 https://gaia.example/alice.json".

Definition alice_zonefile : dict :=
  {[ "$origin" := PStr "alice.id";
     "$ttl" := PInt 3600;
     "uri" := PList [PDict {[ "name" := PStr "_http._tcp";
                              "priority" := PInt 10;
                              "weight" := PInt 1;
                              "target" := PStr "https://gaia.example/alice.json" ]}] ]}.

Definition new_zonefile_txt : string :=
  "$ORIGIN alice.id $TTL 3600 _http._tcp URI 10 1 https://gaia.example/alice2.json".

Definition new_zonefile : dict :=
  <["uri" := PList [PDict {[ "name" := PStr "_http._tcp";
                             "priority" := PInt 10;
                             "weight" := PInt 1;
                             "target" := PStr "https://gaia.example/alice2.json" ]}]]>
    alice_zonefile.

Definition bob_zonefile_txt : string :=
  "$ORIGIN bob.id $TTL 3600 _http._tcp URI 10 1 https://gaia.example/bob.json".

Definition hash_a : string := "aaaaaaaaaaaaaaaaaaaaaaaaaaaaaaaaaaaaaaa1".
Definition hash_b : string := "bbbbbbbbbbbbbbbbbbbbbbbbbbbbbbbbbbbbbbb2".

(** A zone file library that knows the three texts above, and a
    blockchain on which every name has the value hash [current]. *)
Definition zone_env (current : option string) : Zonefile.Env :=
  {| Zonefile.builtins := decimal_builtins;
     Zonefile.json_loads := fun _ => None;
     Zonefile.parse_zone_file := fun s =>
       if String.eqb s alice_zonefile_txt then Ret alice_zonefile
       else if String.eqb s new_zonefile_txt then Ret new_zonefile
       else if String.eqb s bob_zonefile_txt
       then Ret (<["$origin" := PStr "bob.id"]> alice_zonefile)
       else Raise ValueError;
     Zonefile.make_zone_file := fun v =>
       match v with
       | PDict d =>
           if eq_str (get d "$origin" PNone) "bob.id" then Ret bob_zonefile_txt
           else match d !! "uri" with
                | Some (PList [PDict uri]) =>
                    if eq_str (get uri "target" PNone) "https://gaia.example/alice.json"
                    then Ret alice_zonefile_txt else Ret new_zonefile_txt
                | _ => Raise TypeError
                end
       | _ => Raise AttributeError
       end;
     Zonefile.format_exc := fun _ => "Traceback (most recent call last)";
     Zonefile.is_user_zonefile := fun d => has_key "uri" d;
     Zonefile.hash_zonefile := fun d =>
       match d !! "uri" with
       | Some (PList [PDict uri]) =>
           if eq_str (get uri "target" PNone) "https://gaia.example/alice.json"
           then hash_a else hash_b
       | _ => hash_b
       end;
     Zonefile.current_value_hash := fun _ => current |}.


(** The live estimators fail; [get_tx_fee] answers 6000 satoshis, or
    fails as well. *)
Definition chain_without_live_fee : Sanity.Env := chain_env None (Some 6000).
Definition chain_without_any_fee : Sanity.Env := chain_env None None.
Definition chain_ok : Sanity.Env := chain_env (Some 5000) (Some 6000).


(** A wallet that is there, unlocked and served by the daemon. *)
Definition wallet_keys : dict :=
  {[ "payment_privkey" := PStr "payment-key";
     "owner_privkey" := PStr "owner-key";
     "data_pubkey" := PStr "04datapubkey" ]}.

Definition good_wallet : Wallet.Env :=
  {| Wallet.wallet_exists := true;
     Wallet.initialize_wallet := fun _ => status_true;
     Wallet.wallet_path_exists := true;
     Wallet.is_wallet_unlocked := true;
     Wallet.unlock_wallet := fun _ => status_true;
     Wallet.get_wallet := fun _ => Ret wallet_keys |}.

Definition kind_of (c : Ops.RpcCall) : string :=
  match c with
  | Ops.backend_update _ _ _ _ => "update"
  | Ops.backend_transfer _ _ => "transfer"
  | Ops.backend_revoke _ => "revoke"
  | Ops.backend_migrate _ => "migrate"
  end.

(** A daemon that accepts every call: it broadcasts one transaction and
    queues one entry for it. *)
Definition accepting_backend (c : Ops.RpcCall) (queue : list dict)
    : outcome dict * list dict * list string :=
  (Ret {[ "success" := PBool true; "transaction_hash" := PStr "txid-1" ]},
   (queue ++ [ {[ "type" := PStr (kind_of c); "tx_hash" := PStr "txid-1" ]} ])%list,
   ["txid-1"]).

(** The client on a machine where everything is in place; [current] is
    the value hash of every name, [answer] what the user types at a
    prompt. *)
Definition ops_env (chain : Sanity.Env) (current : option string) (answer : string)
    : Ops.Env :=
  {| Ops.wallet := good_wallet;
     Ops.chain := chain;
     Ops.zone := zone_env current;
     Ops.start_rpc_endpoint := fun _ => status_true;
     Ops.path_exists := fun _ => false;
     Ops.read_file := fun _ => None;
     Ops.get_name_zonefile := fun _ => None;
     Ops.get_name_zonefile_and_record := fun _ => None;
     Ops.get_zonefile_data_hash := fun v =>
       if eq_str v alice_zonefile_txt then Ret hash_a else Ret hash_b;
     Ops.b64encode := fun v =>
       match v with
       | PStr s => Ret ("base64:" ++ s)
       | _ => Raise TypeError
       end;
     Ops.allow_invalid_zonefile := Raise (NameError "allow_invalid_zonefile");
     Ops.console := {| Console.raw_input := fun _ => Ret answer |};
     Ops.is_profile_in_legacy_format := fun _ => Ret false;
     Ops.backend := accepting_backend |}.

Definition empty_world : Ops.World :=
  {| Ops.queue := []; Ops.broadcasts := []; Ops.rpc_log := [] |}.

Definition update_alice (data : string) : Ops.UpdateArgs :=
  {| Ops.u_name := "alice.id"; Ops.u_data := Some data |}.

Definition transfer_alice (address : string) : Ops.TransferArgs :=
  {| Ops.t_name := "alice.id"; Ops.t_address := address |}.


(** The history of [alice.id]: an update to [hash_a] at block 373700 and
    one to [hash_b] at block 373800. *)
Definition update_to_a : dict :=
  {[ "op" := PStr "+"; "value_hash" := PStr hash_a; "txid" := PStr "tx-old" ]}.
Definition update_to_b : dict :=
  {[ "op" := PStr "+"; "value_hash" := PStr hash_b; "txid" := PStr "tx-new" ]}.
Definition alice_history : dict :=
  {[ "373700" := PDict update_to_a; "373800" := PDict update_to_b ]}.

(** The record right after the second update ... *)
Definition updated_record : dict :=
  {[ "op" := PStr "+"; "value_hash" := PStr hash_b; "txid" := PStr "tx-new";
     "history" := PDict alice_history ]}.

(** ... and after a later transfer. *)
Definition transferred_record : dict :=
  {[ "op" := PStr ">"; "value_hash" := PStr hash_b; "txid" := PStr "tx-transfer";
     "history" := PDict alice_history ]}.

Definition sync_env (record : dict) (queued : list dict) : Sync.Env :=
  {| Sync.zone := zone_env None;
     Sync.console := {| Console.raw_input := fun _ => Ret "n" |};
     Sync.conf := {[ "server" := PStr "server.blockstack.org";
                     "port" := PStr "6264";
                     "queue_path" := PStr "/home/alice/.blockstack/queues.db" ]};
     Sync.queuedb_find := fun kind _ => if String.eqb kind "update" then queued else [];
     Sync.queue_extract_entry := fun entry => entry;
     Sync.get_name_zonefile := fun _ => None;
     Sync.get_zonefile_data_hash := fun v =>
       if eq_str v alice_zonefile_txt then Ret hash_a else Ret hash_b;
     Sync.get_name_blockchain_record := fun _ => Ret record;
     Sync.zonefile_data_replicate := fun _ => status_true |}.

Definition sync_alice (zonefile : string) : Sync.Args :=
  {| Sync.name := "alice.id";
     Sync.txid := PNone;
     Sync.zonefile := PStr zonefile;
     Sync.nonstandard := None |}.

Definition queued_update : dict :=
  {[ "zonefile" := PStr alice_zonefile_txt; "tx_hash" := PStr "tx-pending" ]}.


(** A chain whose UTXO provider gives up while the fee of the register
    transaction is estimated. *)
Definition chain_utxo_down : Sanity.Env :=
  {| Sanity.builtins := Sanity.builtins chain_ok;
     Sanity.is_name_valid := Sanity.is_name_valid chain_ok;
     Sanity.is_b40 := Sanity.is_b40 chain_ok;
     Sanity.is_name_registered := Sanity.is_name_registered chain_ok;
     Sanity.is_name_owner := Sanity.is_name_owner chain_ok;
     Sanity.get_names_owned_by_address := Sanity.get_names_owned_by_address chain_ok;
     Sanity.get_name_cost := Sanity.get_name_cost chain_ok;
     Sanity.get_addresses_from_file := Sanity.get_addresses_from_file chain_ok;
     Sanity.get_privkey_info_params := Sanity.get_privkey_info_params chain_ok;
     Sanity.get_privkey_info_address := Sanity.get_privkey_info_address chain_ok;
     Sanity.estimate_preorder_tx_fee := Sanity.estimate_preorder_tx_fee chain_ok;
     Sanity.estimate_register_tx_fee := fun _ _ _ => Raise UTXOException;
     Sanity.estimate_update_tx_fee := Sanity.estimate_update_tx_fee chain_ok;
     Sanity.estimate_transfer_tx_fee := Sanity.estimate_transfer_tx_fee chain_ok;
     Sanity.get_tx_fee := Sanity.get_tx_fee chain_ok;
     Sanity.get_balance := Sanity.get_balance chain_ok;
     Sanity.is_address_usable := Sanity.is_address_usable chain_ok;
     Sanity.is_b58check_address := Sanity.is_b58check_address chain_ok;
     Sanity.APPROX_PREORDER_TX_LEN := 620;
     Sanity.APPROX_REGISTER_TX_LEN := 620;
     Sanity.APPROX_UPDATE_TX_LEN := 1240;
     Sanity.APPROX_TRANSFER_TX_LEN := 1240 |}.


(** A daemon that is up by the third attempt. *)
Definition slow_wallet : Wallet.Env :=
  {| Wallet.wallet_exists := true;
     Wallet.initialize_wallet := fun _ => status_true;
     Wallet.wallet_path_exists := true;
     Wallet.is_wallet_unlocked := true;
     Wallet.unlock_wallet := fun _ => status_true;
     Wallet.get_wallet := fun n =>
       if (n <? 2)%nat then Raise (EnvironmentError Wallet.ECONNREFUSED)
       else Ret wallet_keys |}.


(** The same request with the txid of the update on the command line. *)
Definition sync_alice_with_txid (zonefile txid : string) : Sync.Args :=
  {| Sync.name := "alice.id";
     Sync.txid := PStr txid;
     Sync.zonefile := PStr zonefile;
     Sync.nonstandard := None |}.


(** The record of a name whose history lists three heights; as strings,
    the key of the earliest one sorts last. *)
Definition whois_record : dict :=
  {[ "preorder_block_number" := PInt 99000;
     "last_renewed" := PInt 374100;
     "txid" := PStr "tx-update-2";
     "address" := PStr "1OwnerAddr";
     "sender" := PStr "76a914b1d8a2f0e1c4a9d7c3e5f60718293a4b5c6d7e8f88ac";
     "value_hash" := PStr hash_a;
     "history" := PDict {[ "99000" := PList []; "374100" := PList [];
                           "373900" := PList [] ]} ]}.


(** The [getinfo] reply of a server that names its heights the old way. *)
Definition live_reply : dict :=
  {[ "server_version" := PStr "0.14.0";
     "last_block" := PInt 455000;
     "bitcoind_blocks" := PInt 455002;
     "consensus" := PStr "4b1d4a7c0d2c8a4e7d3c3b1f5e6a7b8c" ]}.


(** The same client with a daemon that queues the operation but answers
    with a reply that says nothing. *)
Definition terse_backend (c : Ops.RpcCall) (queue : list dict)
    : outcome dict * list dict * list string :=
  (Ret ∅, (queue ++ [ {[ "type" := PStr (kind_of c); "tx_hash" := PStr "txid-1" ]} ])%list,
   ["txid-1"]).

Definition terse_ops_env : Ops.Env :=
  let e := ops_env chain_ok (Some hash_a) "y" in
  {| Ops.wallet := Ops.wallet e;
     Ops.chain := Ops.chain e;
     Ops.zone := Ops.zone e;
     Ops.start_rpc_endpoint := Ops.start_rpc_endpoint e;
     Ops.path_exists := Ops.path_exists e;
     Ops.read_file := Ops.read_file e;
     Ops.get_name_zonefile := Ops.get_name_zonefile e;
     Ops.get_name_zonefile_and_record := Ops.get_name_zonefile_and_record e;
     Ops.get_zonefile_data_hash := Ops.get_zonefile_data_hash e;
     Ops.b64encode := Ops.b64encode e;
     Ops.allow_invalid_zonefile := Ops.allow_invalid_zonefile e;
     Ops.console := Ops.console e;
     Ops.is_profile_in_legacy_format := Ops.is_profile_in_legacy_format e;
     Ops.backend := terse_backend |}.


(** A machine whose [client.ini] sets the server and the two ports, the
    values being [port] and [api_endpoint_port]. *)
Definition client_ini (port api_endpoint_port : string) : Settings.Env :=
  {| Settings.builtins := decimal_builtins;
     Settings.CONFIG_DIR := "/home/alice/.blockstack";
     Settings.BLOCKSTACK_METADATA_DIR := "/home/alice/.blockstack/metadata";
     Settings.SPV_HEADERS_PATH := "/home/alice/.blockstack/blockchain-headers.dat";
     Settings.DEFAULT_QUEUE_PATH := "/home/alice/.blockstack/queues.db";
     Settings.path_exists := fun _ => true;
     Settings.isdir := fun _ => true;
     Settings.dirname := fun _ => "/home/alice/.blockstack";
     Settings.makedirs := fun _ => true;
     Settings.make_default_config := true;
     Settings.parser_read := fun _ => Ret tt;
     Settings.has_section := true;
     Settings.has_option := fun k => str_in k ["server"; "port"; "api_endpoint_port"];
     Settings.get_option := fun k =>
       if String.eqb k "port" then Ret port
       else if String.eqb k "api_endpoint_port" then Ret api_endpoint_port
       else Ret "node.blockstack.org";
     Settings.get_blockchain_config := fun _ _ => Ret ∅ |}.

Definition client_ini_path : string := "/home/alice/.blockstack/client.ini".


(** What [cli_whois] makes of [whois_record]. *)
Definition whois_reply : dict :=
  {[ "block_preordered_at" := PInt 99000;
     "block_renewed_at" := PInt 374100;
     "last_transaction_id" := PStr "tx-update-2";
     "owner_address" := PStr "1OwnerAddr";
     "owner_script" := PStr "76a914b1d8a2f0e1c4a9d7c3e5f60718293a4b5c6d7e8f88ac";
     "has_zonefile" := PBool true;
     "zonefile_hash" := PStr hash_a;
     "last_transaction_height" := PInt 374100 ]}.

(** What [cli_ping] makes of [live_reply]. *)
Definition live_ping : dict :=
  {[ "cli_version" := PStr "0.14.0";
     "advanced_mode" := PBool false;
     "server_alive" := PBool true;
     "server_host" := PStr "server.blockstack.org";
     "server_port" := PInt 6264;
     "server_version" := PStr "0.14.0";
     "last_block_processed" := PInt 455000;
     "last_block_seen" := PInt 455002;
     "consensus_hash" := PStr "4b1d4a7c0d2c8a4e7d3c3b1f5e6a7b8c" ]}.

(** The configuration read from [client_ini "6264" "6270"]. *)
Definition client_config : dict :=
  <["dir" := PStr "/home/alice/.blockstack"]>
  (<["path" := PStr client_ini_path]>
  {[ "server" := PStr "node.blockstack.org";
     "port" := PInt 6264;
     "storage_drivers" := PStr "disk,dht";
     "metadata" := PStr "/home/alice/.blockstack/metadata";
     "blockchain_headers" := PStr "/home/alice/.blockstack/blockchain-headers.dat";
     "advanced_mode" := PBool false;
     "dht_mirror" := PStr "mirror.blockstack.org";
     "dht_mirror_port" := PStr "6266";
     "api_endpoint_port" := PInt 6270;
     "queue_path" := PStr "/home/alice/.blockstack/queues.db";
     "poll_interval" := PStr "600";
     "extra_servers" := PStr EmptyString;
     "rpc_detach" := PBool true ]}).


(** Payloads in JSON: the text stands for the document, [json.loads]
    gives its value.  The first is alice's zone file; in the second the
    [$ttl] is the number -0.5. *)
Definition alice_json : string := "alice.id as JSON, $ttl 3600".
Definition float_ttl_json : string := "alice.id as JSON, $ttl -0.5".

Definition float_ttl_zonefile : dict :=
  <["$ttl" := PFloat (-0.5)%float]> alice_zonefile.

(** A zone file library given JSON; [serialises] tells whether
    [make_zone_file] can write the records back. *)
Definition json_zone_env (serialises : bool) : Zonefile.Env :=
  {| Zonefile.builtins := decimal_builtins;
     Zonefile.json_loads := fun s =>
       if String.eqb s alice_json then Some (PDict alice_zonefile)
       else if String.eqb s float_ttl_json then Some (PDict float_ttl_zonefile)
       else None;
     Zonefile.parse_zone_file := fun _ => Raise ValueError;
     Zonefile.make_zone_file := fun _ =>
       if serialises then Ret alice_zonefile_txt else Raise TypeError;
     Zonefile.format_exc := fun _ => "Traceback (most recent call last)";
     Zonefile.is_user_zonefile := fun d => has_key "uri" d;
     Zonefile.hash_zonefile := fun _ => hash_a;
     Zonefile.current_value_hash := fun _ => None |}.

End Samples.

(** * The vocabulary of the statements *)

Module Spec.

(** A field of the CSV is a valid exponent when [int] reads it as an
    integer between 0 and 15. *)
Definition valid_exponent (bi : Builtins) (s : string) : Prop :=
  exists v, int_of_str bi s = Some v /\ 0 <= v <= 15.


(** *** Zonefiles, in the words of the validator's contract *)

(** The payload decodes to [v]: [json.loads] reads it as [v]; or it is
    no JSON and [parse_zone_file] reads it as the record set [v]. *)
Definition decodes_to (e : Zonefile.Env) (text : string) (v : pyval) : Prop :=
  Zonefile.json_loads e text = Some v
  \/ (Zonefile.json_loads e text = None /\
      exists d, Zonefile.parse_zone_file e text = Ret d /\ v = PDict d).

(** It decodes neither way: it is no JSON, and [parse_zone_file] fails on
    it (with anything but an interrupt or an exit). *)
Definition undecodable (e : Zonefile.Env) (text : string) : Prop :=
  Zonefile.json_loads e text = None /\
  exists x, Zonefile.parse_zone_file e text = Raise x /\ is_Exception x = true.

(** The integer part of a float: of [(-1)^sign * m * 2^e] it is
    [m * 2^e], or the quotient of [m] by [2^(-e)], with the sign put
    back.  A NaN and the infinities have none. *)
Definition integer_part (f : float) (z : Z) : Prop :=
  match Prim2SF f with
  | S754_zero _ => z = 0
  | S754_finite sign m e =>
      let magnitude := if 0 <=? e then Zpos m * 2 ^ e else Zpos m ÷ 2 ^ (- e) in
      z = if sign then - magnitude else magnitude
  | S754_infinity _ | S754_nan => False
  end.

(** The number that [int] makes of a value: an integer is itself, a
    boolean is 0 or 1, a float is cut to its integer part, and a string is
    what the interpreter reads in it. *)
Inductive reads_as (bi : Builtins) : pyval -> Z -> Prop :=
| reads_int (z : Z) : reads_as bi (PInt z) z
| reads_bool (b : bool) : reads_as bi (PBool b) (if b then 1 else 0)
| reads_float (f : float) (z : Z) : integer_part f z -> reads_as bi (PFloat f) z
| reads_str (s : string) (z : Z) : int_of_str bi s = Some z -> reads_as bi (PStr s) z.

(** The payload parses: it decodes, as JSON or else as zone file text,
    to the record set [user_data], which [make_zone_file] accepts as a
    zonefile and writes back as [text]. *)
Definition parses_as (e : Zonefile.Env) (zonefile_data : pyval)
    (user_data : dict) (text : string) : Prop :=
  decodes_to e (str (Zonefile.builtins e) zonefile_data) (PDict user_data)
  /\ Zonefile.make_zone_file e (PDict user_data) = Ret text.

(** Its [$origin] (the empty string when there is none) equals the target
    name. *)
Definition origin_is (fqu : string) (user_data : dict) : Prop :=
  eq_str (get user_data "$origin" (PStr EmptyString)) fqu = true.

(** It contains a [$ttl] that reads as a number that is not negative. *)
Definition has_valid_ttl (e : Zonefile.Env) (user_data : dict) : Prop :=
  exists v ttl,
    user_data !! "$ttl" = Some v /\ reads_as (Zonefile.builtins e) v ttl /\ 0 <= ttl.

(** The stricter reading: its [$ttl] is an integer, and not negative. *)
Definition has_integer_ttl (user_data : dict) : Prop :=
  exists ttl, user_data !! "$ttl" = Some (PInt ttl) /\ 0 <= ttl.

(** It has the URI/TXT record shape of a standard user zonefile. *)
Definition is_standard (e : Zonefile.Env) (user_data : dict) : Prop :=
  Zonefile.is_user_zonefile e user_data = true.

(** Its hash differs from the name's current [value_hash]. *)
Definition hash_differs (e : Zonefile.Env) (fqu : string) (user_data : dict) : Prop :=
  Zonefile.current_value_hash e fqu <> Some (Zonefile.hash_zonefile e user_data).

Definition valid_zonefile (e : Zonefile.Env) (fqu : string) (zonefile_data : pyval)
    (user_data : dict) (text : string) : Prop :=
  parses_as e zonefile_data user_data text /\ origin_is fqu user_data
  /\ has_valid_ttl e user_data /\ is_standard e user_data.

(** The reasons [load_zonefile] gives, but for the one that quotes a
    traceback. *)
Definition load_zonefile_reasons : list string :=
  [Zonefile.msg_invalid_data; Zonefile.msg_invalid_origin; Zonefile.msg_missing_ttl;
   Zonefile.msg_nonstandard; Zonefile.msg_invalid_ttl; Zonefile.msg_identical].


(** *** Fees *)

(** The address [get_total_registration_fees] derives from a key, [None]
    when there is no key. *)
Definition address_of (e : Sanity.Env) (privkey_info : pyval) : option string :=
  if is_none privkey_info then None
  else Some (Sanity.get_privkey_info_address e privkey_info).

(** The fee that goes into the reply: the live estimate, else what
    [get_tx_fee] makes of a transaction of the approximate length. *)
Definition fee_used (e : Sanity.Env) (live : option Z) (approx_len : nat) : option Z :=
  match live with
  | Some fee => Some fee
  | None => Sanity.get_tx_fee e (repeat_str "00" approx_len)
  end.


(** *** Transfers *)

(** The tests of [operation_sanity_check] that come before the one on
    the receiving address all pass: the name is registered and owned by
    the wallet, there is a fee estimate (live or fallback), the payment
    address holds at least that much and is usable, and the address given
    is accepted by [is_b58check_address]. *)
Definition passes_until_receive_test (e : Sanity.Env) (fqu : string)
    (payment owner : pyval) (transfer_address : string) : Prop :=
  let '(payment_address, owner_address, _) := Sanity.get_addresses_from_file e in
  Sanity.is_name_registered e fqu = true /\
  Sanity.is_name_owner e fqu owner_address = true /\
  exists live fee balance,
    Sanity.estimate_transfer_tx_fee e fqu payment (Some owner_address)
      (Sanity.get_privkey_info_params e owner) = Ret live /\
    fee_used e live (Sanity.APPROX_TRANSFER_TX_LEN e) = Some fee /\
    Sanity.get_balance e payment_address = Some balance /\
    fee <= balance /\
    Sanity.is_address_usable e payment_address = true /\
    exists b, Sanity.is_b58check_address e transfer_address = Ret b.

(** The address owns more names than the cap of [config.py]. *)
Definition over_cap (e : Sanity.Env) (address : string) : Prop :=
  Config.MAXIMUM_NAMES_PER_ADDRESS
  < Z.of_nat (List.length (Sanity.get_names_owned_by_address e address)).


(** *** Attributing a zonefile to a transaction *)

(** A history item records an update to [zonefile_hash]: its [op] is
    [NAME_UPDATE] and its [value_hash] is the hash. *)
Definition records_update_to (item : dict) (zonefile_hash : string) : Prop :=
  item !! "op" = Some (PStr Config.NAME_UPDATE) /\
  item !! "value_hash" = Some (PStr zonefile_hash).


(** The latest update to [zonefile_hash] in a name's history: an item
    that records such an update, under the greatest key (in the order in
    which [sorted] puts the keys) among the items that do. *)
Definition latest_matching_update (name_history : dict) (zonefile_hash key : string)
    (item : dict) : Prop :=
  name_history !! key = Some (PDict item) /\
  records_update_to item zonefile_hash /\
  forall key' item',
    name_history !! key' = Some (PDict item') ->
    records_update_to item' zonefile_hash ->
    String.leb key' key = true.

Definition no_matching_update (name_history : dict) (zonefile_hash : string) : Prop :=
  forall key item,
    name_history !! key = Some (PDict item) -> ~ records_update_to item zonefile_hash.







(** *** What the sanity check asks of an update *)

(** Every test of [operation_sanity_check] for an operation without a
    receiving address: the name is registered and owned by the wallet,
    there is a fee (the live estimate of an update, else the fallback),
    the payment address holds at least the fee and is usable. *)
Definition passes_update_tests (e : Sanity.Env) (fqu : string)
    (payment owner : pyval) : Prop :=
  let '(payment_address, owner_address, _) := Sanity.get_addresses_from_file e in
  Sanity.is_name_registered e fqu = true /\
  Sanity.is_name_owner e fqu owner_address = true /\
  exists live fee balance,
    Sanity.estimate_update_tx_fee e fqu payment (Some owner_address)
      (Sanity.get_privkey_info_params e owner) = Ret live /\
    fee_used e live (Sanity.APPROX_UPDATE_TX_LEN e) = Some fee /\
    Sanity.get_balance e payment_address = Some balance /\
    fee <= balance /\
    Sanity.is_address_usable e payment_address = true.


(** *** The warnings of a fee estimate *)

(** Without a payment key the estimate says that the wallet was not
    accessed; with one, it says that funds are insufficient when a live
    estimate failed, and nothing when all three succeeded. *)
Definition fee_warnings (payment : pyval) (live_pre live_reg live_upd : option Z)
    : option pyval :=
  if is_none payment then Some (PList [PStr Sanity.warn_no_wallet])
  else
    match live_pre, live_reg, live_upd with
    | Some _, Some _, Some _ => None
    | _, _, _ => Some (PList [PStr Sanity.warn_insufficient])
    end.


(** *** The retry loop *)

(** An attempt that found the daemon not listening yet. *)
Definition refused (r : outcome dict) : Prop :=
  r = Raise (EnvironmentError Wallet.ECONNREFUSED)
  \/ r = Raise (SocketError Wallet.ECONNREFUSED).

(** What [get_wallet_with_backoff] makes of the attempt that ends the
    loop. *)
Definition passed_on (r : outcome dict) : outcome (option dict) :=
  match r with
  | Ret wallet_keys => Ret (Some wallet_keys)
  | Raise x => Raise x
  end.

(** The seconds slept after [k] refused attempts: 1, 2, ..., [k]. *)
Definition backoff_sleeps (k : nat) : list Z :=
  map (fun j => Z.of_nat j + 1) (seq 0 k).


(** *** Heights *)

(** [h] is the greatest of [heights]. *)
Definition greatest (heights : list Z) (h : Z) : Prop :=
  In h heights /\ forall h', In h' heights -> h' <= h.


(** *** The five commands and the daemon *)

(** The checks of a command: everything before its [rpc.backend_...]
    call, ending in the call to make. *)
Definition checks_of (e : Ops.Env) (op : Ops.Operation) (password : option string)
    : flow Ops.RpcCall :=
  match op with
  | Ops.Update args interactive => Ops.update_checks e args password interactive
  | Ops.Transfer args => Ops.transfer_checks e args password
  | Ops.Revoke name interactive => Ops.revoke_checks e name password interactive
  | Ops.Migrate name interactive force => Ops.migrate_checks e name password interactive force
  | Ops.SetZonefileHash name zonefile_hash =>
      Ops.set_zonefile_hash_checks e name zonefile_hash password
  end.

(** The name a command is given. *)
Definition name_of (op : Ops.Operation) : string :=
  match op with
  | Ops.Update args _ => Ops.u_name args
  | Ops.Transfer args => Ops.t_name args
  | Ops.Revoke name _ => name
  | Ops.Migrate name _ _ => name
  | Ops.SetZonefileHash name _ => name
  end.

(** The call is the one the command is there for, on the name given:
    an update sends no profile, a transfer sends the address given, and
    [set_zonefile_hash] sends the hash given and no data. *)
Definition own_call (op : Ops.Operation) (call : Ops.RpcCall) : Prop :=
  match op, call with
  | Ops.Update args _, Ops.backend_update fqu _ profile _ =>
      fqu = Ops.u_name args /\ profile = PNone
  | Ops.Transfer args, Ops.backend_transfer fqu transfer_address =>
      fqu = Ops.t_name args /\ transfer_address = Ops.t_address args
  | Ops.Revoke name _, Ops.backend_revoke fqu => fqu = name
  | Ops.Migrate name _ _, Ops.backend_migrate fqu => fqu = name
  | Ops.SetZonefileHash name zonefile_hash, Ops.backend_update fqu data profile hash =>
      fqu = name /\ data = PNone /\ profile = PNone /\ hash = PStr zonefile_hash
  | _, _ => False
  end.

(** What the final [return result] of a command yields when the daemon's
    reply has neither a true [success] nor an [error] nor a [message]:
    [cli_revoke] starts with [result = {}], the other four never bind
    [result]. *)
Definition fallthrough_result (op : Ops.Operation) : outcome dict :=
  match op with
  | Ops.Revoke _ _ => Ret ∅
  | _ => Raise (UnboundLocalError "result")
  end.

(** Does the [try] around the RPC call have a bare [except:]? *)
Definition bare_except (op : Ops.Operation) : bool :=
  match op with
  | Ops.Transfer _ | Ops.Revoke _ _ => true
  | _ => false
  end.


(** *** Answers and hashes *)

(** What the user did at the prompt of [cli_revoke] was no consent:
    an answer other than [y] or [Y], or an interrupt. *)
Definition declined (answer : outcome string) : Prop :=
  (exists s, answer = Ret s /\ lower s <> "y") \/ answer = Raise KeyboardInterrupt.

Fixpoint all_hex (s : string) : bool :=
  match s with
  | EmptyString => true
  | String c s' => Ops.is_hex_char c && all_hex s'
  end.

(** The texts [cli_set_zonefile_hash] takes for a hash: 40 hexadecimal
    digits, or 39 of them and a newline. *)
Definition accepted_hash (s : string) : Prop :=
  (all_hex s = true /\ String.length s = 40%nat)
  \/ exists h, s = h ++ nl /\ all_hex h = true /\ String.length h = 39%nat.


(** *** Configurations *)

(** [config'] has every key of [config]. *)
Definition keeps_keys (config config' : dict) : Prop :=
  forall k, has_key k config = true -> has_key k config' = true.

(** The keys of the defaults of [get_config]. *)
Definition default_keys : list string :=
  ["server"; "port"; "storage_drivers"; "metadata"; "blockchain_headers";
   "advanced_mode"; "dht_mirror"; "dht_mirror_port"; "api_endpoint_port";
   "queue_path"; "poll_interval"; "extra_servers"; "rpc_detach"].



(** *** Lists of servers *)

(** A character that is neither whitespace nor one of the two
    separators of a list of servers. *)
Definition plain_char (c : ascii) : bool :=
  negb (is_space c) && negb (Ascii.eqb c ",") && negb (Ascii.eqb c ":").

Fixpoint plain (s : string) : bool :=
  match s with
  | EmptyString => true
  | String c s' => plain_char c && plain s'
  end.

(** A server as it is written ([host], [port_text]) and the port that
    [int] reads. *)
Record Server : Type := {
  host : string;
  port_text : string;
  port : Z;
}.

Definition server_entry (s : Server) : string := host s ++ ":" ++ port_text s.

(** [",".join(fields)] *)
Fixpoint join_commas (fields : list string) : string :=
  match fields with
  | [] => EmptyString
  | [f] => f
  | f :: rest => f ++ "," ++ join_commas rest
  end.

Definition well_written (bi : Builtins) (s : Server) : Prop :=
  plain (host s) = true /\ plain (port_text s) = true /\
  int_of_str bi (port_text s) = Some (port s).

(** A field of the list that stops [parse_servers]: not blank, and not
    of the form [host:port] with a port that [int] reads. *)
Definition malformed (bi : Builtins) (field : string) : Prop :=
  strip field <> EmptyString /\
  forall server_host server_port,
    split ":" (strip field) = [server_host; server_port] ->
    int_of_str bi server_port = None.

End Spec.
Import Spec.

(** * Properties *)

(** ** Bucket exponents of [namespace_reveal] *)

Lemma convert_exponents_invalid (bi : Builtins) (fields : list string) :
  (exists s, In s fields /\ ~ valid_exponent bi s) ->
  Namespace.convert_exponents bi fields = None.
Proof.
  induction fields as [|f rest IH]; intros (s & Hin & Hbad).
  - destruct Hin.
  - cbn [Namespace.convert_exponents].
    destruct (int_of_str bi f) as [v|] eqn:Hf; [|reflexivity].
    destruct ((0 <=? v) && (v <? 16)) eqn:Hrange; [|reflexivity].
    destruct Hin as [->|Hin].
    + exfalso. apply Hbad. exists v. split; [exact Hf|].
      apply andb_true_iff in Hrange as [H0 H16].
      apply Z.leb_le in H0. apply Z.ltb_lt in H16. lia.
    + rewrite IH; [reflexivity|]. exists s. auto.
Qed.

Lemma convert_exponents_valid (bi : Builtins) (fields : list string) (exps : list Z) :
  Namespace.convert_exponents bi fields = Some exps ->
  Forall (valid_exponent bi) fields /\ Forall (fun v => 0 <= v <= 15) exps.
Proof.
  revert exps. induction fields as [|f rest IH]; intros exps H; cbn in H.
  - injection H as <-. split; constructor.
  - destruct (int_of_str bi f) as [v|] eqn:Hf; [|discriminate].
    destruct ((0 <=? v) && (v <? 16)) eqn:Hrange; [|discriminate].
    destruct (Namespace.convert_exponents bi rest) as [vs|]; [|discriminate].
    injection H as <-.
    apply andb_true_iff in Hrange as [H0 H16].
    apply Z.leb_le in H0. apply Z.ltb_lt in H16.
    destruct (IH vs eq_refl) as [IH1 IH2].
    split; constructor; auto; try lia.
    exists v. split; [exact Hf | lia].
Qed.

(** C9.  [cli_namespace_reveal] answers with an error dict, and makes no
    reveal call, on every [bucket_exponents] that does not split into
    exactly 16 comma-separated fields or that has a field which is not an
    integer between 0 and 15. *)
Theorem namespace_reveal_rejects_bad_exponents
    (e : Namespace.Env) (args : Namespace.Args) :
  let fields := split "," (Namespace.bucket_exponents args) in
  (List.length fields <> 16%nat \/
   exists s, In s fields /\ ~ valid_exponent (Namespace.builtins e) s) ->
  exists msg,
    In msg [Namespace.msg_not_16; Namespace.msg_not_in_range] /\
    Namespace.cli_namespace_reveal e args = (Ret (error_dict msg), []).
Proof.
  intros fields H. unfold Namespace.cli_namespace_reveal. fold fields.
  destruct (Nat.eqb_spec (List.length fields) 16) as [Hlen|Hlen]; cbn [negb].
  - destruct H as [H|H]; [contradiction|].
    rewrite (convert_exponents_invalid _ _ H).
    exists Namespace.msg_not_in_range. split; [right; left|]; reflexivity.
  - exists Namespace.msg_not_16. split; [left|]; reflexivity.
Qed.

Lemma namespace_reveal_rejects_bad_exponents_witness :
  (List.length (split "," Samples.three_exponents) <> 16%nat \/
   exists s, In s (split "," Samples.three_exponents) /\
             ~ valid_exponent decimal_builtins s) /\
  exists msg,
    In msg [Namespace.msg_not_16; Namespace.msg_not_in_range] /\
    Namespace.cli_namespace_reveal Samples.reveal_env
      (Samples.reveal_args Samples.three_exponents) = (Ret (error_dict msg), []).
Proof.
  assert (H : List.length (split "," Samples.three_exponents) <> 16%nat)
    by (vm_compute; discriminate).
  split; [left; exact H|].
  apply (namespace_reveal_rejects_bad_exponents Samples.reveal_env
           (Samples.reveal_args Samples.three_exponents)).
  left; exact H.
Defined.

(** The three ways the command can go, on concrete command lines. *)
Example reveal_three_fields :
  Namespace.cli_namespace_reveal Samples.reveal_env
    (Samples.reveal_args Samples.three_exponents)
  = (Ret (error_dict Namespace.msg_not_16), []).
Proof. reflexivity. Qed.

Example reveal_exponent_16 :
  Namespace.cli_namespace_reveal Samples.reveal_env
    (Samples.reveal_args Samples.exponent_out_of_range)
  = (Ret (error_dict Namespace.msg_not_in_range), []).
Proof. vm_compute. reflexivity. Qed.

Example reveal_accepted :
  exists call,
    Namespace.cli_namespace_reveal Samples.reveal_env
      (Samples.reveal_args Samples.sixteen_exponents) = (Ret status_true, [call])
    /\ Namespace.rc_bucket_exponents call = [6; 5; 4; 3; 2; 1; 0; 0; 0; 0; 0; 0; 0; 0; 0; 0].
Proof. eexists. split; vm_compute; reflexivity. Qed.

(** ** Retrying the wallet: [get_wallet_with_backoff] *)

(** The loop never calls [get_wallet] more often than the range is long,
    and sleeps once for every refused attempt. *)
Lemma backoff_loop_bounded (e : Wallet.Env) (range : list nat) (i : nat) :
  let '(_, fx) := Wallet.backoff_loop e range i in
  (Wallet.calls fx <= List.length range)%nat /\
  (List.length (Wallet.sleeps fx) <= Wallet.calls fx)%nat.
Proof.
  revert i. induction range as [|j rest IH]; intros i; cbn.
  - lia.
  - destruct (Wallet.get_wallet e j) as [keys|x]; cbn; [lia|].
    destruct x; cbn; try lia.
    all: destruct (errno =? Wallet.ECONNREFUSED); cbn; [|lia].
    all: specialize (IH j); destruct (Wallet.backoff_loop e rest j) as [x fx].
    all: cbn; lia.
Qed.

Lemma get_wallet_with_backoff_bounded (e : Wallet.Env) :
  (Wallet.calls (snd (Wallet.get_wallet_with_backoff e)) <= 3)%nat.
Proof.
  unfold Wallet.get_wallet_with_backoff.
  pose proof (backoff_loop_bounded e (seq 0 3) 0%nat) as H.
  destruct (Wallet.backoff_loop e (seq 0 3) 0%nat) as [[keys|x|i] fx]; cbn in *.
  - lia.
  - lia.
  - destruct (i =? 3)%nat; cbn; lia.
Qed.

(** C6.  When every attempt is refused, [get_wallet_with_backoff] stops
    after three calls and the sleeps 1, 2, 3; the loop variable is then 2,
    the test [i == 3] fails, and the function returns [None] where its
    docstring promises [{'error': ...}]. *)
Theorem get_wallet_with_backoff_refused (e : Wallet.Env) :
  (forall n, Wallet.get_wallet e n = Raise (EnvironmentError Wallet.ECONNREFUSED)) ->
  Wallet.get_wallet_with_backoff e
  = (Ret None, {| Wallet.sleeps := [1; 2; 3]; Wallet.calls := 3 |}).
Proof.
  intros H. unfold Wallet.get_wallet_with_backoff. cbn.
  rewrite !H. cbn. reflexivity.
Qed.

Lemma get_wallet_with_backoff_refused_witness :
  (forall n, Wallet.get_wallet Samples.refusing_wallet n
             = Raise (EnvironmentError Wallet.ECONNREFUSED)) /\
  Wallet.get_wallet_with_backoff Samples.refusing_wallet
  = (Ret None, {| Wallet.sleeps := [1; 2; 3]; Wallet.calls := 3 |}).
Proof.
  split.
  - intros n. reflexivity.
  - apply (get_wallet_with_backoff_refused Samples.refusing_wallet).
    intros n. reflexivity.
Defined.

(** The callers test ['error' in wallet_keys], which is a [TypeError] on
    [None]. *)
Example get_wallet_keys_refused :
  Wallet.get_wallet_keys Samples.refusing_wallet None = Ret None /\
  Wallet.error_in None = Raise TypeError.
Proof. split; reflexivity. Qed.

(** ** Server information: [cli_consensus], [cli_ping] *)

(** C5.  On a reply of [getinfo] that has both [last_block_processed] and
    [consensus_hash], [cli_consensus] without a block height reads the
    misspelt key [consensns_hash] and leaves with a [KeyError] instead of
    returning the consensus hash. *)
Theorem cli_consensus_misspelt_key (e : Info.Env) :
  has_key "error" (Info.getinfo e) = false ->
  has_key "last_block_processed" (Info.getinfo e) = true ->
  has_key "consensus_hash" (Info.getinfo e) = true ->
  Info.getinfo e !! "consensns_hash" = None ->
  Info.cli_consensus e PNone = Raise (KeyError "consensns_hash").
Proof.
  intros Herr Hblock Hcons Htypo. unfold Info.cli_consensus. cbn [is_none].
  rewrite Herr, Hblock, Hcons. cbn [andb].
  unfold getitem. rewrite Htypo. reflexivity.
Qed.

Lemma cli_consensus_misspelt_key_witness :
  has_key "error" Samples.indexed_reply = false /\
  has_key "last_block_processed" Samples.indexed_reply = true /\
  has_key "consensus_hash" Samples.indexed_reply = true /\
  Samples.indexed_reply !! "consensns_hash" = None /\
  Info.cli_consensus (Samples.info_env Samples.indexed_reply) PNone
  = Raise (KeyError "consensns_hash").
Proof.
  split; [reflexivity|]. split; [reflexivity|].
  split; [reflexivity|]. split; [reflexivity|].
  apply (cli_consensus_misspelt_key (Samples.info_env Samples.indexed_reply));
    reflexivity.
Defined.

(** The other two exits of the branch do return a dict. *)
Lemma cli_consensus_indexing (e : Info.Env) :
  has_key "error" (Info.getinfo e) = false ->
  has_key "last_block_processed" (Info.getinfo e) && has_key "consensus_hash" (Info.getinfo e)
    = false ->
  Info.cli_consensus e PNone = Ret (error_dict "Server is indexing.  Try again shortly.").
Proof.
  intros Herr Hkeys. unfold Info.cli_consensus. cbn [is_none].
  rewrite Herr, Hkeys. reflexivity.
Qed.

(** [cli_ping] hands on the exceptions [get_server_info] raises on a
    reply without a server version. *)
Example cli_ping_raises :
  Info.cli_ping (Samples.info_env Samples.indexed_reply)
  = Raise (Exception "Missing server version").
Proof. vm_compute. reflexivity. Qed.

(** ** Revoked names: [cli_lookup], [cli_whois] *)

(** C10, as stated, fails for [cli_lookup]: the test for a missing
    [value_hash] comes before the test for [revoked], so the record of a
    revoked name without that key is answered with "has no profile". *)
Lemma revoked_without_value_hash_counterexample :
  truthy (get Samples.revoked_record_without_hash "revoked" (PBool false)) = true /\
  Lookup.cli_lookup (Samples.lookup_env Samples.revoked_record_without_hash) "alice.id"
  = Ret (error_dict "alice.id has no profile") /\
  error_dict "alice.id has no profile" <> error_dict Lookup.msg_revoked.
Proof.
  split; [reflexivity|]. split; [vm_compute; reflexivity|].
  intros H. apply (f_equal (fun d : dict => d !! "error")) in H.
  vm_compute in H. discriminate H.
Qed.

(** C10, amended.  For a valid name whose fetched record is no error
    reply and has a true [revoked] field, [cli_whois] returns the error
    "Name is revoked..."; so does [cli_lookup] when the record has a
    [value_hash] key, and it returns "... has no profile" when it has none.
    Either result holds the key [error] and nothing else. *)
Theorem revoked_name_is_refused (e : Lookup.Env) (name : string) (record : dict) :
  Sanity.check_valid_name (Lookup.chain e) name = None ->
  Lookup.get_name_blockchain_record e name = Ret record ->
  has_key "error" record = false ->
  truthy (get record "revoked" (PBool false)) = true ->
  Lookup.cli_whois e name = Ret (error_dict Lookup.msg_revoked) /\
  Lookup.cli_lookup e name
  = Ret (error_dict (if has_key "value_hash" record then Lookup.msg_revoked
                     else Lookup.msg_no_profile name)).
Proof.
  intros Hvalid Hrec Herr Hrevoked. split.
  - unfold Lookup.cli_whois. rewrite Hvalid, Hrec, Herr, Hrevoked. reflexivity.
  - unfold Lookup.cli_lookup. rewrite Hvalid, Hrec, Herr.
    destruct (has_key "value_hash" record); cbn [negb].
    + rewrite Hrevoked. reflexivity.
    + reflexivity.
Qed.

Lemma revoked_name_is_refused_witness :
  Sanity.check_valid_name (Lookup.chain (Samples.lookup_env Samples.revoked_record))
    "alice.id" = None /\
  Lookup.get_name_blockchain_record (Samples.lookup_env Samples.revoked_record) "alice.id"
  = Ret Samples.revoked_record /\
  has_key "error" Samples.revoked_record = false /\
  truthy (get Samples.revoked_record "revoked" (PBool false)) = true /\
  Lookup.cli_whois (Samples.lookup_env Samples.revoked_record) "alice.id"
  = Ret (error_dict Lookup.msg_revoked) /\
  Lookup.cli_lookup (Samples.lookup_env Samples.revoked_record) "alice.id"
  = Ret (error_dict (if has_key "value_hash" Samples.revoked_record
                     then Lookup.msg_revoked else Lookup.msg_no_profile "alice.id")).
Proof.
  split; [reflexivity|]. split; [reflexivity|].
  split; [reflexivity|]. split; [reflexivity|].
  apply (revoked_name_is_refused (Samples.lookup_env Samples.revoked_record)
           "alice.id" Samples.revoked_record); reflexivity.
Defined.

(** An error dict has no profile, zonefile or whois field. *)
Lemma error_dict_only_error (msg k : string) :
  k <> "error" -> error_dict msg !! k = None.
Proof. intros Hk. unfold error_dict. apply lookup_singleton_ne. congruence. Qed.

(** ** Zonefile validation: [load_zonefile] *)

Lemma int_of_float_integer_part (f : float) (z : Z) :
  int_of_float f = Ret z <-> integer_part f z.
Proof.
  unfold int_of_float, integer_part.
  destruct (Prim2SF f) as [s|s| |s m e].
  - split; [intros [= <-]; reflexivity|intros ->; reflexivity].
  - split; [discriminate|intros []].
  - split; [discriminate|intros []].
  - assert (Hmag : (if 0 <=? e then Z.shiftl (Z.pos m) e else Z.shiftr (Z.pos m) (- e))
                   = (if 0 <=? e then Z.pos m * 2 ^ e else Z.pos m ÷ 2 ^ (- e))).
    { destruct (Z.leb_spec 0 e) as [He|He].
      - apply Z.shiftl_mul_pow2. exact He.
      - rewrite Z.shiftr_div_pow2 by lia.
        symmetry. apply Z.quot_div_nonneg; [lia|].
        apply Z.pow_pos_nonneg; lia. }
    cbv zeta. rewrite Hmag. split; [intros [= <-]; reflexivity|intros ->; reflexivity].
Qed.

Lemma int_reads_as (bi : Builtins) (v : pyval) (z : Z) :
  int bi v = Ret z <-> reads_as bi v z.
Proof.
  split.
  - destruct v as [|b|n|f|s|l|d]; cbn [int]; try discriminate.
    + intros [= <-]. constructor.
    + intros [= <-]. constructor.
    + intros H. constructor. apply int_of_float_integer_part. exact H.
    + destruct (int_of_str bi s) as [n|] eqn:Hs; [|discriminate].
      intros [= <-]. constructor. exact Hs.
  - intros H. destruct H as [n|b|f n Hf|s n Hs]; cbn [int]; try reflexivity.
    + apply int_of_float_integer_part. exact Hf.
    + rewrite Hs. reflexivity.
Qed.

Lemma parse_decodes_to (e : Zonefile.Env) (text : string) (v : pyval) :
  Zonefile.parse e text = Ret (Some v) <-> decodes_to e text v.
Proof.
  unfold Zonefile.parse, decodes_to.
  destruct (Zonefile.json_loads e text) as [v'|].
  - split; [intros [= <-]; left; reflexivity|].
    intros [[= <-]|[H _]]; [reflexivity|discriminate H].
  - destruct (Zonefile.parse_zone_file e text) as [d|x].
    + split; [intros [= <-]; right; split; [reflexivity|]; exists d; split; reflexivity|].
      intros [H|(_ & d' & [= <-] & ->)]; [discriminate H|reflexivity].
    + split.
      * destruct (is_Exception x); discriminate.
      * intros [H|(_ & d' & H & _)]; discriminate H.
Qed.

Lemma parse_undecodable (e : Zonefile.Env) (text : string) :
  Zonefile.parse e text = Ret None <-> undecodable e text.
Proof.
  unfold Zonefile.parse, undecodable.
  destruct (Zonefile.json_loads e text) as [v'|].
  - split; [discriminate|intros [H _]; discriminate H].
  - destruct (Zonefile.parse_zone_file e text) as [d|x].
    + split; [discriminate|intros (_ & x & H & _); discriminate H].
    + destruct (is_Exception x) eqn:Hx.
      * split; [intros _; split; [reflexivity|]; exists x; split; [reflexivity|exact Hx]
               |reflexivity].
      * split; [discriminate|]. intros (_ & x' & [= <-] & H). congruence.
Qed.

Lemma ttl_ok_iff (e : Zonefile.Env) (user_data : dict) :
  Zonefile.ttl_ok e user_data = true <-> has_valid_ttl e user_data.
Proof.
  unfold Zonefile.ttl_ok, has_valid_ttl, getitem. split.
  - destruct (user_data !! "$ttl") as [v|]; [|discriminate].
    destruct (int (Zonefile.builtins e) v) as [ttl|] eqn:Hint; [|discriminate].
    intros H. apply Z.leb_le in H. apply int_reads_as in Hint. eauto.
  - intros (v & ttl & -> & Hint & H). apply int_reads_as in Hint. rewrite Hint.
    apply Z.leb_le. exact H.
Qed.

Lemma is_zonefile_current_iff (e : Zonefile.Env) (fqu : string) (user_data : dict) :
  Zonefile.is_zonefile_current e fqu user_data = false <-> hash_differs e fqu user_data.
Proof.
  unfold Zonefile.is_zonefile_current, hash_differs.
  destruct (Zonefile.current_value_hash e fqu) as [h|]; [|split; [discriminate|reflexivity]].
  destruct (String.eqb_spec (Zonefile.hash_zonefile e user_data) h) as [->|Hne].
  - split; [discriminate|]. intros H. contradiction H. reflexivity.
  - split; [|reflexivity]. intros _ [= ->]. contradiction Hne. reflexivity.
Qed.

Lemma has_valid_ttl_has_key (e : Zonefile.Env) (user_data : dict) :
  has_valid_ttl e user_data -> has_key "$ttl" user_data = true.
Proof. intros (v & ttl & H & _). unfold has_key. rewrite H. reflexivity. Qed.

(** Once the payload parses, the verdict is a chain of five tests. *)
Lemma load_zonefile_parsed (e : Zonefile.Env) (fqu : string) (zonefile_data : pyval)
    (check_current : bool) (user_data : dict) (text : string) :
  parses_as e zonefile_data user_data text ->
  Zonefile.load_zonefile e fqu zonefile_data check_current =
    if negb (eq_str (get user_data "$origin" (PStr EmptyString)) fqu)
    then Ret (error_dict Zonefile.msg_invalid_origin)
    else if negb (has_key "$ttl" user_data)
    then Ret (error_dict Zonefile.msg_missing_ttl)
    else if negb (Zonefile.is_user_zonefile e user_data)
    then Ret (error_dict Zonefile.msg_nonstandard)
    else if negb (Zonefile.ttl_ok e user_data)
    then Ret (error_dict Zonefile.msg_invalid_ttl)
    else if check_current && Zonefile.is_zonefile_current e fqu user_data
    then Ret (<["zonefile" := PStr text]>
              (<["identical" := PBool true]> (error_dict Zonefile.msg_identical)))
    else Ret (<["zonefile" := PStr text]> status_true).
Proof.
  intros [Hparse Hmake]. apply parse_decodes_to in Hparse.
  unfold Zonefile.load_zonefile. rewrite Hparse, Hmake. reflexivity.
Qed.

Lemma load_zonefile_reasons_distinct : NoDup load_zonefile_reasons.
Proof.
  unfold load_zonefile_reasons.
  repeat (apply NoDup_cons_2;
          [rewrite ?elem_of_cons, elem_of_nil; intros H;
           repeat (destruct H as [H|H]; [discriminate H|]); exact H|]).
  apply NoDup_nil_2.
Qed.

Lemma success_has_no_error (text : string) :
  has_key "error" (<["zonefile" := PStr text]> status_true) = false.
Proof. reflexivity. Qed.

(** A result of [load_zonefile] without the key [error] is the success
    dict of a valid zonefile that is not the current one. *)
Lemma load_zonefile_success (e : Zonefile.Env) (fqu : string) (zonefile_data : pyval)
    (check_current : bool) (d : dict) :
  Zonefile.load_zonefile e fqu zonefile_data check_current = Ret d ->
  has_key "error" d = false ->
  exists user_data text,
    d = <["zonefile" := PStr text]> status_true /\
    valid_zonefile e fqu zonefile_data user_data text /\
    (check_current = true -> hash_differs e fqu user_data).
Proof.
  intros Hload Hd.
  destruct (Zonefile.parse e (str (Zonefile.builtins e) zonefile_data))
    as [[v|]|x] eqn:Hparse;
    unfold Zonefile.load_zonefile in Hload; rewrite Hparse in Hload.
  2: { injection Hload as <-. discriminate Hd. }
  2: discriminate Hload.
  destruct (Zonefile.make_zone_file e v) as [text|x] eqn:Hmake.
  2: { destruct (is_Exception x); [|discriminate Hload].
       injection Hload as <-. discriminate Hd. }
  destruct v as [| | | | | |user_data]; try discriminate Hload.
  assert (Hp : parses_as e zonefile_data user_data text)
    by (split; [apply parse_decodes_to|]; assumption).
  destruct (eq_str (get user_data "$origin" (PStr EmptyString)) fqu) eqn:Horigin;
    cbn [negb] in Hload; [|injection Hload as <-; discriminate Hd].
  destruct (has_key "$ttl" user_data) eqn:Httl;
    cbn [negb] in Hload; [|injection Hload as <-; discriminate Hd].
  destruct (Zonefile.is_user_zonefile e user_data) eqn:Hstd;
    cbn [negb] in Hload; [|injection Hload as <-; discriminate Hd].
  destruct (Zonefile.ttl_ok e user_data) eqn:Hok;
    cbn [negb] in Hload; [|injection Hload as <-; discriminate Hd].
  destruct (check_current && Zonefile.is_zonefile_current e fqu user_data) eqn:Hcur;
    injection Hload as <-; [discriminate Hd|].
  exists user_data, text. split; [reflexivity|]. split.
  - split; [exact Hp|]. split; [exact Horigin|].
    split; [apply ttl_ok_iff; exact Hok | exact Hstd].
  - intros ->. cbn [andb] in Hcur. apply is_zonefile_current_iff. exact Hcur.
Qed.

(** C7, as stated, fails in both directions.  A payload can meet every
    condition the claim lists (it is JSON, its [$origin] is the name, its
    [$ttl] is the integer 3600, it has the standard records, its hash is
    not the current one) and still be refused, because [make_zone_file]
    cannot write it back.  And a payload whose [$ttl] is the number -0.5,
    no integer and negative, is accepted, because [int] cuts it to 0. *)
Lemma load_zonefile_conditions_counterexample :
  (Zonefile.json_loads (Samples.json_zone_env false) Samples.alice_json
   = Some (PDict Samples.alice_zonefile) /\
   origin_is "alice.id" Samples.alice_zonefile /\
   has_integer_ttl Samples.alice_zonefile /\
   is_standard (Samples.json_zone_env false) Samples.alice_zonefile /\
   hash_differs (Samples.json_zone_env false) "alice.id" Samples.alice_zonefile /\
   Zonefile.load_zonefile (Samples.json_zone_env false) "alice.id"
     (PStr Samples.alice_json) true
   = Ret (error_dict (Zonefile.msg_invalid_zonefile "Traceback (most recent call last)")))
  /\ (Zonefile.json_loads (Samples.json_zone_env true) Samples.float_ttl_json
      = Some (PDict Samples.float_ttl_zonefile) /\
      Samples.float_ttl_zonefile !! "$ttl" = Some (PFloat (-0.5)%float) /\
      ~ has_integer_ttl Samples.float_ttl_zonefile /\
      Zonefile.load_zonefile (Samples.json_zone_env true) "alice.id"
        (PStr Samples.float_ttl_json) true
      = Ret (<["zonefile" := PStr Samples.alice_zonefile_txt]> status_true)).
Proof.
  split.
  - split; [vm_compute; reflexivity|].
    split; [vm_compute; reflexivity|].
    split; [exists 3600; split; [vm_compute; reflexivity|lia]|].
    split; [vm_compute; reflexivity|].
    split; [vm_compute; discriminate|].
    vm_compute. reflexivity.
  - split; [vm_compute; reflexivity|].
    split; [vm_compute; reflexivity|].
    split; [|vm_compute; reflexivity].
    intros (ttl & H & _). vm_compute in H. discriminate H.
Qed.

(** C7, amended.  [load_zonefile] returns the success result exactly for
    the payloads that decode (as JSON, or, when they are no JSON, as zone
    file text) to a record set that [make_zone_file] writes back, whose
    [$origin] is the target name, whose [$ttl] reads under [int] as a
    number that is not negative (an integer, a boolean, a float cut to its
    integer part or a numeric string), that have the standard record shape
    and (when currency is checked) whose hash differs from the current
    [value_hash]; every result without the key [error] is that success
    result.  A payload that decodes neither way, one that
    [make_zone_file] cannot write back, an [$origin] mismatch, a missing
    [$ttl], a non-standard record shape and a [$ttl] that does not read as
    such a number each yields an error dict with a reason of its own. *)
Theorem load_zonefile_valid_iff (e : Zonefile.Env) (fqu : string) (zonefile_data : pyval)
    (check_current : bool) :
  let result := Zonefile.load_zonefile e fqu zonefile_data check_current in
  let payload := str (Zonefile.builtins e) zonefile_data in
  (forall text,
     result = Ret (<["zonefile" := PStr text]> status_true) <->
     exists user_data,
       valid_zonefile e fqu zonefile_data user_data text /\
       (check_current = true -> hash_differs e fqu user_data))
  /\ (forall d, result = Ret d -> has_key "error" d = false ->
        exists text, d = <["zonefile" := PStr text]> status_true)
  /\ (undecodable e payload -> result = Ret (error_dict Zonefile.msg_invalid_data))
  /\ (forall v x,
        decodes_to e payload v -> Zonefile.make_zone_file e v = Raise x ->
        is_Exception x = true ->
        result = Ret (error_dict (Zonefile.msg_invalid_zonefile (Zonefile.format_exc e x))))
  /\ (forall user_data text, parses_as e zonefile_data user_data text ->
        (~ origin_is fqu user_data ->
           result = Ret (error_dict Zonefile.msg_invalid_origin)) /\
        (origin_is fqu user_data -> user_data !! "$ttl" = None ->
           result = Ret (error_dict Zonefile.msg_missing_ttl)) /\
        (origin_is fqu user_data -> has_key "$ttl" user_data = true ->
           ~ is_standard e user_data ->
           result = Ret (error_dict Zonefile.msg_nonstandard)) /\
        (origin_is fqu user_data -> has_key "$ttl" user_data = true ->
           is_standard e user_data -> ~ has_valid_ttl e user_data ->
           result = Ret (error_dict Zonefile.msg_invalid_ttl)))
  /\ NoDup load_zonefile_reasons.
Proof.
  intros result payload. subst result payload. repeat apply conj.
  - intros text. split.
    + intros Hload.
      destruct (load_zonefile_success e fqu zonefile_data check_current _ Hload
                  (success_has_no_error text))
        as (user_data & text' & Heq & Hvalid & Hdiff).
      apply (f_equal (fun d : dict => d !! "zonefile")) in Heq.
      rewrite !lookup_insert_eq in Heq. injection Heq as ->.
      exists user_data. split; assumption.
    + intros (user_data & (Hp & Horigin & Httl & Hstd) & Hdiff).
      rewrite (load_zonefile_parsed e fqu zonefile_data check_current user_data text Hp).
      unfold origin_is in Horigin. rewrite Horigin.
      rewrite (has_valid_ttl_has_key e user_data Httl).
      unfold is_standard in Hstd. rewrite Hstd.
      apply ttl_ok_iff in Httl. rewrite Httl. cbn [negb].
      destruct check_current; cbn [andb]; [|reflexivity].
      apply is_zonefile_current_iff in Hdiff; [|reflexivity].
      rewrite Hdiff. reflexivity.
  - intros d Hload Hd.
    destruct (load_zonefile_success e fqu zonefile_data check_current d Hload Hd)
      as (user_data & text & Heq & _). exists text. exact Heq.
  - intros Hparse. apply parse_undecodable in Hparse.
    unfold Zonefile.load_zonefile. rewrite Hparse. reflexivity.
  - intros v x Hparse Hmake Hx. apply parse_decodes_to in Hparse.
    unfold Zonefile.load_zonefile. rewrite Hparse, Hmake, Hx. reflexivity.
  - intros user_data text H.
    rewrite (load_zonefile_parsed e fqu zonefile_data check_current user_data text H).
    unfold origin_is, is_standard. repeat apply conj.
    + intros Horigin.
      destruct (eq_str (get user_data "$origin" (PStr EmptyString)) fqu);
        [contradiction Horigin|]; reflexivity.
    + intros Horigin Httl. rewrite Horigin.
      unfold has_key. rewrite Httl. reflexivity.
    + intros Horigin Httl Hstd. rewrite Horigin, Httl.
      destruct (Zonefile.is_user_zonefile e user_data); [contradiction Hstd|]; reflexivity.
    + intros Horigin Httl Hstd Hbad. rewrite Horigin, Httl, Hstd. cbn [negb].
      destruct (Zonefile.ttl_ok e user_data) eqn:Hok; [|reflexivity].
      exfalso. apply Hbad. apply ttl_ok_iff. exact Hok.
  - exact load_zonefile_reasons_distinct.
Qed.

Lemma load_zonefile_valid_iff_witness :
  Zonefile.load_zonefile (Samples.zone_env (Some Samples.hash_a)) "alice.id"
    (PStr Samples.new_zonefile_txt) true
  = Ret (<["zonefile" := PStr Samples.new_zonefile_txt]> status_true).
Proof.
  apply (load_zonefile_valid_iff (Samples.zone_env (Some Samples.hash_a)) "alice.id"
           (PStr Samples.new_zonefile_txt) true).
  exists Samples.new_zonefile. split.
  - split.
    { split; [|vm_compute; reflexivity].
      right. split; [reflexivity|]. exists Samples.new_zonefile.
      split; vm_compute; reflexivity. }
    split; [vm_compute; reflexivity|].
    split; [|vm_compute; reflexivity].
    exists (PInt 3600), 3600. split; [reflexivity|]. split; [constructor|lia].
  - intros _. vm_compute. discriminate.
Defined.

(** A zonefile that does not serialise is told apart from one that does
    not parse. *)
Lemma load_zonefile_not_a_zonefile (e : Zonefile.Env) (fqu : string)
    (zonefile_data : pyval) (check_current : bool) (v : pyval) (x : exn) :
  Zonefile.parse e (str (Zonefile.builtins e) zonefile_data) = Ret (Some v) ->
  Zonefile.make_zone_file e v = Raise x ->
  is_Exception x = true ->
  Zonefile.load_zonefile e fqu zonefile_data check_current
  = Ret (error_dict (Zonefile.msg_invalid_zonefile (Zonefile.format_exc e x))).
Proof.
  intros Hparse Hmake Hx. unfold Zonefile.load_zonefile.
  rewrite Hparse, Hmake, Hx. reflexivity.
Qed.

(** [load_zonefile] on the sample zone files; the current hash of
    [alice.id] is [hash_a], the hash of the first one. *)
Example load_new_zonefile :
  Zonefile.load_zonefile (Samples.zone_env (Some Samples.hash_a)) "alice.id"
    (PStr Samples.new_zonefile_txt) true
  = Ret {[ "status" := PBool true; "zonefile" := PStr Samples.new_zonefile_txt ]}.
Proof. vm_compute. reflexivity. Qed.

Example load_current_zonefile :
  Zonefile.load_zonefile (Samples.zone_env (Some Samples.hash_a)) "alice.id"
    (PStr Samples.alice_zonefile_txt) true
  = Ret {[ "error" := PStr Zonefile.msg_identical;
           "identical" := PBool true;
           "zonefile" := PStr Samples.alice_zonefile_txt ]}.
Proof. vm_compute. reflexivity. Qed.

Example load_current_zonefile_unchecked :
  Zonefile.load_zonefile (Samples.zone_env (Some Samples.hash_a)) "alice.id"
    (PStr Samples.alice_zonefile_txt) false
  = Ret {[ "status" := PBool true; "zonefile" := PStr Samples.alice_zonefile_txt ]}.
Proof. vm_compute. reflexivity. Qed.

Example load_zonefile_of_another_name :
  Zonefile.load_zonefile (Samples.zone_env (Some Samples.hash_a)) "alice.id"
    (PStr Samples.bob_zonefile_txt) true
  = Ret (error_dict "Invalid $origin; must use your name").
Proof. vm_compute. reflexivity. Qed.

Example load_garbage :
  Zonefile.load_zonefile (Samples.zone_env (Some Samples.hash_a)) "alice.id"
    (PStr "not a zone file") true
  = Ret (error_dict "Zonefile data is invalid.").
Proof. vm_compute. reflexivity. Qed.

(** ** Fee estimates and their fallback *)

(** Whatever [operation_sanity_check] returns, it is [{'status': True}]
    or a dict with the one key [error]. *)
Lemma operation_sanity_check_results (e : Sanity.Env) (fqu : string)
    (payment owner : pyval) (transfer_address : option string) (d : dict) :
  Sanity.operation_sanity_check e fqu payment owner transfer_address = Ret d ->
  d = status_true \/ exists msg, d = error_dict msg.
Proof.
  unfold Sanity.operation_sanity_check. intros H.
  repeat match type of H with
         | (if ?c then _ else _) = _ => destruct c
         | (let '(_, _) := ?p in _) = _ => destruct p
         | bind ?c _ = _ => destruct c; cbn [bind] in H
         | match ?c with _ => _ end = _ => destruct c
         | Ret _ = Ret _ => injection H as <-
         | Raise _ = Ret _ => discriminate H
         end; eauto.
Qed.

(** C3, as stated, fails in [operation_sanity_check]: when the live
    estimate fails it goes on with the figure of [get_tx_fee] and says
    nothing about it, and when [get_tx_fee] fails too there is no estimate
    at all. *)
Lemma silent_fallback_counterexample :
  Sanity.estimate_update_tx_fee Samples.chain_without_live_fee "alice.id"
    (PStr "payment-key") (Some "1OwnerAddr")
    (Sanity.get_privkey_info_params Samples.chain_without_live_fee (PStr "owner-key"))
  = Ret None /\
  Sanity.operation_sanity_check Samples.chain_without_live_fee "alice.id"
    (PStr "payment-key") (PStr "owner-key") None
  = Ret status_true /\
  status_true !! "warnings" = None /\
  Sanity.operation_sanity_check Samples.chain_without_any_fee "alice.id"
    (PStr "payment-key") (PStr "owner-key") None
  = Ret (error_dict "Failed to get fee estimate").
Proof. repeat split; vm_compute; reflexivity. Qed.

(** C3, amended.  Whenever [get_total_registration_fees] returns a reply
    that is not an error although one of the three live estimates made
    for the quoted price returned null, the three estimators have returned
    and each fee is there: the reply holds the fees of the preorder, the
    register and the update as integers, each the live estimate or, where
    that was null, the figure of [get_tx_fee] for a transaction of the
    approximate length of that operation; and its [warnings] are the one
    line that says the fees are rough estimates (for insufficient funds
    when a payment key was given, for a wallet not accessed when not).
    No result of [operation_sanity_check] has a [warnings] entry. *)
Theorem registration_fee_fallback_is_flagged (e : Sanity.Env) (name : string)
    (payment owner : pyval) (data reply : dict) (satoshis : pyval) :
  Sanity.get_name_cost e name = Ret data ->
  data !! "satoshis" = Some satoshis ->
  Sanity.get_total_registration_fees e name payment owner = Ret reply ->
  has_key "error" reply = false ->
  Sanity.estimate_preorder_tx_fee e name satoshis (address_of e payment)
    (Sanity.get_privkey_info_params e owner) = Ret None
  \/ Sanity.estimate_register_tx_fee e name (address_of e payment)
       (Sanity.get_privkey_info_params e owner) = Ret None
  \/ Sanity.estimate_update_tx_fee e name payment (address_of e owner)
       (Sanity.get_privkey_info_params e owner) = Ret None ->
  (exists live_pre live_reg live_upd fee_pre fee_reg fee_upd,
     Sanity.estimate_preorder_tx_fee e name satoshis (address_of e payment)
       (Sanity.get_privkey_info_params e owner) = Ret live_pre /\
     Sanity.estimate_register_tx_fee e name (address_of e payment)
       (Sanity.get_privkey_info_params e owner) = Ret live_reg /\
     Sanity.estimate_update_tx_fee e name payment (address_of e owner)
       (Sanity.get_privkey_info_params e owner) = Ret live_upd /\
     fee_used e live_pre (Sanity.APPROX_PREORDER_TX_LEN e) = Some fee_pre /\
     fee_used e live_reg (Sanity.APPROX_REGISTER_TX_LEN e) = Some fee_reg /\
     fee_used e live_upd (Sanity.APPROX_UPDATE_TX_LEN e) = Some fee_upd /\
     reply !! "preorder_tx_fee" = Some (PInt fee_pre) /\
     reply !! "register_tx_fee" = Some (PInt fee_reg) /\
     reply !! "update_tx_fee" = Some (PInt fee_upd) /\
     reply !! "warnings"
     = Some (PList [PStr (if is_none payment then Sanity.warn_no_wallet
                          else Sanity.warn_insufficient)]))
  /\ (forall fqu transfer_address d,
        Sanity.operation_sanity_check e fqu payment owner transfer_address = Ret d ->
        d !! "warnings" = None).
Proof.
  intros Hcost Hsat Hreply Herr Hfailed. split.
  2: { intros fqu transfer_address d H.
       destruct (operation_sanity_check_results _ _ _ _ _ _ H) as [->|[msg ->]];
         reflexivity. }
  unfold Sanity.get_total_registration_fees in Hreply. rewrite Hcost in Hreply.
  destruct (has_key "error" data); [injection Hreply as <-; discriminate Herr|].
  unfold getitem in Hreply. rewrite Hsat in Hreply. cbn [bind] in Hreply.
  fold (address_of e payment) in Hreply. fold (address_of e owner) in Hreply.
  destruct (Sanity.estimate_preorder_tx_fee e name satoshis (address_of e payment)
              (Sanity.get_privkey_info_params e owner)) as [live_pre|x] eqn:Hpre;
    cbn [bind] in Hreply;
    [|destruct x; try discriminate Hreply; injection Hreply as <-; discriminate Herr].
  destruct (Sanity.or_fallback e live_pre (Sanity.APPROX_PREORDER_TX_LEN e) false)
    as [fee1 b1] eqn:F1.
  destruct (Sanity.estimate_register_tx_fee e name (address_of e payment)
              (Sanity.get_privkey_info_params e owner)) as [live_reg|x] eqn:Hreg;
    cbn [bind] in Hreply;
    [|destruct x; try discriminate Hreply; injection Hreply as <-; discriminate Herr].
  destruct (Sanity.or_fallback e live_reg (Sanity.APPROX_REGISTER_TX_LEN e) b1)
    as [fee2 b2] eqn:F2.
  destruct (Sanity.estimate_update_tx_fee e name payment (address_of e owner)
              (Sanity.get_privkey_info_params e owner)) as [live_upd|x] eqn:Hupd;
    cbn [bind] in Hreply;
    [|destruct x; try discriminate Hreply; injection Hreply as <-; discriminate Herr].
  destruct (Sanity.or_fallback e live_upd (Sanity.APPROX_UPDATE_TX_LEN e) b2)
    as [fee3 b3] eqn:F3.
  destruct fee1 as [fee_pre|]; cbn [bind Sanity.int_of_fee] in Hreply;
    [|discriminate Hreply].
  destruct fee2 as [fee_reg|]; cbn [bind Sanity.int_of_fee] in Hreply;
    [|discriminate Hreply].
  destruct fee3 as [fee_upd|]; cbn [bind Sanity.int_of_fee] in Hreply;
    [|discriminate Hreply].
  destruct (int (Sanity.builtins e) satoshis) as [price|x]; cbn [bind] in Hreply;
    [|discriminate Hreply].
  assert (Hflag : b3 = true).
  { unfold Sanity.or_fallback in F1, F2, F3.
    destruct live_pre, live_reg, live_upd;
      try (destruct Hfailed as [H|[H|H]]; discriminate H); congruence. }
  assert (Hfees : fee_used e live_pre (Sanity.APPROX_PREORDER_TX_LEN e) = Some fee_pre
                  /\ fee_used e live_reg (Sanity.APPROX_REGISTER_TX_LEN e) = Some fee_reg
                  /\ fee_used e live_upd (Sanity.APPROX_UPDATE_TX_LEN e) = Some fee_upd).
  { unfold Sanity.or_fallback in F1, F2, F3. unfold fee_used.
    destruct live_pre, live_reg, live_upd; repeat split; congruence. }
  destruct Hfees as (U1 & U2 & U3). subst b3.
  exists live_pre, live_reg, live_upd, fee_pre, fee_reg, fee_upd.
  do 6 (split; [assumption || reflexivity|]).
  injection Hreply as <-.
  destruct (is_none payment); cbn [andb negb]; repeat split; reflexivity.
Qed.

Lemma registration_fee_fallback_is_flagged_witness :
  exists reply,
    Sanity.get_total_registration_fees Samples.chain_without_live_fee "bob.id"
      (PStr "payment-key") (PStr "owner-key") = Ret reply /\
    reply !! "preorder_tx_fee" = Some (PInt 6000) /\
    reply !! "warnings" = Some (PList [PStr Sanity.warn_insufficient]).
Proof.
  eexists. split; [reflexivity|].
  destruct (registration_fee_fallback_is_flagged Samples.chain_without_live_fee "bob.id"
              (PStr "payment-key") (PStr "owner-key")
              {[ "satoshis" := PInt 160000 ]} _ (PInt 160000)
              eq_refl eq_refl eq_refl eq_refl (or_introl eq_refl))
    as [(live_pre & live_reg & live_upd & fee_pre & fee_reg & fee_upd
         & H1 & H2 & H3 & U1 & U2 & U3 & R1 & R2 & R3 & W) _].
  injection H1 as <-. injection U1 as <-.
  split; [exact R1|exact W].
Defined.

(** ** The commands behind [operation_sanity_check] *)

(** A failed sanity check makes the command's checks [return] its
    result. *)
Lemma pass_sanity_check_error (e : Ops.Env) (call : Ops.SanityCall) (res : dict) :
  Ops.sanity_check e call = Ret res ->
  has_key "error" res = true ->
  Ops.pass_sanity_check e call = Return res.
Proof.
  intros Hres Herr. unfold Ops.pass_sanity_check, return_if_error.
  rewrite Hres. cbn. rewrite Herr. reflexivity.
Qed.

(** Checks that [return] leave the world as it is. *)
Lemma perform_Return (e : Ops.Env) (checks : flow Ops.RpcCall) (bare : bool)
    (result : outcome dict) (w : Ops.World) (d : dict) :
  checks = Return d -> Ops.perform e checks bare result w = (Ret d, w).
Proof. intros ->. reflexivity. Qed.

(** C2.  Whichever of update, transfer, revoke, migrate and
    set_zonefile_hash it is: when the command gets as far as calling
    [operation_sanity_check] and the check returns an error, the command
    returns that very dict, and the queue, the broadcast transactions and
    the log of RPC calls are what they were. *)
Theorem sanity_failure_is_atomic (e : Ops.Env) (op : Ops.Operation)
    (password : option string) (w : Ops.World) (call : Ops.SanityCall) (res : dict) :
  Ops.before_sanity e op password = Go call ->
  Ops.sanity_check e call = Ret res ->
  has_key "error" res = true ->
  Ops.run_operation e op password w = (Ret res, w).
Proof.
  intros Hbefore Hres Herr.
  pose proof (pass_sanity_check_error e call res Hres Herr) as Hpass.
  destruct op as [args interactive|args|name interactive|name interactive force|name zh];
    cbn [Ops.run_operation Ops.before_sanity] in *.
  - unfold Ops.cli_update. apply perform_Return. unfold Ops.update_checks.
    destruct (Ops.update_before_sanity e args password interactive)
      as [[call' loaded]| |]; cbn [then_ fst] in *; try discriminate Hbefore.
    injection Hbefore as ->. rewrite Hpass. reflexivity.
  - unfold Ops.cli_transfer. apply perform_Return. unfold Ops.transfer_checks.
    rewrite Hbefore. cbn [then_]. rewrite Hpass. reflexivity.
  - unfold Ops.cli_revoke. apply perform_Return. unfold Ops.revoke_checks.
    rewrite Hbefore. cbn [then_]. rewrite Hpass. reflexivity.
  - unfold Ops.cli_migrate. apply perform_Return. unfold Ops.migrate_checks.
    rewrite Hbefore. cbn [then_]. rewrite Hpass. reflexivity.
  - unfold Ops.cli_set_zonefile_hash. apply perform_Return.
    unfold Ops.set_zonefile_hash_checks.
    rewrite Hbefore. cbn [then_]. rewrite Hpass. reflexivity.
Qed.

Lemma sanity_failure_is_atomic_witness :
  Ops.before_sanity (Samples.ops_env Samples.chain_without_any_fee None "y")
    (Ops.Revoke "alice.id" true) None
  = Go {| Ops.sc_fqu := "alice.id";
          Ops.sc_payment_privkey_info := PStr "payment-key";
          Ops.sc_owner_privkey_info := PStr "owner-key";
          Ops.sc_transfer_address := None |} /\
  Ops.run_operation (Samples.ops_env Samples.chain_without_any_fee None "y")
    (Ops.Revoke "alice.id" true) None Samples.empty_world
  = (Ret (error_dict "Failed to get fee estimate"), Samples.empty_world).
Proof.
  split; [vm_compute; reflexivity|].
  apply (sanity_failure_is_atomic
           (Samples.ops_env Samples.chain_without_any_fee None "y")
           (Ops.Revoke "alice.id" true) None Samples.empty_world
           {| Ops.sc_fqu := "alice.id";
              Ops.sc_payment_privkey_info := PStr "payment-key";
              Ops.sc_owner_privkey_info := PStr "owner-key";
              Ops.sc_transfer_address := None |}
           (error_dict "Failed to get fee estimate"));
    vm_compute; reflexivity.
Defined.

(** Without a fee estimate, none of the five commands reaches the
    daemon. *)
Example no_fee_no_operation :
  let e := Samples.ops_env Samples.chain_without_any_fee None "y" in
  let refused := (Ret (error_dict "Failed to get fee estimate"), Samples.empty_world) in
  Ops.run_operation e (Ops.Update (Samples.update_alice Samples.alice_zonefile_txt) false)
    None Samples.empty_world = refused /\
  Ops.run_operation e (Ops.Transfer (Samples.transfer_alice "1FreshAddr"))
    None Samples.empty_world = refused /\
  Ops.run_operation e (Ops.Revoke "alice.id" false) None Samples.empty_world = refused /\
  Ops.run_operation e (Ops.Migrate "alice.id" false false) None Samples.empty_world
  = refused /\
  Ops.run_operation e (Ops.SetZonefileHash "alice.id" Samples.hash_b)
    None Samples.empty_world = refused.
Proof. cbv zeta. repeat split; vm_compute; reflexivity. Qed.

(** With one, a confirmed revocation is sent; a declined one leaves the
    program through [exit(0)] without touching the queue. *)
Example revoke_confirmed :
  Ops.cli_revoke (Samples.ops_env Samples.chain_ok None "y") "alice.id" None true
    Samples.empty_world
  = (Ret {[ "success" := PBool true; "transaction_hash" := PStr "txid-1" ]},
     {| Ops.queue := [ {[ "type" := PStr "revoke"; "tx_hash" := PStr "txid-1" ]} ];
        Ops.broadcasts := ["txid-1"];
        Ops.rpc_log := [Ops.backend_revoke "alice.id"] |}).
Proof. vm_compute. reflexivity. Qed.

Example revoke_declined :
  Ops.cli_revoke (Samples.ops_env Samples.chain_ok None "n") "alice.id" None true
    Samples.empty_world
  = (Raise (SystemExit 0), Samples.empty_world).
Proof. vm_compute. reflexivity. Qed.

(** ** Transfers to an address that owns too many names *)

Lemma over_cap_cannot_receive (e : Sanity.Env) (address : string) :
  over_cap e address -> Sanity.can_receive_name e address = false.
Proof. unfold over_cap, Sanity.can_receive_name. intros H. apply Z.leb_gt. exact H. Qed.

(** With the receiving address over the cap, the sanity check of a
    transfer never says [{'status': True}]. *)
Lemma sanity_check_over_cap (e : Sanity.Env) (fqu : string) (payment owner : pyval)
    (address : string) (d : dict) :
  Sanity.can_receive_name e address = false ->
  Sanity.operation_sanity_check e fqu payment owner (Some address) = Ret d ->
  exists msg, d = error_dict msg.
Proof.
  intros Hcap. unfold Sanity.operation_sanity_check. rewrite Hcap. intros H.
  repeat match type of H with
         | _ => progress cbn [negb] in H
         | (if ?c then _ else _) = _ => destruct c
         | (let '(_, _) := ?p in _) = _ => destruct p
         | bind ?c _ = _ => destruct c; cbn [bind] in H
         | match ?c with _ => _ end = _ => destruct c
         | Ret _ = Ret _ => injection H as <-
         | Raise _ = Ret _ => discriminate H
         end; eauto.
Qed.

Lemma sanity_check_too_many_names (e : Sanity.Env) (fqu : string) (payment owner : pyval)
    (address : string) :
  passes_until_receive_test e fqu payment owner address ->
  Sanity.can_receive_name e address = false ->
  Sanity.operation_sanity_check e fqu payment owner (Some address)
  = Ret (error_dict (Sanity.msg_too_many_names address)).
Proof.
  unfold passes_until_receive_test, Sanity.operation_sanity_check.
  destruct (Sanity.get_addresses_from_file e) as [[payment_address owner_address] ?].
  intros (Hreg & Hown & live & fee & balance & Hest & Hfee & Hbal & Hle & Huse & b & Hb58) Hcap.
  rewrite Hreg, Hown. cbn [negb]. rewrite Hest. cbn [bind].
  unfold fee_used in Hfee.
  assert (Hfee' : match live with
                  | Some _ => live
                  | None => Sanity.get_tx_fee e
                              (repeat_str "00" (Sanity.APPROX_TRANSFER_TX_LEN e))
                  end = Some fee) by (destruct live; exact Hfee).
  rewrite Hfee', Hbal.
  apply Z.ltb_ge in Hle. rewrite Hle, Huse, Hb58, Hcap. reflexivity.
Qed.

(** What the shared steps [return] is always an error dict. *)
Lemma return_if_error_Return (res d : dict) :
  return_if_error res = Return d -> has_key "error" d = true.
Proof.
  unfold return_if_error. destruct (has_key "error" res) eqn:H; [|discriminate].
  intros [= <-]. exact H.
Qed.

Lemma load_wallet_keys_Return (e : Ops.Env) (password : option string) (d : dict) :
  Ops.load_wallet_keys e password = Return d -> has_key "error" d = true.
Proof.
  unfold Ops.load_wallet_keys.
  destruct (Wallet.get_wallet_keys (Ops.wallet e) password) as [[keys|]|x];
    cbn; try discriminate.
  destruct (has_key "error" keys) eqn:H; [|discriminate].
  intros [= <-]. exact H.
Qed.

Lemma return_if_invalid_Return (e : Ops.Env) (fqu : string) (d : dict) :
  Ops.return_if_invalid e fqu = Return d -> has_key "error" d = true.
Proof.
  unfold Ops.return_if_invalid.
  destruct (Sanity.check_valid_name (Ops.chain e) fqu) as [msg|]; [|discriminate].
  destruct (truthy (PStr msg)); [|discriminate].
  intros [= <-]. reflexivity.
Qed.

Lemma transfer_before_sanity_Return (e : Ops.Env) (args : Ops.TransferArgs)
    (password : option string) (d : dict) :
  Ops.transfer_before_sanity e args password = Return d -> has_key "error" d = true.
Proof.
  unfold Ops.transfer_before_sanity. intros H.
  destruct (return_if_error (Wallet.wallet_ensure_exists (Ops.wallet e) None)) eqn:E1;
    cbn [then_] in H; [|injection H as <-; eapply return_if_error_Return; eassumption
                       |discriminate H].
  destruct (return_if_error (Ops.start_rpc_endpoint e password)) eqn:E2;
    cbn [then_] in H; [|injection H as <-; eapply return_if_error_Return; eassumption
                       |discriminate H].
  destruct (Ops.load_wallet_keys e password) as [keys| |] eqn:E3;
    cbn [then_] in H; [|injection H as <-; eapply load_wallet_keys_Return; eassumption
                       |discriminate H].
  destruct (Ops.return_if_invalid e (Ops.t_name args)) eqn:E4;
    cbn [then_] in H; [|injection H as <-; eapply return_if_invalid_Return; eassumption
                       |discriminate H].
  destruct (Wallet.key_of keys "payment_privkey"); cbn [then_ lift] in H;
    [|discriminate H].
  destruct (Wallet.key_of keys "owner_privkey"); cbn [then_ lift] in H;
    discriminate H.
Qed.

(** C4, as stated, fails: the test on the receiving address is the last
    one of [operation_sanity_check], so a transfer to an address over the
    cap is answered with the error of whichever earlier test fails.  Here
    the name is not registered, and both the check and [cli_transfer] say
    so and not that the address owns too many names. *)
Lemma over_cap_transfer_counterexample :
  over_cap Samples.chain_ok "1FullAddr" /\
  Sanity.operation_sanity_check Samples.chain_ok "bob.id"
    (PStr "payment-key") (PStr "owner-key") (Some "1FullAddr")
  = Ret (error_dict "bob.id is not registered yet.") /\
  Ops.cli_transfer (Samples.ops_env Samples.chain_ok None "y")
    {| Ops.t_name := "bob.id"; Ops.t_address := "1FullAddr" |} None Samples.empty_world
  = (Ret (error_dict "bob.id is not registered yet."), Samples.empty_world).
Proof. repeat split; vm_compute; reflexivity. Qed.

(** C4, amended.  A transfer to an address that owns more than
    [MAXIMUM_NAMES_PER_ADDRESS] = 25 names: [can_receive_name] is false;
    [cli_transfer] leaves the queue, the broadcasts and the RPC log
    untouched and whatever dict it returns is an error; and when
    [cli_transfer] gets as far as calling [operation_sanity_check] and the
    tests that come before the one on the receiving address pass, the
    check and [cli_transfer] return "Address ... owns too many names
    already.". *)
Theorem transfer_to_full_address_is_refused (e : Ops.Env) (args : Ops.TransferArgs)
    (password : option string) (w : Ops.World) :
  over_cap (Ops.chain e) (Ops.t_address args) ->
  Sanity.can_receive_name (Ops.chain e) (Ops.t_address args) = false /\
  snd (Ops.cli_transfer e args password w) = w /\
  (forall d, fst (Ops.cli_transfer e args password w) = Ret d ->
             has_key "error" d = true) /\
  (forall call,
     Ops.transfer_before_sanity e args password = Go call ->
     passes_until_receive_test (Ops.chain e) (Ops.sc_fqu call)
       (Ops.sc_payment_privkey_info call) (Ops.sc_owner_privkey_info call)
       (Ops.t_address args) ->
     Ops.sanity_check e call
     = Ret (error_dict (Sanity.msg_too_many_names (Ops.t_address args))) /\
     Ops.cli_transfer e args password w
     = (Ret (error_dict (Sanity.msg_too_many_names (Ops.t_address args))), w)).
Proof.
  intros Hover. pose proof (over_cap_cannot_receive _ _ Hover) as Hcap.
  split; [exact Hcap|].
  assert (Haddr : forall call, Ops.transfer_before_sanity e args password = Go call ->
                    Ops.sc_transfer_address call = Some (Ops.t_address args)).
  { unfold Ops.transfer_before_sanity. intros call H.
    repeat match type of H with
           | then_ ?c _ = _ => destruct c; cbn [then_] in H; try discriminate H
           end.
    injection H as <-. reflexivity. }
  assert (Hshape : (exists d, Ops.transfer_checks e args password = Return d
                              /\ has_key "error" d = true)
                   \/ exists x, Ops.transfer_checks e args password = Throw x).
  { unfold Ops.transfer_checks.
    destruct (Ops.transfer_before_sanity e args password) as [call|d|x] eqn:Hbefore;
      cbn [then_].
    - unfold Ops.pass_sanity_check, Ops.sanity_check.
      rewrite (Haddr call eq_refl).
      destruct (Sanity.operation_sanity_check (Ops.chain e) (Ops.sc_fqu call)
                  (Ops.sc_payment_privkey_info call) (Ops.sc_owner_privkey_info call)
                  (Some (Ops.t_address args))) as [res|x] eqn:Hres; cbn [then_ lift].
      + destruct (sanity_check_over_cap _ _ _ _ _ _ Hcap Hres) as [msg ->].
        left. exists (error_dict msg). split; reflexivity.
      + right. eauto.
    - left. exists d. split; [reflexivity|].
      eapply transfer_before_sanity_Return; eassumption.
    - right. eauto. }
  unfold Ops.cli_transfer. repeat apply conj.
  - destruct Hshape as [(d & -> & _)|(x & ->)]; reflexivity.
  - intros d. destruct Hshape as [(d' & -> & Hd)|(x & ->)]; cbn.
    + intros [= <-]. exact Hd.
    + discriminate.
  - intros call Hbefore Hpasses.
    assert (Hres : Ops.sanity_check e call
                   = Ret (error_dict (Sanity.msg_too_many_names (Ops.t_address args)))).
    { unfold Ops.sanity_check. rewrite (Haddr call Hbefore).
      apply sanity_check_too_many_names; assumption. }
    split; [exact Hres|].
    apply perform_Return. unfold Ops.transfer_checks. rewrite Hbefore. cbn [then_].
    rewrite (pass_sanity_check_error e call _ Hres eq_refl). reflexivity.
Qed.

Lemma transfer_to_full_address_is_refused_witness :
  over_cap Samples.chain_ok "1FullAddr" /\
  Ops.cli_transfer (Samples.ops_env Samples.chain_ok None "y")
    (Samples.transfer_alice "1FullAddr") None Samples.empty_world
  = (Ret (error_dict "Address 1FullAddr owns too many names already."),
     Samples.empty_world).
Proof.
  assert (Hover : over_cap Samples.chain_ok "1FullAddr") by (vm_compute; reflexivity).
  split; [exact Hover|].
  destruct (transfer_to_full_address_is_refused
              (Samples.ops_env Samples.chain_ok None "y")
              (Samples.transfer_alice "1FullAddr") None Samples.empty_world Hover)
    as (_ & _ & _ & Hreached).
  apply (Hreached {| Ops.sc_fqu := "alice.id";
                     Ops.sc_payment_privkey_info := PStr "payment-key";
                     Ops.sc_owner_privkey_info := PStr "owner-key";
                     Ops.sc_transfer_address := Some "1FullAddr" |}).
  - vm_compute. reflexivity.
  - split; [reflexivity|]. split; [reflexivity|].
    exists (Some 5000), 5000, 1000000.
    split; [reflexivity|]. split; [reflexivity|]. split; [reflexivity|].
    split; [lia|]. split; [reflexivity|]. exists true. reflexivity.
Defined.

(** The same transfer to an address without names goes through: the
    daemon is called once, queues an entry and broadcasts. *)
Example transfer_to_fresh_address :
  Ops.cli_transfer (Samples.ops_env Samples.chain_ok None "y")
    (Samples.transfer_alice "1FreshAddr") None Samples.empty_world
  = (Ret {[ "success" := PBool true; "transaction_hash" := PStr "txid-1" ]},
     {| Ops.queue := [ {[ "type" := PStr "transfer"; "tx_hash" := PStr "txid-1" ]} ];
        Ops.broadcasts := ["txid-1"];
        Ops.rpc_log := [Ops.backend_transfer "alice.id" "1FreshAddr"] |}).
Proof. vm_compute. reflexivity. Qed.

(** A name that is not registered is refused for that reason, whatever
    the receiving address owns: the test on the address comes last. *)
Example transfer_of_unregistered_name :
  Ops.cli_transfer (Samples.ops_env Samples.chain_ok None "y")
    {| Ops.t_name := "bob.id"; Ops.t_address := "1FullAddr" |} None Samples.empty_world
  = (Ret (error_dict "bob.id is not registered yet."), Samples.empty_world).
Proof. vm_compute. reflexivity. Qed.

(** ** Updating to the zonefile that is already current *)

(** [load_zonefile] on a valid zonefile whose hash is the current
    [value_hash]: the error with the [identical] flag. *)
Lemma load_zonefile_identical (e : Zonefile.Env) (fqu : string) (zonefile_data : pyval)
    (user_data : dict) (text : string) :
  valid_zonefile e fqu zonefile_data user_data text ->
  Zonefile.current_value_hash e fqu = Some (Zonefile.hash_zonefile e user_data) ->
  Zonefile.load_zonefile e fqu zonefile_data true
  = Ret (<["zonefile" := PStr text]>
         (<["identical" := PBool true]> (error_dict Zonefile.msg_identical))).
Proof.
  intros (Hp & Horigin & Httl & Hstd) Hcur.
  rewrite (load_zonefile_parsed e fqu zonefile_data true user_data text Hp).
  unfold origin_is in Horigin. rewrite Horigin.
  rewrite (has_valid_ttl_has_key e user_data Httl).
  unfold is_standard in Hstd. rewrite Hstd.
  apply ttl_ok_iff in Httl. rewrite Httl. cbn [negb andb].
  unfold Zonefile.is_zonefile_current. rewrite Hcur, String.eqb_refl. reflexivity.
Qed.

(** C1, as stated, fails twice over.  For a well-formed zonefile with the
    current hash, [cli_update] returns a dict of its own making that has no
    [identical] field (first three parts).  And for data that is no
    zonefile, an interactive user who answers [y] gets the update sent even
    though its hash is the current [value_hash] (last three parts). *)
Lemma identical_update_counterexample :
  Zonefile.current_value_hash (Samples.zone_env (Some Samples.hash_a)) "alice.id"
  = Some (Zonefile.hash_zonefile (Samples.zone_env (Some Samples.hash_a))
            Samples.alice_zonefile) /\
  Ops.cli_update (Samples.ops_env Samples.chain_ok (Some Samples.hash_a) "y")
    (Samples.update_alice Samples.alice_zonefile_txt) None false Samples.empty_world
  = (Ret (error_dict "Zonefile matches the current name hash; not updating."),
     Samples.empty_world) /\
  error_dict "Zonefile matches the current name hash; not updating." !! "identical" = None /\
  Ops.get_zonefile_data_hash (Samples.ops_env Samples.chain_ok (Some Samples.hash_b) "y")
    (PStr "not a zone file") = Ret Samples.hash_b /\
  Zonefile.current_value_hash (Samples.zone_env (Some Samples.hash_b)) "alice.id"
  = Some Samples.hash_b /\
  Ops.cli_update (Samples.ops_env Samples.chain_ok (Some Samples.hash_b) "y")
    (Samples.update_alice "not a zone file") None true Samples.empty_world
  = (Ret {[ "success" := PBool true; "transaction_hash" := PStr "txid-1" ]},
     {| Ops.queue := [ {[ "type" := PStr "update"; "tx_hash" := PStr "txid-1" ]} ];
        Ops.broadcasts := ["txid-1"];
        Ops.rpc_log := [Ops.backend_update "alice.id" (PStr "base64:not a zone file")
                          PNone (PStr Samples.hash_b)] |}).
Proof. repeat split; vm_compute; reflexivity. Qed.

(** C1, amended.  When [cli_update] gets as far as loading the zonefile,
    and the data is a valid zonefile for the name whose hash is the name's
    current [value_hash], then [load_zonefile] answers with its error
    flagged [identical], and [cli_update] returns
    [{'error': 'Zonefile matches the current name hash; not updating.'}],
    without an [identical] field; the queue, the broadcasts and the RPC log
    are what they were. *)
Theorem identical_update_is_refused (e : Ops.Env) (args : Ops.UpdateArgs)
    (password : option string) (interactive : bool) (w : Ops.World)
    (wallet_keys : option dict) (zonefile_data : pyval) (user_data : dict) (text : string) :
  Ops.update_before_load e args password interactive = Go (wallet_keys, zonefile_data) ->
  valid_zonefile (Ops.zone e) (Ops.u_name args) zonefile_data user_data text ->
  Zonefile.current_value_hash (Ops.zone e) (Ops.u_name args)
  = Some (Zonefile.hash_zonefile (Ops.zone e) user_data) ->
  Zonefile.load_zonefile (Ops.zone e) (Ops.u_name args) zonefile_data true
  = Ret (<["zonefile" := PStr text]>
         (<["identical" := PBool true]> (error_dict Zonefile.msg_identical))) /\
  Ops.cli_update e args password interactive w
  = (Ret (error_dict Ops.msg_matches_current), w) /\
  error_dict Ops.msg_matches_current !! "identical" = None.
Proof.
  intros Hbefore Hvalid Hcur.
  pose proof (load_zonefile_identical _ _ _ _ _ Hvalid Hcur) as Hload.
  split; [exact Hload|]. split; [|reflexivity].
  unfold Ops.cli_update. apply perform_Return.
  unfold Ops.update_checks, Ops.update_before_sanity.
  rewrite Hbefore. cbn [then_]. rewrite Hload. cbn [then_ lift].
  reflexivity.
Qed.

Lemma identical_update_is_refused_witness :
  Ops.cli_update (Samples.ops_env Samples.chain_ok (Some Samples.hash_a) "y")
    (Samples.update_alice Samples.alice_zonefile_txt) None true Samples.empty_world
  = (Ret (error_dict Ops.msg_matches_current), Samples.empty_world).
Proof.
  apply (identical_update_is_refused
           (Samples.ops_env Samples.chain_ok (Some Samples.hash_a) "y")
           (Samples.update_alice Samples.alice_zonefile_txt) None true
           Samples.empty_world (Some Samples.wallet_keys)
           (PStr Samples.alice_zonefile_txt) Samples.alice_zonefile
           Samples.alice_zonefile_txt).
  - vm_compute. reflexivity.
  - split.
    { split; [|vm_compute; reflexivity].
      right. split; [reflexivity|]. exists Samples.alice_zonefile.
      split; vm_compute; reflexivity. }
    split; [vm_compute; reflexivity|].
    split; [|vm_compute; reflexivity].
    exists (PInt 3600), 3600. split; [reflexivity|]. split; [constructor|lia].
  - vm_compute. reflexivity.
Defined.

(** A zonefile with another hash is sent to the daemon. *)
Example update_to_new_zonefile :
  Ops.cli_update (Samples.ops_env Samples.chain_ok (Some Samples.hash_a) "y")
    (Samples.update_alice Samples.new_zonefile_txt) None false Samples.empty_world
  = (Ret {[ "success" := PBool true; "transaction_hash" := PStr "txid-1" ]},
     {| Ops.queue := [ {[ "type" := PStr "update"; "tx_hash" := PStr "txid-1" ]} ];
        Ops.broadcasts := ["txid-1"];
        Ops.rpc_log :=
          [Ops.backend_update "alice.id" (PStr ("base64:" ++ Samples.new_zonefile_txt))
             PNone (PStr Samples.hash_b)] |}).
Proof. vm_compute. reflexivity. Qed.

(** ** Sorting, as [sorted] does it *)

Section Sorting.
Context {A : Type} (leb : A -> A -> bool).
Hypothesis leb_total : forall x y, leb x y = true \/ leb y x = true.
Hypothesis leb_trans : forall x y z, leb x y = true -> leb y z = true -> leb x z = true.

Lemma elem_of_insert_by (x y : A) (l : list A) :
  y ∈ insert_by leb x l <-> y = x \/ y ∈ l.
Proof.
  induction l as [|a l IH]; cbn.
  - rewrite list_elem_of_singleton, elem_of_nil. tauto.
  - destruct (leb x a).
    + rewrite elem_of_cons. tauto.
    + rewrite !elem_of_cons, IH. tauto.
Qed.

Lemma elem_of_sort_by (y : A) (l : list A) : y ∈ sort_by leb l <-> y ∈ l.
Proof.
  unfold sort_by. induction l as [|a l IH]; cbn; [tauto|].
  rewrite elem_of_insert_by, elem_of_cons, IH. tauto.
Qed.

Lemma insert_by_sorted (x : A) (l : list A) :
  StronglySorted (order_of leb) l -> StronglySorted (order_of leb) (insert_by leb x l).
Proof.
  induction 1 as [|a l Hl IH Ha]; cbn.
  - repeat constructor.
  - destruct (leb x a) eqn:Hxa.
    + constructor; [constructor; assumption|].
      constructor; [exact Hxa|].
      eapply Forall_impl; [exact Ha|]. intros y Hy. eapply leb_trans; eassumption.
    + constructor; [exact IH|].
      apply Forall_forall. intros y Hy. apply elem_of_insert_by in Hy as [->|Hy].
      * destruct (leb_total x a) as [H|H]; [congruence | exact H].
      * rewrite Forall_forall in Ha. apply Ha. exact Hy.
Qed.

Lemma sort_by_sorted (l : list A) : StronglySorted (order_of leb) (sort_by leb l).
Proof.
  unfold sort_by. induction l as [|a l IH]; cbn; [constructor|].
  apply insert_by_sorted. exact IH.
Qed.

(** In the reversed sorted list, what stands after an element is below
    it. *)
Lemma rev_sort_by_after (l before after : list A) (x y : A) :
  rev (sort_by leb l) = (before ++ x :: after)%list -> y ∈ after -> leb y x = true.
Proof.
  intros Hsplit Hy.
  assert (Hs : sort_by leb l = (rev after ++ x :: rev before)%list).
  { rewrite <- (rev_involutive (sort_by leb l)), Hsplit.
    rewrite rev_app_distr. cbn. rewrite <- app_assoc. reflexivity. }
  pose proof (sort_by_sorted l) as Hsorted. rewrite Hs in Hsorted.
  apply (StronglySorted_app_1_elem_of (order_of leb) _ _ y x Hsorted).
  - apply list_elem_of_In, in_rev. rewrite rev_involutive.
    apply list_elem_of_In. exact Hy.
  - apply elem_of_cons. left. reflexivity.
Qed.
End Sorting.

Lemma string_compare_le_trans (a b c : string) :
  (a ?= b)%string <> Gt -> (b ?= c)%string <> Gt -> (a ?= c)%string <> Gt.
Proof.
  revert b c. induction a as [|x a IH]; intros [|y b] [|z c]; cbn; try congruence.
  unfold Ascii.compare.
  destruct (N.compare_spec (N_of_ascii x) (N_of_ascii y)) as [Hxy|Hxy|Hxy];
    destruct (N.compare_spec (N_of_ascii y) (N_of_ascii z)) as [Hyz|Hyz|Hyz];
    destruct (N.compare_spec (N_of_ascii x) (N_of_ascii z)) as [Hxz|Hxz|Hxz];
    intros H1 H2; first [congruence | lia | eapply IH; eassumption].
Qed.

Lemma string_leb_trans (a b c : string) :
  String.leb a b = true -> String.leb b c = true -> String.leb a c = true.
Proof.
  unfold String.leb. intros H1 H2.
  pose proof (string_compare_le_trans a b c) as H.
  destruct (a ?= b)%string, (b ?= c)%string, (a ?= c)%string;
    try reflexivity; try discriminate; exfalso; apply H; congruence.
Qed.

(** ** Attributing a zonefile to a transaction: [cli_sync_zonefile] *)

Lemma string_leb_refl (s : string) : String.leb s s = true.
Proof. destruct (String.leb_total s s); assumption. Qed.

Lemma history_key_listed (name_history : dict) (key : string) (v : pyval) :
  name_history !! key = Some v -> key ∈ Sync.history_keys name_history.
Proof.
  intros H. unfold Sync.history_keys.
  apply list_elem_of_In, in_rev. rewrite rev_involutive. apply list_elem_of_In.
  apply elem_of_sort_by. apply list_elem_of_In.
  apply (in_map fst (map_to_list name_history) (key, v)).
  apply list_elem_of_In, elem_of_map_to_list. exact H.
Qed.

(** The walk stops at the first key whose item matches. *)
Lemma history_walk_first (name_history : dict) (keys : list string)
    (zonefile_hash : string) (tx : pyval) :
  Sync.history_walk name_history keys zonefile_hash = Ret tx ->
  (exists before key after item,
     keys = (before ++ key :: after)%list /\
     name_history !! key = Some (PDict item) /\
     Sync.item_matches item zonefile_hash = true /\
     tx = get item "txid" PNone /\
     forall k, k ∈ before ->
       exists it, name_history !! k = Some (PDict it) /\
                  Sync.item_matches it zonefile_hash = false)
  \/ (tx = PNone /\
      forall k, k ∈ keys ->
        exists it, name_history !! k = Some (PDict it) /\
                   Sync.item_matches it zonefile_hash = false).
Proof.
  induction keys as [|k keys IH]; cbn [Sync.history_walk].
  - intros [= <-]. right. split; [reflexivity|]. intros k Hk.
    apply elem_of_nil in Hk. destruct Hk.
  - unfold getitem. destruct (name_history !! k) as [v|] eqn:Hk; [|discriminate].
    cbn [bind]. destruct v as [| | | | | |item]; try discriminate.
    destruct (Sync.item_matches item zonefile_hash) eqn:Hm.
    + intros [= <-]. left. exists [], k, keys, item.
      repeat split; try assumption. intros k' Hk'. apply elem_of_nil in Hk'. destruct Hk'.
    + intros H. destruct (IH H) as [(before & key & after & it & -> & Hkey & Hit & Htx & Hb)
                                   |(-> & Hall)].
      * left. exists (k :: before), key, after, it. repeat split; try assumption.
        intros k' Hk'. apply elem_of_cons in Hk' as [->|Hk']; [eauto|auto].
      * right. split; [reflexivity|]. intros k' Hk'.
        apply elem_of_cons in Hk' as [->|Hk']; [eauto|auto].
Qed.

Lemma eq_str_true (v : pyval) (s : string) : eq_str v s = true <-> v = PStr s.
Proof.
  destruct v as [| | | |s'| |]; cbn [eq_str]; try (split; discriminate).
  rewrite String.eqb_eq. split; [intros ->; reflexivity|intros [= ->]; reflexivity].
Qed.


Lemma item_matches_iff (item : dict) (zonefile_hash : string) :
  Sync.item_matches item zonefile_hash = true <-> records_update_to item zonefile_hash.
Proof.
  unfold Sync.item_matches, records_update_to, get. split.
  - intros H. apply andb_true_iff in H as [H Hvh]. apply andb_true_iff in H as [H _].
    apply andb_true_iff in H as [_ Hop].
    apply eq_str_true in Hop. apply eq_str_true in Hvh.
    destruct (item !! "op") as [op|]; [|discriminate Hop].
    destruct (item !! "value_hash") as [vh|]; [|discriminate Hvh].
    subst. split; reflexivity.
  - intros [-> ->]. cbn. rewrite !String.eqb_refl. reflexivity.
Qed.

Lemma item_matches_not (item : dict) (zonefile_hash : string) :
  Sync.item_matches item zonefile_hash = false <-> ~ records_update_to item zonefile_hash.
Proof.
  rewrite <- item_matches_iff. destruct (Sync.item_matches item zonefile_hash);
    split; congruence.
Qed.

(** Over the reversed sorted keys, the first match is the latest one. *)
Lemma history_walk_latest (name_history : dict) (zonefile_hash : string) (tx : pyval) :
  Sync.history_walk name_history (Sync.history_keys name_history) zonefile_hash = Ret tx ->
  (exists key item,
     latest_matching_update name_history zonefile_hash key item /\
     tx = get item "txid" PNone)
  \/ (tx = PNone /\ no_matching_update name_history zonefile_hash).
Proof.
  intros H. destruct (history_walk_first _ _ _ _ H)
    as [(before & key & after & item & Hkeys & Hkey & Hitem & Htx & Hbefore)|(-> & Hall)].
  - left. exists key, item. split; [|exact Htx].
    split; [exact Hkey|]. split; [apply item_matches_iff; exact Hitem|].
    intros key' item' Hkey' Hitem'. apply item_matches_iff in Hitem'.
    pose proof (history_key_listed _ _ _ Hkey') as Hin.
    rewrite Hkeys in Hin. apply elem_of_app in Hin as [Hin|Hin].
    + destruct (Hbefore key' Hin) as (it & Hit & Hno). congruence.
    + apply elem_of_cons in Hin as [->|Hin]; [apply string_leb_refl|].
      unfold Sync.history_keys in Hkeys.
      eapply (rev_sort_by_after String.leb String.leb_total string_leb_trans);
        eassumption.
  - right. split; [reflexivity|]. intros key item Hkey. apply item_matches_not.
    destruct (Hall key (history_key_listed _ _ _ Hkey)) as (it & Hit & Hno). congruence.
Qed.







(** After a transfer the history is walked, latest block first. *)
Example sync_finds_txid_in_history :
  Sync.history_keys Samples.alice_history = ["373800"; "373700"] /\
  Sync.cli_sync_zonefile (Samples.sync_env Samples.transferred_record [])
    (Samples.sync_alice Samples.alice_zonefile_txt) false false
  = (Ret {[ "status" := PBool true; "value_hash" := PStr Samples.hash_a ]},
     [ {| Sync.r_name := "alice.id";
          Sync.r_user_data := PStr Samples.alice_zonefile_txt;
          Sync.r_txid := PStr "tx-old" |} ]).
Proof. split; vm_compute; reflexivity. Qed.

(** A pending update in the queue comes first. *)
Example sync_finds_txid_in_queue :
  Sync.cli_sync_zonefile (Samples.sync_env Samples.updated_record [Samples.queued_update])
    (Samples.sync_alice Samples.new_zonefile_txt) false false
  = (Ret {[ "status" := PBool true; "value_hash" := PStr Samples.hash_a ]},
     [ {| Sync.r_name := "alice.id";
          Sync.r_user_data := PStr Samples.alice_zonefile_txt;
          Sync.r_txid := PStr "tx-pending" |} ]).
Proof. vm_compute. reflexivity. Qed.

(** Steps (b) and (c) of the lookup. *)
Lemma txid_of_record_spec (name_rec : dict) (zonefile_hash : string) (tx : pyval) :
  Sync.txid_of_record name_rec zonefile_hash = Ret tx ->
  exists op, name_rec !! "op" = Some op /\
    ((eq_str op Config.NAME_UPDATE = true /\
      exists value_hash, name_rec !! "value_hash" = Some value_hash /\
        ((eq_str value_hash zonefile_hash = true /\ name_rec !! "txid" = Some tx)
         \/ (eq_str value_hash zonefile_hash = false /\ tx = PNone)))
     \/ (eq_str op Config.NAME_UPDATE = false /\
         exists name_history, name_rec !! "history" = Some (PDict name_history) /\
           ((exists key item,
               latest_matching_update name_history zonefile_hash key item /\
               tx = get item "txid" PNone)
            \/ (tx = PNone /\ no_matching_update name_history zonefile_hash)))).
Proof.
  unfold Sync.txid_of_record, getitem.
  destruct (name_rec !! "op") as [op|]; [|discriminate]. cbn [bind].
  intros H. exists op. split; [reflexivity|].
  destruct (eq_str op Config.NAME_UPDATE).
  - left. split; [reflexivity|].
    destruct (name_rec !! "value_hash") as [value_hash|]; [|discriminate].
    cbn [bind] in H. exists value_hash. split; [reflexivity|].
    destruct (eq_str value_hash zonefile_hash).
    + left. split; [reflexivity|].
      destruct (name_rec !! "txid") as [t|]; [|discriminate].
      injection H as <-. reflexivity.
    + right. split; [reflexivity|]. injection H as <-. reflexivity.
  - right. split; [reflexivity|].
    destruct (name_rec !! "history") as [h|]; [|discriminate].
    cbn [bind] in H. destruct h as [| | | | | |name_history]; try discriminate.
    exists name_history. split; [reflexivity|].
    apply history_walk_latest. exact H.
Qed.











(** * Further properties of the code *)

(** ** [check_valid_name] *)

Lemma split_leading_separator (sep : ascii) (s : string) :
  hd EmptyString (split sep (String sep s)) = EmptyString.
Proof. cbn. rewrite Ascii.eqb_refl. reflexivity. Qed.

(** X1.  [check_valid_name] returns [None] exactly for the names
    [is_name_valid] accepts.  For every other name it returns one of four
    reasons, none of them empty (so that [if error:] is taken); a name
    without a period is told that it lacks a TLD, and a name that starts
    with a period that it is too short. *)
Theorem check_valid_name_reasons (e : Sanity.Env) (fqu : string) :
  (Sanity.check_valid_name e fqu = None <-> Sanity.is_name_valid e fqu = true)
  /\ (forall msg, Sanity.check_valid_name e fqu = Some msg ->
        truthy (PStr msg) = true /\
        In msg [Sanity.msg_no_tld; Sanity.msg_empty_name; Sanity.msg_not_b40;
                "The name is invalid"])
  /\ (Sanity.is_name_valid e fqu = false -> contains_char "." fqu = false ->
        Sanity.check_valid_name e fqu = Some Sanity.msg_no_tld)
  /\ (forall rest, fqu = String "." rest -> Sanity.is_name_valid e fqu = false ->
        Sanity.check_valid_name e fqu = Some Sanity.msg_empty_name).
Proof.
  unfold Sanity.check_valid_name. split; [|split; [|split]].
  - destruct (Sanity.is_name_valid e fqu); [tauto|].
    split; [|discriminate].
    destruct (contains_char "." fqu); cbn [negb]; [|discriminate].
    destruct (String.eqb (hd EmptyString (split "." fqu)) EmptyString); [discriminate|].
    destruct (Sanity.is_b40 e (hd EmptyString (split "." fqu))); cbn [negb]; discriminate.
  - intros msg.
    destruct (Sanity.is_name_valid e fqu); [discriminate|].
    destruct (contains_char "." fqu); cbn [negb].
    + destruct (String.eqb (hd EmptyString (split "." fqu)) EmptyString).
      * intros [= <-]. split; [reflexivity|]. cbn. tauto.
      * destruct (Sanity.is_b40 e (hd EmptyString (split "." fqu))); cbn [negb];
          intros [= <-]; (split; [reflexivity|]); cbn; tauto.
    + intros [= <-]. split; [reflexivity|]. cbn. tauto.
  - intros -> ->. reflexivity.
  - intros rest -> ->. cbn [contains_char]. rewrite Ascii.eqb_refl. cbn [orb negb].
    rewrite split_leading_separator. reflexivity.
Qed.

Lemma check_valid_name_reasons_witness :
  Sanity.check_valid_name Samples.chain_ok ".id" = Some Sanity.msg_empty_name.
Proof.
  apply (proj2 (proj2 (proj2 (check_valid_name_reasons Samples.chain_ok ".id"))) "id");
    reflexivity.
Defined.

(** ** [operation_sanity_check] *)

Lemma error_dict_not_status_true (msg : string) :
  Ret (error_dict msg) <> Ret status_true.
Proof.
  intros H. apply (f_equal (fun r => match r with Ret d => d !! "error" | Raise _ => None end)) in H.
  vm_compute in H. discriminate H.
Qed.

Ltac sanity_cases H :=
  repeat match type of H with
         | (if negb ?c then _ else _) = _ => destruct c eqn:?; cbn [negb] in H
         | (if ?c then _ else _) = _ => destruct c eqn:?
         | bind ?c _ = _ => destruct c eqn:?; cbn [bind] in H
         | match ?c with _ => _ end = _ => destruct c eqn:?
         | Raise _ = Ret _ => discriminate H
         | Ret (error_dict _) = Ret status_true =>
             exfalso; exact (error_dict_not_status_true _ H)
         end.

(** X2.  For an operation without a receiving address (update, revoke,
    migrate, set_zonefile_hash) [operation_sanity_check] answers
    [{'status': True}] exactly when the name is registered and owned by the
    wallet, a fee is known (live or fallback), and the payment address is
    usable and holds at least the fee: a balance equal to the fee is
    enough. *)
Theorem update_sanity_check_passes_iff (e : Sanity.Env) (fqu : string)
    (payment owner : pyval) :
  Sanity.operation_sanity_check e fqu payment owner None = Ret status_true
  <-> passes_update_tests e fqu payment owner.
Proof.
  unfold Sanity.operation_sanity_check, passes_update_tests.
  destruct (Sanity.get_addresses_from_file e) as [[payment_address owner_address] data_address].
  split.
  - intros H. sanity_cases H.
    split; [reflexivity|]. split; [reflexivity|].
    match goal with
    | Hl : _ = Ret ?a, Hf : _ = Some ?z, Hb : Sanity.get_balance _ _ = Some ?z0,
      Hlt : (_ <? _) = false |- _ =>
        exists a, z, z0; split; [reflexivity|];
        split; [destruct a; exact Hf|]; split; [reflexivity|];
        apply Z.ltb_ge in Hlt; split; [exact Hlt|reflexivity]
    end.
  - intros (-> & -> & live & fee & balance & -> & Hfee & -> & Hle & ->).
    cbn [negb bind]. unfold fee_used in Hfee.
    destruct live as [f|]; [injection Hfee as ->|rewrite Hfee];
      (destruct (Z.ltb_spec balance fee); [lia|reflexivity]).
Qed.

Lemma update_sanity_check_passes_iff_witness :
  passes_update_tests Samples.chain_ok "alice.id" (PStr "payment-key") (PStr "owner-key")
  /\ Sanity.operation_sanity_check Samples.chain_ok "alice.id"
       (PStr "payment-key") (PStr "owner-key") None = Ret status_true.
Proof.
  assert (H : passes_update_tests Samples.chain_ok "alice.id"
                (PStr "payment-key") (PStr "owner-key")).
  { cbn. split; [reflexivity|]. split; [reflexivity|].
    eexists _, _, _. repeat split; try reflexivity. vm_compute. discriminate. }
  split; [exact H|].
  apply (proj2 (update_sanity_check_passes_iff Samples.chain_ok "alice.id"
                  (PStr "payment-key") (PStr "owner-key"))).
  exact H.
Defined.

(** X3.  With a receiving address (transfer) the check answers
    [{'status': True}] exactly when the same tests pass on the fee of a
    transfer, [is_b58check_address] returns for the address (whatever it
    returns: only its raising rejects the address) and the address can
    receive one more name. *)
Theorem transfer_sanity_check_passes_iff (e : Sanity.Env) (fqu : string)
    (payment owner : pyval) (transfer_address : string) :
  Sanity.operation_sanity_check e fqu payment owner (Some transfer_address) = Ret status_true
  <-> passes_until_receive_test e fqu payment owner transfer_address
      /\ Sanity.can_receive_name e transfer_address = true.
Proof.
  unfold Sanity.operation_sanity_check, passes_until_receive_test.
  destruct (Sanity.get_addresses_from_file e) as [[payment_address owner_address] data_address].
  split.
  - intros H. sanity_cases H.
    split; [|reflexivity]. split; [reflexivity|]. split; [reflexivity|].
    eexists _, _, _. split; [reflexivity|].
    split.
    { match goal with
      | Hf : match ?a with _ => _ end = Some _ |- _ => destruct a; exact Hf
      end. }
    split; [reflexivity|].
    split.
    { match goal with
      | Hlt : (_ <? _) = false |- _ => apply Z.ltb_ge in Hlt; exact Hlt
      end. }
    split; [reflexivity|].
    eexists. reflexivity.
  - intros ((-> & -> & live & fee & balance & -> & Hfee & -> & Hle & -> & b & ->) & ->).
    cbn [negb bind]. unfold fee_used in Hfee.
    destruct live as [f|]; [injection Hfee as ->|rewrite Hfee];
      (destruct (Z.ltb_spec balance fee); [lia|reflexivity]).
Qed.

Lemma transfer_sanity_check_passes_iff_witness :
  Sanity.operation_sanity_check Samples.chain_ok "alice.id"
    (PStr "payment-key") (PStr "owner-key") (Some "1Fresh") = Ret status_true.
Proof.
  apply (proj2 (transfer_sanity_check_passes_iff Samples.chain_ok "alice.id"
                  (PStr "payment-key") (PStr "owner-key") "1Fresh")).
  split; [|reflexivity].
  cbn. split; [reflexivity|]. split; [reflexivity|].
  eexists _, _, _. repeat split; try reflexivity.
  - vm_compute. discriminate.
  - eexists. reflexivity.
Defined.

(** ** [get_total_registration_fees] *)




(** X5.  When the price is known and the three estimators return, with
    a fee each (live or fallback), the [warnings] of the reply depend on
    the payment key and on which live estimates failed only: without a
    payment key they are the one line that the wallet was not accessed,
    even if live estimates failed; with a payment key there is no
    [warnings] entry when all three live estimates succeeded, and the one
    line about insufficient funds otherwise. *)
Theorem registration_fee_warnings (e : Sanity.Env) (name : string)
    (payment owner : pyval) (data : dict) (satoshis : pyval) (price : Z)
    (live_pre live_reg live_upd : option Z) (fee_pre fee_reg fee_upd : Z) :
  Sanity.get_name_cost e name = Ret data ->
  has_key "error" data = false ->
  data !! "satoshis" = Some satoshis ->
  int (Sanity.builtins e) satoshis = Ret price ->
  Sanity.estimate_preorder_tx_fee e name satoshis (address_of e payment)
    (Sanity.get_privkey_info_params e owner) = Ret live_pre ->
  Sanity.estimate_register_tx_fee e name (address_of e payment)
    (Sanity.get_privkey_info_params e owner) = Ret live_reg ->
  Sanity.estimate_update_tx_fee e name payment (address_of e owner)
    (Sanity.get_privkey_info_params e owner) = Ret live_upd ->
  fee_used e live_pre (Sanity.APPROX_PREORDER_TX_LEN e) = Some fee_pre ->
  fee_used e live_reg (Sanity.APPROX_REGISTER_TX_LEN e) = Some fee_reg ->
  fee_used e live_upd (Sanity.APPROX_UPDATE_TX_LEN e) = Some fee_upd ->
  exists reply,
    Sanity.get_total_registration_fees e name payment owner = Ret reply /\
    has_key "error" reply = false /\
    reply !! "warnings" = fee_warnings payment live_pre live_reg live_upd.
Proof.
  intros Hcost Herr Hsat Hprice Hpre Hreg Hupd Fpre Freg Fupd.
  unfold Sanity.get_total_registration_fees.
  rewrite Hcost, Herr. unfold getitem. rewrite Hsat. cbn [bind].
  fold (address_of e payment). fold (address_of e owner).
  rewrite Hpre. cbn [bind].
  unfold fee_warnings, fee_used in *.
  destruct live_pre as [l1|]; cbn [Sanity.or_fallback];
    [injection Fpre as ->|rewrite Fpre];
    rewrite Hreg; cbn [bind];
    (destruct live_reg as [l2|]; cbn [Sanity.or_fallback];
     [injection Freg as ->|rewrite Freg]);
    rewrite Hupd; cbn [bind];
    (destruct live_upd as [l3|]; cbn [Sanity.or_fallback];
     [injection Fupd as ->|rewrite Fupd]);
    cbn [bind Sanity.int_of_fee]; rewrite Hprice; cbn [bind andb];
    destruct (is_none payment); cbn [negb];
    eexists; (split; [reflexivity|]); split; reflexivity.
Qed.

Lemma registration_fee_warnings_witness :
  exists reply,
    Sanity.get_total_registration_fees Samples.chain_ok "bob.id"
      (PStr "payment-key") (PStr "owner-key") = Ret reply /\
    has_key "error" reply = false /\
    reply !! "warnings" = None.
Proof.
  apply (registration_fee_warnings Samples.chain_ok "bob.id"
           (PStr "payment-key") (PStr "owner-key")
           {[ "satoshis" := PInt 160000 ]} (PInt 160000) 160000
           (Some 5000) (Some 5000) (Some 5000) 5000 5000 5000); reflexivity.
Defined.

(** X6.  A [UTXOException] from any of the three estimators, the ones
    before it having returned, makes the reply the error about the UTXO
    provider, whatever the fallback figures are and whether or not the
    price reads as an integer. *)
Theorem registration_fees_utxo_failure (e : Sanity.Env) (name : string)
    (payment owner : pyval) (data : dict) (satoshis : pyval) :
  Sanity.get_name_cost e name = Ret data ->
  has_key "error" data = false ->
  data !! "satoshis" = Some satoshis ->
  Sanity.estimate_preorder_tx_fee e name satoshis (address_of e payment)
    (Sanity.get_privkey_info_params e owner) = Raise UTXOException
  \/ (exists live_pre,
        Sanity.estimate_preorder_tx_fee e name satoshis (address_of e payment)
          (Sanity.get_privkey_info_params e owner) = Ret live_pre /\
        (Sanity.estimate_register_tx_fee e name (address_of e payment)
           (Sanity.get_privkey_info_params e owner) = Raise UTXOException
         \/ exists live_reg,
              Sanity.estimate_register_tx_fee e name (address_of e payment)
                (Sanity.get_privkey_info_params e owner) = Ret live_reg /\
              Sanity.estimate_update_tx_fee e name payment (address_of e owner)
                (Sanity.get_privkey_info_params e owner) = Raise UTXOException)) ->
  Sanity.get_total_registration_fees e name payment owner
  = Ret (error_dict "Failed to query UTXO provider.  Please try again.").
Proof.
  intros Hcost Herr Hsat Hfail.
  unfold Sanity.get_total_registration_fees.
  rewrite Hcost, Herr. unfold getitem. rewrite Hsat. cbn [bind].
  fold (address_of e payment). fold (address_of e owner).
  destruct Hfail as [->|(live_pre & -> & [Hreg|(live_reg & Hreg & Hupd)])];
    cbn [bind]; [reflexivity| |].
  - destruct (Sanity.or_fallback e live_pre _ false) as [fee b].
    rewrite Hreg. reflexivity.
  - destruct (Sanity.or_fallback e live_pre _ false) as [fee b].
    rewrite Hreg. cbn [bind].
    destruct (Sanity.or_fallback e live_reg _ b) as [fee' b'].
    rewrite Hupd. reflexivity.
Qed.

(** X7.  When the three estimators return but one of the fees is to be
    had neither live nor from [get_tx_fee], the function does not return
    an error reply: [int(None)] raises [TypeError]. *)
Theorem registration_fees_without_estimate (e : Sanity.Env) (name : string)
    (payment owner : pyval) (data : dict) (satoshis : pyval)
    (live_pre live_reg live_upd : option Z) :
  Sanity.get_name_cost e name = Ret data ->
  has_key "error" data = false ->
  data !! "satoshis" = Some satoshis ->
  Sanity.estimate_preorder_tx_fee e name satoshis (address_of e payment)
    (Sanity.get_privkey_info_params e owner) = Ret live_pre ->
  Sanity.estimate_register_tx_fee e name (address_of e payment)
    (Sanity.get_privkey_info_params e owner) = Ret live_reg ->
  Sanity.estimate_update_tx_fee e name payment (address_of e owner)
    (Sanity.get_privkey_info_params e owner) = Ret live_upd ->
  fee_used e live_pre (Sanity.APPROX_PREORDER_TX_LEN e) = None
  \/ fee_used e live_reg (Sanity.APPROX_REGISTER_TX_LEN e) = None
  \/ fee_used e live_upd (Sanity.APPROX_UPDATE_TX_LEN e) = None ->
  Sanity.get_total_registration_fees e name payment owner = Raise TypeError.
Proof.
  intros Hcost Herr Hsat Hpre Hreg Hupd Hnone.
  unfold Sanity.get_total_registration_fees.
  rewrite Hcost, Herr. unfold getitem. rewrite Hsat. cbn [bind].
  fold (address_of e payment). fold (address_of e owner).
  rewrite Hpre. cbn [bind]. unfold fee_used in Hnone.
  destruct live_pre as [l1|]; cbn [Sanity.or_fallback];
    rewrite Hreg; cbn [bind];
    (destruct live_reg as [l2|]; cbn [Sanity.or_fallback]);
    rewrite Hupd; cbn [bind];
    (destruct live_upd as [l3|]; cbn [Sanity.or_fallback]);
    try (destruct Hnone as [H|[H|H]]; discriminate H);
    repeat match goal with
           | |- context [Sanity.get_tx_fee e ?s] =>
               let F := fresh "F" in destruct (Sanity.get_tx_fee e s) eqn:F
           end;
    cbn [bind Sanity.int_of_fee]; try reflexivity;
    destruct Hnone as [H|[H|H]]; discriminate H.
Qed.

Lemma registration_fees_without_estimate_witness :
  Sanity.get_total_registration_fees Samples.chain_without_any_fee "bob.id"
    (PStr "payment-key") (PStr "owner-key") = Raise TypeError.
Proof.
  apply (registration_fees_without_estimate Samples.chain_without_any_fee "bob.id"
           (PStr "payment-key") (PStr "owner-key")
           {[ "satoshis" := PInt 160000 ]} (PInt 160000) None None None);
    try reflexivity.
  left. reflexivity.
Defined.

Lemma registration_fees_utxo_failure_witness :
  Sanity.get_total_registration_fees Samples.chain_utxo_down "bob.id"
    (PStr "payment-key") (PStr "owner-key")
  = Ret (error_dict "Failed to query UTXO provider.  Please try again.").
Proof.
  apply (registration_fees_utxo_failure Samples.chain_utxo_down "bob.id"
           (PStr "payment-key") (PStr "owner-key")
           {[ "satoshis" := PInt 160000 ]} (PInt 160000)); try reflexivity.
  right. exists (Some 5000). split; [reflexivity|]. left. reflexivity.
Defined.

(** ** The retry loop of [get_wallet_with_backoff] *)

Lemma not_refused_step (e : Wallet.Env) (j : nat) (rest : list nat) (i : nat) :
  ~ refused (Wallet.get_wallet e j) ->
  Wallet.backoff_loop e (j :: rest) i
  = (match Wallet.get_wallet e j with
     | Ret wallet_keys => Wallet.Returned wallet_keys
     | Raise x => Wallet.Reraised x
     end, Wallet.one_call).
Proof.
  unfold refused. intros H. cbn [Wallet.backoff_loop].
  destruct (Wallet.get_wallet e j) as [keys|x]; [reflexivity|].
  destruct x; try reflexivity.
  all: destruct (Z.eqb_spec errno Wallet.ECONNREFUSED) as [->|Hne]; [|reflexivity].
  all: exfalso; apply H; auto.
Qed.

Lemma refused_step (e : Wallet.Env) (j : nat) (rest : list nat) (i : nat) :
  refused (Wallet.get_wallet e j) ->
  Wallet.backoff_loop e (j :: rest) i
  = (fst (Wallet.backoff_loop e rest j),
     Wallet.after_sleep (Z.of_nat j + 1) (snd (Wallet.backoff_loop e rest j))).
Proof.
  unfold refused. intros H. cbn [Wallet.backoff_loop].
  destruct H as [-> | ->]; cbn; destruct (Wallet.backoff_loop e rest j); reflexivity.
Qed.

Lemma backoff_first_answer (e : Wallet.Env) (k : nat) :
  (k < 3)%nat ->
  (forall j, (j < k)%nat -> refused (Wallet.get_wallet e j)) ->
  ~ refused (Wallet.get_wallet e k) ->
  Wallet.get_wallet_with_backoff e
  = (passed_on (Wallet.get_wallet e k),
     {| Wallet.sleeps := backoff_sleeps k; Wallet.calls := S k |}).
Proof.
  intros Hk Hbefore Hk'. unfold Wallet.get_wallet_with_backoff.
  change (seq 0 3) with [0; 1; 2]%nat.
  destruct k as [|[|[|k]]]; [| | |lia].
  - rewrite not_refused_step by exact Hk'.
    destruct (Wallet.get_wallet e 0); reflexivity.
  - rewrite refused_step by (apply Hbefore; lia).
    rewrite not_refused_step by exact Hk'.
    destruct (Wallet.get_wallet e 1); reflexivity.
  - rewrite refused_step by (apply Hbefore; lia).
    rewrite refused_step by (apply Hbefore; lia).
    rewrite not_refused_step by exact Hk'.
    destruct (Wallet.get_wallet e 2); reflexivity.
Qed.

(** X8.  The first attempt that is not refused decides: if the attempts
    before the [k]-th (counting from 0, [k < 3]) are refused and the
    [k]-th is not, [get_wallet_with_backoff] returns the wallet that
    attempt got, or raises what it raised, after [k + 1] calls and sleeps
    of 1, ..., [k] seconds. *)
Theorem get_wallet_with_backoff_first_answer (e : Wallet.Env) (k : nat) :
  (k < 3)%nat ->
  (forall j, (j < k)%nat -> refused (Wallet.get_wallet e j)) ->
  ~ refused (Wallet.get_wallet e k) ->
  Wallet.get_wallet_with_backoff e
  = (passed_on (Wallet.get_wallet e k),
     {| Wallet.sleeps := backoff_sleeps k; Wallet.calls := S k |}).
Proof. exact (backoff_first_answer e k). Qed.

Lemma get_wallet_with_backoff_first_answer_witness :
  Wallet.get_wallet_with_backoff Samples.slow_wallet
  = (Ret (Some Samples.wallet_keys), {| Wallet.sleeps := [1; 2]; Wallet.calls := 3 |}).
Proof.
  apply (get_wallet_with_backoff_first_answer Samples.slow_wallet 2).
  - lia.
  - intros j Hj. destruct j as [|[|j]]; [left; reflexivity|left; reflexivity|lia].
  - unfold refused. cbn. intros [H|H]; discriminate H.
Defined.

Lemma refused_dec (r : outcome dict) : refused r \/ ~ refused r.
Proof.
  unfold refused. destruct r as [d|x]; [right; intros [H|H]; discriminate H|].
  destruct x; try (right; intros [H|H]; discriminate H).
  all: destruct (Z.eq_dec errno Wallet.ECONNREFUSED) as [->|Hne]; [auto|].
  all: right; intros [H|H]; try discriminate H; injection H as H; exact (Hne H).
Qed.

(** X9.  Whatever the daemon does, [get_wallet_with_backoff] calls
    [get_wallet] at most three times and sleeps 1, 2, ... seconds between
    the calls, six seconds at most in all; and a dict it returns is one
    that [get_wallet] returned: the error about the API daemon that its
    docstring announces is never made. *)
Theorem get_wallet_with_backoff_effects (e : Wallet.Env) :
  (exists k, (k <= 3)%nat /\
     Wallet.sleeps (snd (Wallet.get_wallet_with_backoff e)) = backoff_sleeps k /\
     Wallet.calls (snd (Wallet.get_wallet_with_backoff e)) = Nat.min (S k) 3)
  /\ (forall d, fst (Wallet.get_wallet_with_backoff e) = Ret (Some d) ->
        exists n, (n < 3)%nat /\ Wallet.get_wallet e n = Ret d).
Proof.
  destruct (refused_dec (Wallet.get_wallet e 0)) as [H0|H0];
    [destruct (refused_dec (Wallet.get_wallet e 1)) as [H1|H1];
     [destruct (refused_dec (Wallet.get_wallet e 2)) as [H2|H2]|]|].
  - unfold Wallet.get_wallet_with_backoff. change (seq 0 3) with [0; 1; 2]%nat.
    rewrite !refused_step by assumption. cbn. split.
    + exists 3%nat. repeat split. lia.
    + discriminate.
  - rewrite (backoff_first_answer e 2);
      [|lia|intros [|[|j]] Hj; [assumption|assumption|lia]|assumption].
    cbn [fst snd Wallet.sleeps Wallet.calls]. split.
    + exists 2%nat. repeat split. lia.
    + intros d Hd. exists 2%nat. split; [lia|].
      destruct (Wallet.get_wallet e 2); [injection Hd as ->; reflexivity|discriminate Hd].
  - rewrite (backoff_first_answer e 1);
      [|lia|intros [|j] Hj; [assumption|lia]|assumption].
    cbn [fst snd Wallet.sleeps Wallet.calls]. split.
    + exists 1%nat. repeat split. lia.
    + intros d Hd. exists 1%nat. split; [lia|].
      destruct (Wallet.get_wallet e 1); [injection Hd as ->; reflexivity|discriminate Hd].
  - rewrite (backoff_first_answer e 0);
      [|lia|intros j Hj; lia|assumption].
    cbn [fst snd Wallet.sleeps Wallet.calls]. split.
    + exists 0%nat. repeat split. lia.
    + intros d Hd. exists 0%nat. split; [lia|].
      destruct (Wallet.get_wallet e 0); [injection Hd as ->; reflexivity|discriminate Hd].
Qed.

(** ** [load_zonefile] with and without [check_current] *)

(** X10.  [check_current] changes the answer of [load_zonefile] in one
    case only: where the unchecked call succeeds with a zonefile text, the
    checked call may instead give the error that the zonefile is the
    current one, marked [identical] and with the same text.  In every
    other case the two calls give the same result, and the unchecked call
    never gives a reply marked [identical]. *)
Theorem load_zonefile_check_current (e : Zonefile.Env) (fqu : string)
    (zonefile_data : pyval) :
  (Zonefile.load_zonefile e fqu zonefile_data true
   = Zonefile.load_zonefile e fqu zonefile_data false
   \/ exists text,
        Zonefile.load_zonefile e fqu zonefile_data false
        = Ret (<["zonefile" := PStr text]> status_true) /\
        Zonefile.load_zonefile e fqu zonefile_data true
        = Ret (<["zonefile" := PStr text]>
               (<["identical" := PBool true]> (error_dict Zonefile.msg_identical))))
  /\ (forall d, Zonefile.load_zonefile e fqu zonefile_data false = Ret d ->
        d !! "identical" = None).
Proof.
  unfold Zonefile.load_zonefile.
  destruct (Zonefile.parse e (str (Zonefile.builtins e) zonefile_data)) as [[v|]|x].
  2: { split; [left; reflexivity|]. intros d [= <-]. reflexivity. }
  2: { split; [left; reflexivity|]. discriminate. }
  destruct (Zonefile.make_zone_file e v) as [text|x].
  2: { split; [left; reflexivity|].
       destruct (is_Exception x); [intros d [= <-]; reflexivity|discriminate]. }
  destruct v as [| | | | | |user_data];
    try (split; [left; reflexivity|discriminate]).
  destruct (eq_str (get user_data "$origin" (PStr EmptyString)) fqu); cbn [negb].
  2: { split; [left; reflexivity|]. intros d [= <-]. reflexivity. }
  destruct (has_key "$ttl" user_data); cbn [negb].
  2: { split; [left; reflexivity|]. intros d [= <-]. reflexivity. }
  destruct (Zonefile.is_user_zonefile e user_data); cbn [negb].
  2: { split; [left; reflexivity|]. intros d [= <-]. reflexivity. }
  destruct (Zonefile.ttl_ok e user_data); cbn [negb andb].
  2: { split; [left; reflexivity|]. intros d [= <-]. reflexivity. }
  split.
  - destruct (Zonefile.is_zonefile_current e fqu user_data).
    + right. exists text. split; reflexivity.
    + left. reflexivity.
  - intros d [= <-]. reflexivity.
Qed.

(** ** [cli_sync_zonefile] with a zonefile on the command line *)

Lemma load_given_valid_zonefile (e : Sync.Env) (args : Sync.Args)
    (interactive nonstandard : bool) (user_data : dict) (text : string) :
  is_none (Sync.zonefile args) = false ->
  valid_zonefile (Sync.zone e) (Sync.name args) (Sync.zonefile args) user_data text ->
  Sync.load_given_zonefile e args interactive nonstandard = Go (PStr text).
Proof.
  intros Hgiven (Hp & Horigin & Httl & Hstd).
  unfold Sync.load_given_zonefile. rewrite Hgiven. cbn [negb].
  rewrite (load_zonefile_parsed _ _ _ true user_data text Hp).
  unfold origin_is in Horigin. rewrite Horigin.
  rewrite (has_valid_ttl_has_key _ user_data Httl).
  unfold is_standard in Hstd. rewrite Hstd.
  apply ttl_ok_iff in Httl. rewrite Httl. cbn [negb andb].
  destruct (Zonefile.is_zonefile_current (Sync.zone e) (Sync.name args) user_data);
    reflexivity.
Qed.

(** X11.  Given a txid and a valid zonefile on the command line,
    [cli_sync_zonefile] replicates at once, without looking at the queue
    or the blockchain and whether or not the zonefile is the current one:
    the one call of the replicator has the name, the txid given, and the
    zonefile as [load_zonefile] wrote it back (not the text given); on
    success the reply has [value_hash] set to [None]. *)
Theorem sync_given_zonefile_and_txid (e : Sync.Env) (args : Sync.Args)
    (interactive nonstandard : bool) (user_data : dict) (text : string) :
  has_key "server" (Sync.conf e) && has_key "port" (Sync.conf e)
    && has_key "queue_path" (Sync.conf e) = true ->
  is_none (Sync.txid args) = false ->
  is_none (Sync.zonefile args) = false ->
  valid_zonefile (Sync.zone e) (Sync.name args) (Sync.zonefile args) user_data text ->
  let call := {| Sync.r_name := Sync.name args; Sync.r_user_data := PStr text;
                 Sync.r_txid := Sync.txid args |} in
  Sync.cli_sync_zonefile e args interactive nonstandard
  = (Ret (if has_key "error" (Sync.zonefile_data_replicate e call)
          then Sync.zonefile_data_replicate e call
          else <["value_hash" := PNone]> status_true), [call]).
Proof.
  intros Hconf Htxid Hgiven Hvalid call.
  unfold Sync.cli_sync_zonefile. rewrite Hconf. cbn [then_].
  rewrite (load_given_valid_zonefile e args interactive _ user_data text Hgiven Hvalid).
  cbn [then_]. rewrite Htxid. cbn [orb is_none]. reflexivity.
Qed.

Lemma sync_given_zonefile_and_txid_witness :
  Sync.cli_sync_zonefile (Samples.sync_env Samples.updated_record [])
    (Samples.sync_alice_with_txid Samples.new_zonefile_txt "tx-9") false false
  = (Ret (<["value_hash" := PNone]> status_true),
     [ {| Sync.r_name := "alice.id"; Sync.r_user_data := PStr Samples.new_zonefile_txt;
          Sync.r_txid := PStr "tx-9" |} ]).
Proof.
  refine (sync_given_zonefile_and_txid (Samples.sync_env Samples.updated_record [])
            (Samples.sync_alice_with_txid Samples.new_zonefile_txt "tx-9") false false
            Samples.new_zonefile Samples.new_zonefile_txt _ _ _ _).
  - reflexivity.
  - reflexivity.
  - reflexivity.
  - split.
    { split; [|vm_compute; reflexivity].
      right. split; [reflexivity|]. exists Samples.new_zonefile.
      split; vm_compute; reflexivity. }
    split; [vm_compute; reflexivity|].
    split; [|vm_compute; reflexivity].
    exists (PInt 3600), 3600. split; [reflexivity|]. split; [constructor|lia].
Defined.



(** ** [cli_whois] *)

Lemma Z_leb_total (x y : Z) : (x <=? y) = true \/ (y <=? x) = true.
Proof. destruct (Z.leb_spec x y); [left; reflexivity|right; apply Z.leb_le; lia]. Qed.

Lemma Z_leb_trans (x y z : Z) : (x <=? y) = true -> (y <=? z) = true -> (x <=? z) = true.
Proof. rewrite !Z.leb_le. lia. Qed.

Lemma last_sort_by_greatest (l : list Z) (h : Z) :
  last (sort_by Z.leb l) = Some h -> greatest l h.
Proof.
  intros Hlast. apply last_Some in Hlast as [init Hsplit].
  pose proof (sort_by_sorted Z.leb Z_leb_total Z_leb_trans l) as Hsorted.
  rewrite Hsplit in Hsorted. split.
  - apply list_elem_of_In. apply (elem_of_sort_by Z.leb). rewrite Hsplit.
    apply elem_of_app. right. apply list_elem_of_singleton. reflexivity.
  - intros h' Hin. apply list_elem_of_In in Hin.
    apply (elem_of_sort_by Z.leb) in Hin. rewrite Hsplit in Hin.
    apply elem_of_app in Hin as [Hin|Hin].
    + apply Z.leb_le.
      apply (StronglySorted_app_1_elem_of (order_of Z.leb) _ _ h' h Hsorted Hin).
      apply list_elem_of_singleton. reflexivity.
    + apply list_elem_of_singleton in Hin as ->. lia.
Qed.

Lemma last_sort_by_none (l : list Z) : last (sort_by Z.leb l) = None -> l = [].
Proof.
  intros Hlast. apply last_None in Hlast.
  destruct l as [|a l]; [reflexivity|].
  assert (Ha : a ∈ sort_by Z.leb (a :: l)).
  { apply (elem_of_sort_by Z.leb). apply elem_of_cons. left. reflexivity. }
  rewrite Hlast in Ha. apply elem_of_nil in Ha. destruct Ha.
Qed.

(** X13.  In a reply of [cli_whois] that is not an error, the keys of
    the record's [history] all read as integers, and
    [last_transaction_height] is the greatest of them, whatever the order
    in which the history lists them; with an empty or missing history the
    reply has no such entry. *)
Theorem whois_last_transaction_height (e : Lookup.Env) (name : string)
    (record d : dict) :
  Lookup.get_name_blockchain_record e name = Ret record ->
  Lookup.cli_whois e name = Ret d ->
  has_key "error" d = false ->
  exists history heights,
    get record "history" (PDict ∅) = PDict history /\
    Lookup.ints_of_keys (Sanity.builtins (Lookup.chain e)) (map fst (map_to_list history))
    = Some heights /\
    ((heights = [] /\ d !! "last_transaction_height" = None)
     \/ exists h, greatest heights h /\ d !! "last_transaction_height" = Some (PInt h)).
Proof.
  intros Hrec Hwhois Herr. unfold Lookup.cli_whois in Hwhois.
  destruct (Sanity.check_valid_name (Lookup.chain e) name) as [error|].
  { injection Hwhois as <-. discriminate Herr. }
  rewrite Hrec in Hwhois.
  destruct (has_key "error" record) eqn:Herr'.
  { injection Hwhois as <-. rewrite Herr' in Herr. discriminate Herr. }
  destruct (truthy (get record "revoked" (PBool false))).
  { injection Hwhois as <-. discriminate Herr. }
  destruct (get record "history" (PDict ∅)) as [| | | | | |history];
    try (injection Hwhois as <-; discriminate Herr).
  destruct (Lookup.ints_of_keys _ (map fst (map_to_list history))) as [heights|] eqn:Hints;
    cbn [option_map] in Hwhois; [|injection Hwhois as <-; discriminate Herr].
  exists history, heights. split; [reflexivity|]. split; [exact Hints|].
  repeat match type of Hwhois with
         | bind ?c _ = _ => destruct c; cbn [bind] in Hwhois; [|discriminate Hwhois]
         end.
  injection Hwhois as <-.
  destruct (last (sort_by Z.leb heights)) as [h|] eqn:Hlast.
  - right. exists h. split; [exact (last_sort_by_greatest heights h Hlast)|].
    destruct (Lookup.value_hash_is_empty (get record "value_hash" PNone));
      destruct (negb (is_none (get record "expired_block" PNone))); reflexivity.
  - left. split; [exact (last_sort_by_none heights Hlast)|].
    destruct (Lookup.value_hash_is_empty (get record "value_hash" PNone));
      destruct (negb (is_none (get record "expired_block" PNone))); reflexivity.
Qed.

Lemma whois_last_transaction_height_witness :
  Lookup.cli_whois (Samples.lookup_env Samples.whois_record) "alice.id"
  = Ret Samples.whois_reply /\
  exists history heights,
    get Samples.whois_record "history" (PDict ∅) = PDict history /\
    Lookup.ints_of_keys
      (Sanity.builtins (Lookup.chain (Samples.lookup_env Samples.whois_record)))
      (map fst (map_to_list history)) = Some heights /\
    ((heights = [] /\ Samples.whois_reply !! "last_transaction_height" = None)
     \/ exists h, greatest heights h /\
                  Samples.whois_reply !! "last_transaction_height" = Some (PInt h)).
Proof.
  split; [vm_compute; exact eq_refl|].
  apply (whois_last_transaction_height (Samples.lookup_env Samples.whois_record)
           "alice.id" Samples.whois_record Samples.whois_reply);
    vm_compute; exact eq_refl.
Defined.

(** ** [cli_lookup] *)



(** ** [get_server_info] *)

(** X15.  What [cli_ping] returns: for a server whose [getinfo] reply is
    an error, the client version, the mode, [server_alive] false and the
    server's error, and nothing else; for any other server,
    [server_alive] true, a version and two block heights none of which is
    [None], and as [consensus_hash] the [consensus] entry of the reply. *)
Theorem ping_reply (e : Info.Env) (d : dict) :
  Info.cli_ping e = Ret d ->
  (has_key "error" (Info.getinfo e) = true ->
   exists advanced_mode,
     Info.conf e !! "advanced_mode" = Some advanced_mode /\
     d = <["server_error" := get (Info.getinfo e) "error" PNone]>
         (<["server_alive" := PBool false]>
         (<["advanced_mode" := advanced_mode]>
         (<["cli_version" := PStr (Info.VERSION e)]> ∅))))
  /\ (has_key "error" (Info.getinfo e) = false ->
      d !! "server_alive" = Some (PBool true) /\
      exists version processed seen consensus,
        d !! "server_version" = Some version /\ is_none version = false /\
        d !! "last_block_processed" = Some processed /\ is_none processed = false /\
        d !! "last_block_seen" = Some seen /\ is_none seen = false /\
        Info.getinfo e !! "consensus" = Some consensus /\
        d !! "consensus_hash" = Some consensus).
Proof.
  unfold Info.cli_ping, Info.get_server_info, getitem. intros H.
  destruct (Info.conf e !! "advanced_mode") as [advanced_mode|]; cbn [bind] in H;
    [|discriminate H].
  destruct (has_key "error" (Info.getinfo e)).
  - split; [|discriminate]. intros _. injection H as <-.
    exists advanced_mode. split; reflexivity.
  - split; [discriminate|]. intros _.
    repeat match type of H with
           | bind (Info.raise_if_none ?v _) _ = _ =>
               unfold Info.raise_if_none at 1 in H;
               destruct (is_none v) eqn:?; cbn [bind] in H; [discriminate H|]
           | bind ?c _ = _ => destruct c; cbn [bind] in H; [|discriminate H]
           end.
    destruct (Info.getinfo e !! "consensus") as [consensus|]; [|discriminate H].
    cbn [negb] in H. injection H as <-.
    split; [reflexivity|].
    eexists _, _, _, _. repeat split; try reflexivity; assumption.
Qed.

Lemma ping_reply_witness :
  Info.cli_ping (Samples.info_env Samples.live_reply) = Ret Samples.live_ping /\
  Samples.live_ping !! "server_alive" = Some (PBool true).
Proof.
  split; [vm_compute; exact eq_refl|].
  refine (proj1 (proj2 (ping_reply (Samples.info_env Samples.live_reply)
                          Samples.live_ping _) _)); vm_compute; exact eq_refl.
Defined.

(** ** The five commands and the daemon *)

Lemma run_operation_perform (e : Ops.Env) (op : Ops.Operation)
    (password : option string) (w : Ops.World) :
  Ops.run_operation e op password w
  = Ops.perform e (checks_of e op password) (bare_except op) (fallthrough_result op) w.
Proof. destruct op; reflexivity. Qed.

Ltac flow_go H :=
  repeat match type of H with
         | then_ ?c _ = Go _ =>
             destruct c as [?| |]; cbn [then_] in H; [|discriminate H|discriminate H]
         | (let '(_, _) := ?p in _) = Go _ => destruct p
         | (if ?c then _ else _) = Go _ => destruct c; try discriminate H
         end.

Lemma before_sanity_name (e : Ops.Env) (op : Ops.Operation) (password : option string)
    (sc : Ops.SanityCall) :
  Ops.before_sanity e op password = Go sc -> Ops.sc_fqu sc = name_of op.
Proof.
  destruct op as [args interactive|args|name interactive|name interactive force|name zh];
    cbn [Ops.before_sanity name_of]; intros H.
  - destruct (Ops.update_before_sanity e args password interactive)
      as [[sc' loaded]| |] eqn:Hb; cbn [then_ fst] in H; try discriminate H.
    injection H as <-. unfold Ops.update_before_sanity in Hb. flow_go Hb.
    injection Hb as <- _. reflexivity.
  - unfold Ops.transfer_before_sanity in H. flow_go H. injection H as <-. reflexivity.
  - unfold Ops.revoke_before_sanity in H. flow_go H. injection H as <-. reflexivity.
  - unfold Ops.migrate_before_sanity in H. flow_go H. injection H as <-. reflexivity.
  - unfold Ops.set_zonefile_hash_before_sanity in H. flow_go H.
    injection H as <-. reflexivity.
Qed.

Lemma pass_sanity_check_Go (e : Ops.Env) (sc : Ops.SanityCall) (u : unit) :
  Ops.pass_sanity_check e sc = Go u ->
  exists res, Ops.sanity_check e sc = Ret res /\ has_key "error" res = false.
Proof.
  unfold Ops.pass_sanity_check, return_if_error.
  destruct (Ops.sanity_check e sc) as [res|x]; cbn [lift then_]; [|discriminate].
  destruct (has_key "error" res) eqn:Herr; [discriminate|].
  intros _. exists res. split; [reflexivity|exact Herr].
Qed.

Lemma checks_of_Go (e : Ops.Env) (op : Ops.Operation) (password : option string)
    (call : Ops.RpcCall) :
  checks_of e op password = Go call ->
  exists sc res,
    Ops.before_sanity e op password = Go sc /\
    Ops.sanity_check e sc = Ret res /\ has_key "error" res = false /\
    own_call op call.
Proof.
  intros H.
  assert (Hname : forall sc, Ops.before_sanity e op password = Go sc ->
                             Ops.sc_fqu sc = name_of op)
    by (intros sc; apply before_sanity_name).
  destruct op as [args interactive|args|name interactive|name interactive force|name zh];
    cbn [checks_of Ops.before_sanity name_of own_call] in *.
  - unfold Ops.update_checks in H.
    destruct (Ops.update_before_sanity e args password interactive)
      as [[sc loaded]| |]; cbn [then_ fst] in *; try discriminate H.
    destruct (Ops.pass_sanity_check e sc) as [u| |] eqn:Hpass; cbn [then_] in H;
      try discriminate H.
    destruct (pass_sanity_check_Go e sc u Hpass) as (res & Hres & Herr).
    exists sc, res. repeat split; try assumption.
    unfold Ops.update_after_sanity in H. destruct loaded as [txt hash].
    destruct (Ops.b64encode e txt) as [data|x];
      [|destruct (is_Exception x); discriminate H].
    injection H as <-. split; [apply Hname; reflexivity|reflexivity].
  - unfold Ops.transfer_checks in H.
    destruct (Ops.transfer_before_sanity e args password) as [sc| |];
      cbn [then_] in *; try discriminate H.
    destruct (Ops.pass_sanity_check e sc) as [u| |] eqn:Hpass; cbn [then_] in H;
      try discriminate H.
    destruct (pass_sanity_check_Go e sc u Hpass) as (res & Hres & Herr).
    exists sc, res. repeat split; try assumption.
    injection H as <-. split; [apply Hname; reflexivity|reflexivity].
  - unfold Ops.revoke_checks in H.
    destruct (Ops.revoke_before_sanity e name password) as [sc| |];
      cbn [then_] in *; try discriminate H.
    destruct (Ops.pass_sanity_check e sc) as [u| |] eqn:Hpass; cbn [then_] in H;
      try discriminate H.
    destruct (pass_sanity_check_Go e sc u Hpass) as (res & Hres & Herr).
    exists sc, res. repeat split; try assumption.
    destruct (if interactive then Ops.confirm_revoke e else Go tt); cbn [then_] in H;
      try discriminate H.
    injection H as <-. apply Hname. reflexivity.
  - unfold Ops.migrate_checks in H.
    destruct (Ops.migrate_before_sanity e name password) as [sc| |];
      cbn [then_] in *; try discriminate H.
    destruct (Ops.pass_sanity_check e sc) as [u| |] eqn:Hpass; cbn [then_] in H;
      try discriminate H.
    destruct (pass_sanity_check_Go e sc u Hpass) as (res & Hres & Herr).
    exists sc, res. repeat split; try assumption.
    unfold Ops.migrate_after_sanity in H.
    match type of H with
    | then_ ?c _ = _ => destruct c; cbn [then_] in H; try discriminate H
    end.
    injection H as <-. apply Hname. reflexivity.
  - unfold Ops.set_zonefile_hash_checks in H.
    destruct (Ops.set_zonefile_hash_before_sanity e name zh password) as [sc| |];
      cbn [then_] in *; try discriminate H.
    destruct (Ops.pass_sanity_check e sc) as [u| |] eqn:Hpass; cbn [then_] in H;
      try discriminate H.
    destruct (pass_sanity_check_Go e sc u Hpass) as (res & Hres & Herr).
    exists sc, res. repeat split; try assumption.
    injection H as <-. split; [apply Hname; reflexivity|]. repeat split; reflexivity.
Qed.

(** X16.  Each of update, transfer, revoke, migrate and
    set_zonefile_hash either leaves the queue, the broadcast transactions
    and the log of RPC calls as they were, or makes exactly one call of
    the daemon: the call the command is there for, on the name given, and
    only after [operation_sanity_check] has been called and has returned
    a dict without an error. *)
Theorem operation_calls_daemon_once (e : Ops.Env) (op : Ops.Operation)
    (password : option string) (w : Ops.World) :
  snd (Ops.run_operation e op password w) = w
  \/ exists sc res call,
       Ops.before_sanity e op password = Go sc /\
       Ops.sanity_check e sc = Ret res /\ has_key "error" res = false /\
       own_call op call /\
       snd (Ops.run_operation e op password w) = snd (Ops.rpc_call e call w) /\
       Ops.rpc_log (snd (Ops.run_operation e op password w)) = (Ops.rpc_log w ++ [call])%list.
Proof.
  rewrite run_operation_perform.
  destruct (checks_of e op password) as [call| |] eqn:Hchecks;
    [|left; reflexivity|left; reflexivity].
  right. destruct (checks_of_Go e op password call Hchecks) as (sc & res & Hb & Hs & Herr & Hown).
  exists sc, res, call. repeat split; try assumption.
  - unfold Ops.perform.
    destruct (Ops.rpc_call e call w) as [[resp|x] w']; [reflexivity|].
    destruct (bare_except op || is_Exception x); reflexivity.
  - unfold Ops.perform, Ops.rpc_call.
    destruct (Ops.backend e call (Ops.queue w)) as [[[resp|x] q] txs]; [reflexivity|].
    destruct (bare_except op || is_Exception x); reflexivity.
Qed.

(** X17.  When the daemon answers a command's call with a reply that
    has neither a true [success] nor an [error] nor a [message],
    [cli_revoke] returns the empty dict and the other four commands raise
    [UnboundLocalError] at their last line, [result] never having been
    bound; either way the call has been made, and the queue and the
    broadcast transactions are what the daemon made of them. *)
Theorem operation_unexpected_reply (e : Ops.Env) (op : Ops.Operation)
    (password : option string) (w : Ops.World) (call : Ops.RpcCall)
    (resp : dict) (q : list dict) (txs : list string) :
  checks_of e op password = Go call ->
  Ops.backend e call (Ops.queue w) = (Ret resp, q, txs) ->
  has_key "success" resp && truthy (get resp "success" PNone) = false ->
  has_key "error" resp = false ->
  has_key "message" resp = false ->
  Ops.run_operation e op password w
  = (fallthrough_result op,
     {| Ops.queue := q; Ops.broadcasts := (Ops.broadcasts w ++ txs)%list;
        Ops.rpc_log := (Ops.rpc_log w ++ [call])%list |}).
Proof.
  intros Hchecks Hbackend Hsuccess Herror Hmessage.
  rewrite run_operation_perform, Hchecks.
  unfold Ops.perform, Ops.rpc_call, Ops.reply_result.
  rewrite Hbackend, Hsuccess, Herror, Hmessage. reflexivity.
Qed.

Lemma operation_unexpected_reply_witness :
  Ops.run_operation Samples.terse_ops_env (Ops.Transfer (Samples.transfer_alice "1Fresh"))
    None Samples.empty_world
  = (Raise (UnboundLocalError "result"),
     {| Ops.queue := [ {[ "type" := PStr "transfer"; "tx_hash" := PStr "txid-1" ]} ];
        Ops.broadcasts := ["txid-1"];
        Ops.rpc_log := [Ops.backend_transfer "alice.id" "1Fresh"] |}).
Proof.
  refine (operation_unexpected_reply Samples.terse_ops_env
            (Ops.Transfer (Samples.transfer_alice "1Fresh")) None Samples.empty_world
            (Ops.backend_transfer "alice.id" "1Fresh") ∅ _ _ _ _ _ _ _).
  - vm_compute. reflexivity.
  - reflexivity.
  - reflexivity.
  - reflexivity.
  - reflexivity.
Defined.

(** ** The confirmation of [cli_revoke] *)

(** X18.  In interactive mode [cli_revoke] asks for confirmation once
    the sanity check has passed; on any answer but [y] or [Y], and on an
    interrupt, it leaves with exit status 0, and the queue, the broadcast
    transactions and the log of RPC calls are what they were. *)
Theorem revoke_declined_exits (e : Ops.Env) (name : string) (password : option string)
    (w : Ops.World) (sc : Ops.SanityCall) :
  Ops.revoke_before_sanity e name password = Go sc ->
  Ops.pass_sanity_check e sc = Go tt ->
  declined (Console.raw_input (Ops.console e) Ops.revoke_prompt) ->
  Ops.cli_revoke e name password true w = (Raise (SystemExit 0), w).
Proof.
  intros Hbefore Hpass Hdeclined.
  unfold Ops.cli_revoke, Ops.revoke_checks. rewrite Hbefore. cbn [then_].
  rewrite Hpass. cbn [then_]. unfold Ops.confirm_revoke.
  destruct Hdeclined as [(s & -> & Hs)| ->]; [|reflexivity].
  destruct (String.eqb_spec (lower s) "y") as [Heq|Hne]; [contradiction|reflexivity].
Qed.

Lemma revoke_declined_exits_witness :
  Ops.cli_revoke (Samples.ops_env Samples.chain_ok None "no") "alice.id" None true
    Samples.empty_world
  = (Raise (SystemExit 0), Samples.empty_world).
Proof.
  refine (revoke_declined_exits (Samples.ops_env Samples.chain_ok None "no") "alice.id"
            None Samples.empty_world _ _ _ _).
  - vm_compute. reflexivity.
  - vm_compute. reflexivity.
  - left. exists "no". split; [reflexivity|]. vm_compute. discriminate.
Defined.

(** ** The hash of [cli_set_zonefile_hash] *)

Lemma newline_not_hex : Ops.is_hex_char (ascii_of_nat 10) = false.
Proof. reflexivity. Qed.

Lemma hex_then_end_spec (s : string) :
  Ops.hex_then_end s = true
  <-> all_hex s = true \/ exists h, s = h ++ nl /\ all_hex h = true.
Proof.
  induction s as [|c s IH]; cbn [Ops.hex_then_end all_hex].
  - split; [left; reflexivity|reflexivity].
  - destruct (Ops.is_hex_char c) eqn:Hc; cbn [andb].
    + rewrite IH. split.
      * intros [H|(h & -> & Hh)]; [left; exact H|].
        right. exists (String c h). split; [reflexivity|].
        cbn [all_hex]. rewrite Hc. exact Hh.
      * intros [H|(h & Heq & Hh)]; [left; exact H|].
        destruct h as [|c' h]; cbn in Heq.
        -- injection Heq as -> ->. rewrite newline_not_hex in Hc. discriminate Hc.
        -- injection Heq as <- ->. right. exists h. split; [reflexivity|].
           cbn [all_hex] in Hh. rewrite Hc in Hh. exact Hh.
    + split.
      * intros H. apply andb_true_iff in H as [H1 H2].
        apply Ascii.eqb_eq in H1 as ->. apply String.eqb_eq in H2 as ->.
        right. exists EmptyString. split; reflexivity.
      * intros [H|(h & Heq & Hh)]; [discriminate H|].
        destruct h as [|c' h]; cbn in Heq.
        -- injection Heq as -> ->. reflexivity.
        -- injection Heq as <- ->. cbn [all_hex] in Hh. rewrite Hc in Hh. discriminate Hh.
Qed.

Lemma length_append_nl (h : string) : String.length (h ++ nl) = S (String.length h).
Proof.
  induction h as [|c h IH]; [reflexivity|].
  change (S (String.length (h ++ nl)) = S (S (String.length h))).
  rewrite IH. reflexivity.
Qed.

Lemma hash_test_spec (s : string) :
  Ops.matches_hex s && (String.length s =? 40)%nat = true <-> accepted_hash s.
Proof.
  unfold accepted_hash. rewrite andb_true_iff, Nat.eqb_eq. split.
  - intros [Hm Hlen]. destruct s as [|c s]; [discriminate Hm|].
    cbn [Ops.matches_hex] in Hm. apply andb_true_iff in Hm as [Hc Hend].
    apply hex_then_end_spec in Hend as [H|(h & Heq & Hh)].
    + left. split; assumption.
    + right. exists h. split; [exact Heq|]. split; [exact Hh|].
      rewrite Heq, length_append_nl in Hlen. lia.
  - intros [[Hh Hlen]|(h & -> & Hh & Hlen)].
    + split; [|exact Hlen]. destruct s as [|c s]; [discriminate Hlen|].
      cbn [Ops.matches_hex]. apply andb_true_iff. split.
      * cbn [all_hex] in Hh. apply andb_true_iff in Hh as [Hc _]. exact Hc.
      * apply hex_then_end_spec. left. exact Hh.
    + split; [|rewrite length_append_nl; lia].
      destruct h as [|c h]; [discriminate Hlen|].
      change ((String c h ++ nl)%string) with (String c (h ++ nl)).
      cbn [Ops.matches_hex]. apply andb_true_iff. split.
      * cbn [all_hex] in Hh. apply andb_true_iff in Hh as [Hc _]. exact Hc.
      * apply hex_then_end_spec. right. exists (String c h). split; [reflexivity|exact Hh].
Qed.

(** X19.  [cli_set_zonefile_hash] takes for a hash a text of 40
    hexadecimal digits, and also one of 39 hexadecimal digits followed by
    a newline, which the [$] of its pattern lets through.  Any other text
    is refused with an error as soon as the wallet exists, the daemon is
    up and the name is well-formed: the wallet is not read and the daemon
    is not called. *)
Theorem set_zonefile_hash_validation (e : Ops.Env) (name zonefile_hash : string)
    (password : option string) (w : Ops.World) :
  (negb (Ops.matches_hex zonefile_hash) || negb (String.length zonefile_hash =? 40)%nat = false
   <-> accepted_hash zonefile_hash)
  /\ (has_key "error" (Wallet.wallet_ensure_exists (Ops.wallet e) password) = false ->
      has_key "error" (Ops.start_rpc_endpoint e password) = false ->
      Sanity.check_valid_name (Ops.chain e) name = None ->
      ~ accepted_hash zonefile_hash ->
      Ops.cli_set_zonefile_hash e name zonefile_hash password w
      = (Ret (error_dict "Not a valid zonefile hash"), w)).
Proof.
  assert (Htest : negb (Ops.matches_hex zonefile_hash)
                  || negb (String.length zonefile_hash =? 40)%nat = false
                  <-> accepted_hash zonefile_hash).
  { rewrite <- hash_test_spec.
    destruct (Ops.matches_hex zonefile_hash), (String.length zonefile_hash =? 40)%nat;
      cbn; split; congruence. }
  split; [exact Htest|].
  intros Hwallet Hrpc Hname Hbad.
  unfold Ops.cli_set_zonefile_hash. apply perform_Return.
  unfold Ops.set_zonefile_hash_checks, Ops.set_zonefile_hash_before_sanity.
  unfold return_if_error, Ops.return_if_invalid.
  rewrite Hwallet, Hrpc, Hname. cbn [then_].
  destruct (negb (Ops.matches_hex zonefile_hash)
            || negb (String.length zonefile_hash =? 40)%nat) eqn:Ht; [reflexivity|].
  exfalso. apply Hbad. apply Htest. reflexivity.
Qed.

Lemma set_zonefile_hash_validation_witness :
  Ops.cli_set_zonefile_hash (Samples.ops_env Samples.chain_ok None "y") "alice.id"
    "4b1d4a7c0d2c8a4e7d3c" None Samples.empty_world
  = (Ret (error_dict "Not a valid zonefile hash"), Samples.empty_world).
Proof.
  refine (proj2 (set_zonefile_hash_validation (Samples.ops_env Samples.chain_ok None "y")
                   "alice.id" "4b1d4a7c0d2c8a4e7d3c" None Samples.empty_world) _ _ _ _).
  - reflexivity.
  - reflexivity.
  - reflexivity.
  - intros H.
    apply (proj2 (proj1 (set_zonefile_hash_validation
                           (Samples.ops_env Samples.chain_ok None "y") "alice.id"
                           "4b1d4a7c0d2c8a4e7d3c" None Samples.empty_world))) in H.
    vm_compute in H. discriminate H.
Defined.

(** ** [get_config] *)

Lemma keeps_keys_refl (c : dict) : keeps_keys c c.
Proof. intros k H. exact H. Qed.

Lemma keeps_keys_trans (c1 c2 c3 : dict) :
  keeps_keys c1 c2 -> keeps_keys c2 c3 -> keeps_keys c1 c3.
Proof. intros H12 H23 k H. apply H23, H12, H. Qed.

Lemma keeps_keys_insert (c : dict) (k : string) (v : pyval) : keeps_keys c (<[k := v]> c).
Proof.
  intros k' H. unfold has_key in *.
  destruct (decide (k = k')) as [->|Hne].
  - rewrite lookup_insert_eq. reflexivity.
  - rewrite lookup_insert_ne by exact Hne. exact H.
Qed.

Lemma keeps_keys_union (c c' : dict) : keeps_keys c (c' ∪ c).
Proof.
  intros k H. unfold has_key in *.
  destruct (c !! k) as [v|] eqn:Hk; [|discriminate H].
  destruct (c' !! k) as [v'|] eqn:Hk'.
  - rewrite (lookup_union_Some_l c' c k v' Hk'). reflexivity.
  - rewrite (lookup_union_r c' c k Hk'), Hk. reflexivity.
Qed.

Lemma set_option_keeps (e : Settings.Env) (k : string) (f : string -> outcome pyval)
    (c c' : dict) :
  Settings.set_option e k f c = Ret c' -> keeps_keys c c'.
Proof.
  unfold Settings.set_option. destruct (Settings.has_option e k).
  - destruct (Settings.get_option e k) as [v|x]; cbn [bind]; [|discriminate].
    destruct (f v) as [v'|x]; cbn [bind]; [|discriminate].
    intros [= <-]. apply keeps_keys_insert.
  - intros [= <-]. apply keeps_keys_refl.
Qed.

Lemma read_client_section_keeps (e : Settings.Env) (c c' : dict) :
  Settings.read_client_section e c = Ret c' -> keeps_keys c c'.
Proof.
  unfold Settings.read_client_section. intros H.
  repeat match type of H with
         | bind (Settings.set_option e ?k ?f ?c0) _ = Ret _ =>
             let Hs := fresh "Hs" in
             destruct (Settings.set_option e k f c0) as [?|?] eqn:Hs;
             cbn [bind] in H; [apply set_option_keeps in Hs|discriminate H]
         end.
  apply set_option_keeps in H.
  repeat match goal with
         | Hk : keeps_keys ?a ?b |- keeps_keys _ ?b =>
             apply (keeps_keys_trans _ a b); [clear Hk|exact Hk]
         end.
  destruct (Settings.has_option e "port"); [|assumption].
  destruct (bind (Settings.get_option e "port") (Settings.as_int e)); [|assumption].
  eapply keeps_keys_trans; [eassumption|]. apply keeps_keys_insert.
Qed.

Lemma import_blockchains_keeps (e : Settings.Env) (path : string) (names : list string)
    (c c' : dict) :
  Settings.import_blockchains e path names c = Ret c' -> keeps_keys c c'.
Proof.
  revert c. induction names as [|n rest IH]; intros c; cbn [Settings.import_blockchains].
  - intros [= <-]. apply keeps_keys_refl.
  - destruct (Settings.get_blockchain_config e n path) as [bc|x]; cbn [bind]; [|discriminate].
    intros H. eapply keeps_keys_trans; [apply (keeps_keys_union c bc)|apply IH, H].
Qed.

Lemma defaults_keys (e : Settings.Env) (k : string) :
  In k default_keys -> has_key k (Settings.defaults e) = true.
Proof.
  intros H. cbn in H.
  repeat (destruct H as [<-|H]; [reflexivity|]). destruct H.
Qed.

(** X20.  A configuration that [get_config] returns has every key of
    the defaults, whatever the file and the blockchain sections hold, and
    the path and the directory it was read from.  So [find_missing]
    finds nothing missing in it, and the assertions at the head of
    [cli_sync_zonefile] on [server], [port] and [queue_path] hold. *)
Theorem get_config_has_every_key (e : Settings.Env) (path : string) (config : dict) :
  Settings.get_config e path = Ret (Some config) ->
  (forall k, In k default_keys -> has_key k config = true)
  /\ config !! "path" = Some (PStr path)
  /\ config !! "dir" = Some (PStr (Settings.dirname e path))
  /\ Settings.find_missing config = []
  /\ has_key "server" config && has_key "port" config && has_key "queue_path" config = true.
Proof.
  unfold Settings.get_config. intros H.
  destruct (negb (Settings.path_exists e path) && negb (Settings.make_default_config e));
    [discriminate H|].
  destruct (Settings.parser_read e path) as [u|x];
    [|destruct (is_Exception x); discriminate H].
  assert (Hsection : exists c1,
            (if Settings.has_section e
             then Settings.read_client_section e (Settings.defaults e)
             else Ret (Settings.defaults e)) = Ret c1 /\
            keeps_keys (Settings.defaults e) c1).
  { destruct (Settings.has_section e).
    - destruct (Settings.read_client_section e (Settings.defaults e)) as [c1|x] eqn:Hc1;
        [|discriminate H].
      exists c1. split; [reflexivity|apply (read_client_section_keeps e), Hc1].
    - exists (Settings.defaults e). split; [reflexivity|apply keeps_keys_refl]. }
  destruct Hsection as (c1 & Hc1 & Hk1). rewrite Hc1 in H. cbn [bind] in H.
  destruct (Settings.import_blockchains e path Settings.DEFAULT_BLOCKCHAINS c1)
    as [c2|x] eqn:Hc2; cbn [bind] in H; [|discriminate H].
  apply import_blockchains_keeps in Hc2.
  destruct (getitem c2 "metadata") as [metadata|x]; cbn [bind] in H; [|discriminate H].
  destruct metadata as [| | | |metadata| |]; try discriminate H.
  destruct (negb (Settings.isdir e metadata)
            && negb (String.prefix (Settings.CONFIG_DIR e) metadata
                     && Settings.makedirs e metadata)); [discriminate H|].
  injection H as <-.
  assert (Hall : forall k, In k default_keys ->
            has_key k (<["dir" := PStr (Settings.dirname e path)]>
                       (<["path" := PStr path]> c2)) = true).
  { intros k Hk. apply keeps_keys_insert, keeps_keys_insert, Hc2, Hk1.
    apply defaults_keys, Hk. }
  split; [exact Hall|].
  split; [rewrite lookup_insert_ne by discriminate; apply lookup_insert_eq|].
  split; [apply lookup_insert_eq|].
  split.
  - unfold Settings.find_missing. cbn [List.filter].
    rewrite !Hall by (cbn; tauto). reflexivity.
  - rewrite !Hall by (cbn; tauto). reflexivity.
Qed.

Lemma get_config_has_every_key_witness :
  Settings.get_config (Samples.client_ini "6264" "6270") Samples.client_ini_path
  = Ret (Some Samples.client_config) /\
  Settings.find_missing Samples.client_config = [].
Proof.
  split; [vm_compute; exact eq_refl|].
  refine (proj1 (proj2 (proj2 (proj2
            (get_config_has_every_key (Samples.client_ini "6264" "6270")
               Samples.client_ini_path Samples.client_config _))))).
  vm_compute. exact eq_refl.
Defined.





(** ** [parse_servers] *)

Lemma split_without_separator (sep : ascii) (s : string) :
  contains_char sep s = false -> split sep s = [s].
Proof.
  induction s as [|c s IH]; cbn [contains_char split]; [reflexivity|].
  intros H. apply orb_false_iff in H as [Hc Hs]. rewrite Hc, (IH Hs). reflexivity.
Qed.

Lemma split_at_separator (sep : ascii) (a b : string) :
  contains_char sep a = false ->
  split sep (a ++ String sep b) = a :: split sep b.
Proof.
  induction a as [|c a IH].
  - intros _. change (split sep (String sep b) = EmptyString :: split sep b).
    cbn [split]. rewrite Ascii.eqb_refl. reflexivity.
  - intros H. cbn [contains_char] in H. apply orb_false_iff in H as [Hc Ha].
    change (split sep (String c (a ++ String sep b)) = String c a :: split sep b).
    cbn [split]. rewrite Hc, (IH Ha). reflexivity.
Qed.

Lemma contains_char_append (sep : ascii) (a b : string) :
  contains_char sep (a ++ b) = contains_char sep a || contains_char sep b.
Proof.
  induction a as [|c a IH]; [reflexivity|].
  change (contains_char sep (String c (a ++ b))
          = contains_char sep (String c a) || contains_char sep b).
  cbn [contains_char]. rewrite IH, orb_assoc. reflexivity.
Qed.

Lemma plain_no_separator (sep : ascii) (s : string) :
  plain_char sep = false -> plain s = true -> contains_char sep s = false.
Proof.
  intros Hsep. induction s as [|c s IH]; cbn [plain contains_char]; [reflexivity|].
  intros H. apply andb_true_iff in H as [Hc Hs]. rewrite (IH Hs), orb_false_r.
  destruct (Ascii.eqb_spec c sep) as [->|Hne]; [congruence|reflexivity].
Qed.

Lemma rstrip_no_space (s : string) :
  (forall c, is_space c = true -> contains_char c s = false) ->
  rstrip s = s.
Proof.
  induction s as [|c s IH]; cbn [rstrip]; [reflexivity|].
  intros H. rewrite IH.
  - destruct s as [|c' s']; [|reflexivity].
    destruct (is_space c) eqn:Hc; [|reflexivity].
    specialize (H c Hc). cbn in H. rewrite Ascii.eqb_refl in H. discriminate H.
  - intros c' Hc'. specialize (H c' Hc'). cbn [contains_char] in H.
    apply orb_false_iff in H as [_ H]. exact H.
Qed.

Lemma lstrip_no_space (s : string) :
  (forall c, is_space c = true -> contains_char c s = false) ->
  lstrip s = s.
Proof.
  destruct s as [|c s]; cbn [lstrip]; [reflexivity|].
  intros H. destruct (is_space c) eqn:Hc; [|reflexivity].
  specialize (H c Hc). cbn in H. rewrite Ascii.eqb_refl in H. discriminate H.
Qed.

Lemma strip_no_space (s : string) :
  (forall c, is_space c = true -> contains_char c s = false) ->
  strip s = s.
Proof.
  intros H. unfold strip. rewrite (lstrip_no_space s H). apply rstrip_no_space, H.
Qed.

Lemma entry_no_space (bi : Builtins) (s : Server) (c : ascii) :
  well_written bi s -> is_space c = true ->
  contains_char c (server_entry s) = false.
Proof.
  intros (Hh & Hp & _) Hc. unfold server_entry.
  assert (Hplain : plain_char c = false) by (unfold plain_char; rewrite Hc; reflexivity).
  rewrite contains_char_append, (plain_no_separator c _ Hplain Hh).
  change (":" ++ port_text s)%string with (String ":" (port_text s)).
  cbn [contains_char orb]. rewrite (plain_no_separator c _ Hplain Hp), orb_false_r.
  destruct (Ascii.eqb_spec ":" c) as [<-|Hne]; [discriminate Hc|reflexivity].
Qed.

Lemma entry_no_comma (bi : Builtins) (s : Server) :
  well_written bi s -> contains_char "," (server_entry s) = false.
Proof.
  intros (Hh & Hp & _). unfold server_entry.
  rewrite contains_char_append, (plain_no_separator "," _ eq_refl Hh).
  change (":" ++ port_text s)%string with (String ":" (port_text s)).
  cbn [contains_char orb]. rewrite (plain_no_separator "," _ eq_refl Hp). reflexivity.
Qed.

Lemma parse_entry (bi : Builtins) (s : Server) (rest : list string) :
  well_written bi s ->
  Settings.parse_server_list bi (server_entry s :: rest)
  = do parsed_servers <- Settings.parse_server_list bi rest;
    Ret ((host s, port s) :: parsed_servers).
Proof.
  intros Hs. cbn [Settings.parse_server_list].
  rewrite (strip_no_space _ (fun c => entry_no_space bi s c Hs)).
  pose proof Hs as (Hh & Hp & Hint).
  assert (Hlen : (String.length (server_entry s) =? 0)%nat = false).
  { unfold server_entry. destruct (host s); reflexivity. }
  rewrite Hlen. unfold server_entry.
  change (":" ++ port_text s)%string with (String ":" (port_text s)).
  rewrite (split_at_separator ":" _ _ (plain_no_separator ":" _ eq_refl Hh)).
  rewrite (split_without_separator ":" _ (plain_no_separator ":" _ eq_refl Hp)).
  rewrite Hint. reflexivity.
Qed.

(** X22.  [parse_servers] reads back a list of servers: for entries
    [host:port], joined by commas, in which host and port text have no
    whitespace, comma or colon and the port text is one that [int]
    reads, the result is the list of the hosts with their ports, in the
    order written; the empty text is the empty list. *)
Theorem parse_servers_reads_back (bi : Builtins) (servers : list Server) :
  Forall (well_written bi) servers ->
  Settings.parse_servers bi (join_commas (map server_entry servers))
  = Ret (map (fun s => (host s, port s)) servers).
Proof.
  unfold Settings.parse_servers.
  induction servers as [|s rest IH]; intros Hall; [reflexivity|].
  apply Forall_cons in Hall as [Hs Hrest]. specialize (IH Hrest).
  destruct rest as [|s' rest'].
  - cbn [map join_commas].
    rewrite (split_without_separator "," _ (entry_no_comma bi s Hs)).
    rewrite (parse_entry bi s [] Hs). reflexivity.
  - change (join_commas (map server_entry (s :: s' :: rest')))
      with (server_entry s ++ String "," (join_commas (map server_entry (s' :: rest')))).
    rewrite (split_at_separator "," _ _ (entry_no_comma bi s Hs)).
    rewrite (parse_entry bi s _ Hs), IH. reflexivity.
Qed.

Lemma parse_servers_reads_back_witness :
  Settings.parse_servers decimal_builtins "node.blockstack.org:6264,10.0.0.7:6265"
  = Ret [("node.blockstack.org", 6264); ("10.0.0.7", 6265)].
Proof.
  apply (parse_servers_reads_back decimal_builtins
           [ {| host := "node.blockstack.org"; port_text := "6264"; port := 6264 |};
             {| host := "10.0.0.7"; port_text := "6265"; port := 6265 |} ]).
  repeat constructor; vm_compute; reflexivity.
Defined.

Lemma length_zero_empty (s : string) :
  (String.length s =? 0)%nat = true <-> s = EmptyString.
Proof. destruct s; cbn; split; congruence. Qed.

Lemma parse_server_list_fails (bi : Builtins) (server_list : list string) :
  (Settings.parse_server_list bi server_list = Raise ValueError
   <-> exists field, In field server_list /\ malformed bi field)
  /\ (forall x, Settings.parse_server_list bi server_list = Raise x -> x = ValueError).
Proof.
  induction server_list as [|f rest [IH IHx]]; cbn [Settings.parse_server_list].
  - split; [|discriminate]. split; [discriminate|]. intros (field & [] & _).
  - destruct (String.length (strip f) =? 0)%nat eqn:Hlen.
    + apply length_zero_empty in Hlen. split; [|exact IHx].
      rewrite IH. split.
      * intros (field & Hin & Hbad). exists field. split; [right; exact Hin|exact Hbad].
      * intros (field & [<-|Hin] & Hbad); [destruct Hbad as [Hne _]; contradiction|].
        exists field. split; assumption.
    + assert (Hne : strip f <> EmptyString).
      { intros Heq. apply length_zero_empty in Heq. congruence. }
      assert (Hbad : (forall h p, split ":" (strip f) = [h; p] ->
                                  int_of_str bi p = None) ->
                     exists field, In field (f :: rest) /\ malformed bi field).
      { intros H. exists f. split; [left; reflexivity|]. split; assumption. }
      destruct (split ":" (strip f)) as [|h [|p [|q parts]]] eqn:Hsplit;
        try (split; [split; [intros _; apply Hbad; discriminate|reflexivity]
                    |intros x [= <-]; reflexivity]).
      destruct (int_of_str bi p) as [z|] eqn:Hint.
      * destruct (Settings.parse_server_list bi rest) as [parsed|x] eqn:Hrest;
          cbn [bind].
        -- split; [|discriminate]. split; [discriminate|].
           intros (field & [<-|Hin] & Hf).
           ++ destruct Hf as [_ Hf]. rewrite Hsplit in Hf.
              specialize (Hf h p eq_refl). congruence.
           ++ assert (Habs : Ret parsed = Raise ValueError)
                by (apply (proj2 IH); exists field; split; assumption).
              discriminate Habs.
        -- split; [|exact IHx]. rewrite IH. split.
           ++ intros (field & Hin & Hf). exists field. split; [right; exact Hin|exact Hf].
           ++ intros (field & [<-|Hin] & Hf).
              ** destruct Hf as [_ Hf]. rewrite Hsplit in Hf.
                 specialize (Hf h p eq_refl). congruence.
              ** exists field. split; assumption.
      * split; [|intros x [= <-]; reflexivity].
        split; [|reflexivity]. intros _. apply Hbad.
        intros h' p' [= <- <-]. exact Hint.
Qed.

(** X23.  [parse_servers] raises exactly when one of the fields between
    the commas is malformed: not blank, and not [host:port] with a port
    that [int] reads.  What it raises is then [ValueError], and blank
    fields are passed over. *)
Theorem parse_servers_fails_on_malformed (bi : Builtins) (servers : string) :
  (Settings.parse_servers bi servers = Raise ValueError
   <-> exists field, In field (split "," servers) /\ malformed bi field)
  /\ (forall x, Settings.parse_servers bi servers = Raise x -> x = ValueError).
Proof. exact (parse_server_list_fails bi (split "," servers)). Qed.
